(** * astro-session-viewer: the log parsers and the guiding/exposure correlation

    A shallow embedding of [parsers.py]: the PHD2 guide-log parser, the NINA
    log parser, the RMS aggregations of [PHD2Parser] and
    [correlate_guiding_with_exposures], followed by the properties the
    specification states about them.

    The development also covers [match_session_logs], the derived properties
    of the records and [SessionFinder], the discovery of the logs of a night
    in two folders, with properties of the code that the specification does
    not state (X1, X2, ...).

    Conventions of the embedding.
    - A log file is the list of its lines, in file order ([for line in f]).
      Characters are taken from the ASCII range, the one both tools write.
    - A Python object mutated in place ([self], the open session, an
      exposure) is a record value threaded through the code; the function
      returns the updated value.
    - An exception that leaves a function is the [Raised] outcome, carrying
      the state of [self] at the moment it is raised.
    - [datetime] is the number of microseconds since 0001-01-01T00:00:00 and
      [timedelta] a number of microseconds.
    - Python's [float], the numpy reductions and the conversions between
      floats and times are library code: they are the operations of the class
      [PyNum], and every definition and theorem is stated for an arbitrary
      instance of it. Two instances run the model on concrete logs:
      [Decimal6], exact decimal fixed point, and [Float64], the IEEE doubles
      of Python. *)

From Stdlib Require Import String Ascii List ZArith Lia Bool.
From Stdlib Require Floats Uint63.
Import ListNotations.
Open Scope string_scope.
Open Scope list_scope.
Open Scope Z_scope.

(** ** Strings *)

Module Str.

Definition chars (s : string) : list ascii := list_ascii_of_string s.
Definition of_chars (l : list ascii) : string := string_of_list_ascii l.

Definition code (c : ascii) : N := N_of_ascii c.

Definition is_digit (c : ascii) : bool :=
  ((48 <=? code c) && (code c <=? 57))%N.

Definition is_alpha (c : ascii) : bool :=
  (((65 <=? code c) && (code c <=? 90)) || ((97 <=? code c) && (code c <=? 122)))%N.

(** [\w] *)
Definition is_word (c : ascii) : bool :=
  is_digit c || is_alpha c || (code c =? 95)%N.

(** [[\d.]] *)
Definition is_digit_dot (c : ascii) : bool :=
  is_digit c || Ascii.eqb c "."%char.

(** [str.isspace] on one character: TAB, LF, VT, FF, CR, FS..US and space. *)
Definition is_space (c : ascii) : bool :=
  (((9 <=? code c) && (code c <=? 13)) ||
   ((28 <=? code c) && (code c <=? 31)) || (code c =? 32))%N.

(** [s.startswith(p)] *)
Definition startswith (p s : string) : bool := String.prefix p s.

(** [p in s] *)
Fixpoint contains (p s : string) : bool :=
  if String.prefix p s then true
  else match s with
       | EmptyString => false
       | String _ s' => contains p s'
       end.

Fixpoint lstrip (l : list ascii) : list ascii :=
  match l with
  | c :: l' => if is_space c then lstrip l' else l
  | [] => []
  end.

(** [s.strip()] *)
Definition strip (s : string) : string :=
  of_chars (rev (lstrip (rev (lstrip (chars s))))).

(** [s.split(',')]: the fields between commas, never an empty list. *)
Fixpoint split_on (sep : ascii) (l : list ascii) (cur : list ascii) : list string :=
  match l with
  | [] => [of_chars (rev cur)]
  | c :: l' =>
      if Ascii.eqb c sep then of_chars (rev cur) :: split_on sep l' []
      else split_on sep l' (c :: cur)
  end.

Definition split (sep : ascii) (s : string) : list string :=
  split_on sep (chars s) [].

(** [s[:n]] *)
Definition take (n : nat) (s : string) : string := of_chars (firstn n (chars s)).

(** [bool(s)] *)
Definition nonempty (s : string) : bool :=
  match s with EmptyString => false | _ => true end.

Definition digit_val (c : ascii) : Z := Z.of_N (code c) - 48.

(** The value of a run of decimal digits. *)
Definition decimal (l : list ascii) : Z :=
  fold_left (fun acc c => 10 * acc + digit_val c) l 0.

End Str.

(** ** Regular expressions

    The patterns of [parsers.py] use literals, character classes, bounded and
    unbounded repetition (greedy, and lazy in one place) and numbered groups.
    [Re.exec] is a backtracking matcher with the priorities of Python's [re]:
    a greedy loop tries one more iteration first, a lazy one tries to stop
    first, and the first successful path is the match. *)

Module Re.

Inductive regex : Type :=
| Eps
| Cls (p : ascii -> bool)
| Seq (r1 r2 : regex)
| Star (r : regex)
| LazyStar (r : regex)
| Group (n : nat) (r : regex).

(** The groups of a match: number and matched text, most recent first. *)
Definition caps := list (nat * string).

Fixpoint group (n : nat) (c : caps) : string :=
  match c with
  | [] => ""
  | (m, s) :: c' => if Nat.eqb m n then s else group n c'
  end.

Definition consumed (before after : list ascii) : list ascii :=
  firstn (length before - length after) before.

(** [exec r s c k]: match [r] at the head of [s], then hand the rest of
    the input and the groups to the continuation [k]; [None] makes the
    matcher backtrack. *)
Fixpoint exec (r : regex) (s : list ascii) (c : caps)
    (k : list ascii -> caps -> option caps) {struct r} : option caps :=
  match r with
  | Eps => k s c
  | Cls p =>
      match s with
      | a :: s' => if p a then k s' c else None
      | [] => None
      end
  | Seq r1 r2 => exec r1 s c (fun s' c' => exec r2 s' c' k)
  | Group n r1 =>
      exec r1 s c (fun s' c' => k s' ((n, Str.of_chars (consumed s s')) :: c'))
  | Star r1 =>
      (fix loop (fuel : nat) (s : list ascii) (c : caps) {struct fuel} : option caps :=
         match fuel with
         | O => k s c
         | S fuel' =>
             match exec r1 s c
                     (fun s' c' =>
                        if (length s' <? length s)%nat then loop fuel' s' c' else None)
             with
             | Some res => Some res
             | None => k s c
             end
         end) (length s) s c
  | LazyStar r1 =>
      (fix loop (fuel : nat) (s : list ascii) (c : caps) {struct fuel} : option caps :=
         match k s c with
         | Some res => Some res
         | None =>
             match fuel with
             | O => None
             | S fuel' =>
                 exec r1 s c
                   (fun s' c' =>
                      if (length s' <? length s)%nat then loop fuel' s' c' else None)
             end
         end) (length s) s c
  end.

(** [re.match(r, s)]: the groups of a match of [r] at the start of [s]. *)
Definition rmatch (r : regex) (s : string) : option caps :=
  exec r (Str.chars s) [] (fun _ c => Some c).

Fixpoint search_from (r : regex) (s : list ascii) : option caps :=
  match exec r s [] (fun _ c => Some c) with
  | Some c => Some c
  | None => match s with
            | [] => None
            | _ :: s' => search_from r s'
            end
  end.

(** [re.search(r, s)]: the groups of the leftmost match. *)
Definition search (r : regex) (s : string) : option caps :=
  search_from r (Str.chars s).

(** Pattern combinators. *)
Definition chr (a : ascii) : regex := Cls (Ascii.eqb a).
Definition lit (s : string) : regex :=
  fold_right (fun a r => Seq (chr a) r) Eps (Str.chars s).
Fixpoint rep (n : nat) (r : regex) : regex :=
  match n with O => Eps | S n' => Seq r (rep n' r) end.
Definition plus (r : regex) : regex := Seq r (Star r).
Definition lazy_plus (r : regex) : regex := Seq r (LazyStar r).
Fixpoint seqs (l : list regex) : regex :=
  match l with [] => Eps | r :: l' => Seq r (seqs l') end.

Definition d : regex := Cls Str.is_digit.                      (* \d *)
Definition w : regex := Cls Str.is_word.                       (* \w *)
Definition sp : regex := Cls Str.is_space.                     (* \s *)
Definition any : regex := Cls (fun a => negb (Ascii.eqb a "010"%char)).  (* . *)
Definition digit_dot : regex := Cls Str.is_digit_dot.           (* [\d.] *)
Definition minus_digit_dot : regex :=                          (* [-\d.] *)
  Cls (fun a => Ascii.eqb a "-"%char || Str.is_digit a || Ascii.eqb a "."%char).

(** Every text [r] matches consists of characters of the class [p]. *)
Fixpoint over (p : ascii -> bool) (r : regex) : Prop :=
  match r with
  | Eps => True
  | Cls q => forall a, q a = true -> p a = true
  | Seq r1 r2 => over p r1 /\ over p r2
  | Star r1 => over p r1
  | LazyStar r1 => over p r1
  | Group _ r1 => over p r1
  end.

(** Every group numbered [n] inside [r] only matches texts over [p]. *)
Fixpoint group_over (n : nat) (p : ascii -> bool) (r : regex) : Prop :=
  match r with
  | Eps => True
  | Cls _ => True
  | Seq r1 r2 => group_over n p r1 /\ group_over n p r2
  | Star r1 => group_over n p r1
  | LazyStar r1 => group_over n p r1
  | Group k r1 => (k = n -> over p r1) /\ group_over n p r1
  end.

(** Every text recorded for group [n] is over [p]. *)
Definition caps_over (n : nat) (p : ascii -> bool) (c : caps) : Prop :=
  Forall (fun e => fst e = n -> forallb p (Str.chars (snd e)) = true) c.

(** What a successful run of the matcher on [r] went through: the
    continuation was called on a rest of the input, the text consumed before
    it is over [p] when the pattern is, and the groups numbered [n] stay
    over [p]. *)
Definition run_sound (n : nat) (p : ascii -> bool) (r : regex) : Prop :=
  forall (s : list ascii) (c : caps) (k : list ascii -> caps -> option caps) (res : caps),
    caps_over n p c ->
    exec r s c k = Some res ->
    exists (l rest : list ascii) (c' : caps),
      s = l ++ rest /\ caps_over n p c' /\ k rest c' = Some res /\
      (over p r -> forallb p l = true).

End Re.

(** ** Dates and times *)

Module DateTime.

(** [datetime]: microseconds since 0001-01-01T00:00:00 (naive, as the
    parsers build it); [timedelta]: microseconds. *)
Definition datetime := Z.
Definition timedelta := Z.

Definition is_leap (y : Z) : bool :=
  (y mod 4 =? 0) && (negb (y mod 100 =? 0) || (y mod 400 =? 0)).

Definition days_in_month (y m : Z) : Z :=
  if m =? 2 then (if is_leap y then 29 else 28)
  else if (m =? 4) || (m =? 6) || (m =? 9) || (m =? 11) then 30
  else 31.

Definition days_before_year (y : Z) : Z :=
  let p := y - 1 in p * 365 + p / 4 - p / 100 + p / 400.

Fixpoint days_before_month_aux (y : Z) (n : nat) : Z :=
  match n with
  | O => 0
  | S n' => days_before_month_aux y n' + days_in_month y (Z.of_nat n)
  end.

Definition days_before_month (y m : Z) : Z :=
  days_before_month_aux y (Z.to_nat (m - 1)).

(** [date.toordinal()]: 0001-01-01 is day 1. *)
Definition ymd2ord (y m d : Z) : Z :=
  days_before_year y + days_before_month y m + d.

(** [datetime(y, m, d, H, M, S, us)]; [None] is its [ValueError]. *)
Definition make (y m d H M S us : Z) : option datetime :=
  if (1 <=? y) && (y <=? 9999) && (1 <=? m) && (m <=? 12) &&
     (1 <=? d) && (d <=? days_in_month y m) &&
     (0 <=? H) && (H <=? 23) && (0 <=? M) && (M <=? 59) &&
     (0 <=? S) && (S <=? 59) && (0 <=? us) && (us <=? 999999)
  then Some ((((ymd2ord y m d - 1) * 24 + H) * 60 + M) * 60 * 1000000
             + S * 1000000 + us)
  else None.

(** The date-and-time text the parsers hand to [strptime]: four digits,
    then two-digit fields, with [sep] between date and time, and, when
    [frac] is set, a dot and one to six digits ([%f]). The whole text
    must match. *)
Definition stamp_pattern (sep : ascii) (frac : bool) : Re.regex :=
  Re.seqs
    [Re.Group 1 (Re.rep 4 Re.d); Re.chr "-"; Re.Group 2 (Re.rep 2 Re.d); Re.chr "-";
     Re.Group 3 (Re.rep 2 Re.d); Re.chr sep;
     Re.Group 4 (Re.rep 2 Re.d); Re.chr ":"; Re.Group 5 (Re.rep 2 Re.d); Re.chr ":";
     Re.Group 6 (Re.rep 2 Re.d);
     if frac then Re.Seq (Re.chr ".") (Re.Group 7 (Re.plus Re.d)) else Re.Eps].

Definition num (n : nat) (c : Re.caps) : Z := Str.decimal (Str.chars (Re.group n c)).

(** [%f]: the digits, padded on the right to six. *)
Definition fraction (s : string) : Z :=
  Str.decimal (firstn 6 (Str.chars s ++ repeat "0"%char 6)).

(** [datetime.strptime(s, "%Y-%m-%d<sep>%H:%M:%S")] and, with [frac],
    [datetime.strptime(s, "%Y-%m-%d<sep>%H:%M:%S.%f")], on texts whose
    fields have the widths above; [None] is [ValueError]. *)
Definition strptime (sep : ascii) (frac : bool) (s : string) : option datetime :=
  match Re.exec (stamp_pattern sep frac) (Str.chars s) []
          (fun rest c => match rest with [] => Some c | _ => None end) with
  | None => None
  | Some c =>
      if frac && (6 <? Z.of_nat (String.length (Re.group 7 c))) then None
      else make (num 1 c) (num 2 c) (num 3 c) (num 4 c) (num 5 c) (num 6 c)
                (if frac then fraction (Re.group 7 c) else 0)
  end.

End DateTime.

Import DateTime.

(** ** The numeric library

    What [parsers.py] takes from Python's [float], from numpy and from
    [datetime]'s conversions between times and floats. *)

Class PyNum (F : Type) : Type := {
  f0 : F;                                   (* 0.0 *)
  f1 : F;                                   (* 1.0 *)
  f_truthy : F -> bool;                     (* bool(x) *)
  fadd : F -> F -> F;                       (* x + y *)
  fmul : F -> F -> F;                       (* x * y *)
  fpow2 : F -> F;                           (* x ** 2 *)
  f_geb : F -> F -> bool;                   (* x >= y *)
  np_square : list F -> list F;             (* np.square(values) *)
  np_mean : list F -> F;                    (* np.mean(array) *)
  np_sqrt : F -> F;                         (* float(np.sqrt(x)) *)
  py_float : string -> option F;            (* float(text); None: ValueError *)
  timestamp : datetime -> F;                (* dt.timestamp() *)
  fromtimestamp : F -> datetime;            (* datetime.fromtimestamp(x) *)
  timedelta_seconds : F -> timedelta;       (* timedelta(seconds=x) *)
  total_seconds : timedelta -> F            (* delta.total_seconds() *)
}.

(** [x >= 0.0] *)
Definition nonneg {F : Type} `{PyNum F} (x : F) : Prop := f_geb x f0 = true.

(** [x >= x]: [x] is a number. Of the floats every value but NaN is one:
    no comparison holds of NaN, not even with itself. *)
Definition is_number {F : Type} `{PyNum F} (x : F) : Prop := f_geb x x = true.

(** [x] is a non-negative number, or it is not a number. *)
Definition nonneg_or_nan {F : Type} `{PyNum F} (x : F) : Prop :=
  is_number x -> nonneg x.

(** The facts about signs that the RMS computations rest on, as they hold of
    IEEE arithmetic with its infinities and NaN: a square root is
    non-negative unless it is NaN (the root of a negative value, or of NaN);
    so is the product of two non-negative values (zero times infinity is
    NaN); a product is a number only if both factors are; a text of digits
    and dots converts to a non-negative value; and the root of the sum of
    the squares of two zeros is zero. *)
Class SignLaws (F : Type) `{PyNum F} : Prop := {
  nonneg_f0 : nonneg f0;
  nonneg_f1 : nonneg f1;
  nonneg_sqrt : forall x : F, nonneg_or_nan (np_sqrt x);
  nonneg_mul : forall a b : F, nonneg a -> nonneg b -> nonneg_or_nan (fmul a b);
  number_mul : forall a b : F, is_number (fmul a b) -> is_number a /\ is_number b;
  nonneg_float : forall (s : string) (x : F),
      forallb Str.is_digit_dot (Str.chars s) = true -> py_float s = Some x -> nonneg x;
  root_of_zero : np_sqrt (fadd (fpow2 f0) (fpow2 f0)) = f0
}.

(** [int(text)]: optional surrounding whitespace, an optional sign, decimal
    digits with single underscores between them; [None] is [ValueError]. *)
Module PyInt.

Fixpoint digits (l : list ascii) (prev_digit : bool) (acc : Z) : option Z :=
  match l with
  | [] => if prev_digit then Some acc else None
  | c :: l' =>
      if Str.is_digit c then digits l' true (10 * acc + Str.digit_val c)
      else if Ascii.eqb c "_"%char && prev_digit then
        match l' with
        | c' :: _ => if Str.is_digit c' then digits l' false acc else None
        | [] => None
        end
      else None
  end.

Definition py_int (s : string) : option Z :=
  match Str.chars (Str.strip s) with
  | "-"%char :: l => option_map Z.opp (digits l false 0)
  | "+"%char :: l => digits l false 0
  | l => digits l false 0
  end.

End PyInt.

Import PyInt.

(** ** Outcomes of code that can raise *)

(** A value, or the [ValueError] of a conversion. *)
Inductive result (A : Type) : Type :=
| Value (a : A)
| ValueError.
Arguments Value {A} a.
Arguments ValueError {A}.

(** A method run to its end, or left by an exception; either way with the
    state the object has at that moment. *)
Inductive outcome (S : Type) : Type :=
| Returned (s : S)
| Raised (s : S).
Arguments Returned {S} s.
Arguments Raised {S} s.

Definition state_of {S : Type} (o : outcome S) : S :=
  match o with Returned s => s | Raised s => s end.

Definition and_then {S : Type} (o : outcome S) (f : S -> outcome S) : outcome S :=
  match o with
  | Returned s => f s
  | Raised s => Raised s
  end.

Notation "o >>> f" := (and_then o f) (at level 50, left associativity).

(** A loop [for x in xs: body], left at the first exception. *)
Fixpoint for_each {S X : Type} (body : S -> X -> outcome S) (s : S) (xs : list X)
    : outcome S :=
  match xs with
  | [] => Returned s
  | x :: xs' =>
      match body s x with
      | Returned s' => for_each body s' xs'
      | Raised s' => Raised s'
      end
  end.

Definition is_some {A : Type} (o : option A) : bool :=
  match o with Some _ => true | None => false end.

(** ** The data model *)

Module GuidingFrame.
Record t (F : Type) : Type := mk {
  frame : Z;
  time : F;
  dx : F;
  dy : F;
  ra_raw : F;
  dec_raw : F;
  ra_guide : F;
  dec_guide : F;
  ra_duration : Z;
  dec_duration : Z;
  ra_direction : string;
  dec_direction : string;
  star_mass : F;
  snr : F;
  error_code : Z
}.
Arguments mk {F}.
Arguments frame {F}.
Arguments time {F}.
Arguments dx {F}.
Arguments dy {F}.
Arguments ra_raw {F}.
Arguments dec_raw {F}.
Arguments ra_guide {F}.
Arguments dec_guide {F}.
Arguments ra_duration {F}.
Arguments dec_duration {F}.
Arguments ra_direction {F}.
Arguments dec_direction {F}.
Arguments star_mass {F}.
Arguments snr {F}.
Arguments error_code {F}.
End GuidingFrame.

Module GuidingSession.
Section WithNum.
Context {F : Type} `{PyNum F}.

Record t : Type := mk {
  start_time : datetime;
  end_time : option datetime;
  equipment_profile : string;
  pixel_scale : F;
  focal_length : Z;
  ra : F;
  dec : F;
  hour_angle : F;
  pier_side : string;
  altitude : F;
  azimuth : F;
  frames : list (GuidingFrame.t F)
}.

(** [GuidingSession(start_time=st)]: the dataclass defaults. *)
Definition new (st : datetime) : t :=
  mk st None "" f0 0 f0 f0 f0 "" f0 f0 [].

Definition set_end_time (v : option datetime) (s : t) : t :=
  mk (start_time s) v (equipment_profile s) (pixel_scale s) (focal_length s)
     (ra s) (dec s) (hour_angle s) (pier_side s) (altitude s) (azimuth s) (frames s).
Definition set_equipment_profile (v : string) (s : t) : t :=
  mk (start_time s) (end_time s) v (pixel_scale s) (focal_length s)
     (ra s) (dec s) (hour_angle s) (pier_side s) (altitude s) (azimuth s) (frames s).
Definition set_pixel_scale (v : F) (s : t) : t :=
  mk (start_time s) (end_time s) (equipment_profile s) v (focal_length s)
     (ra s) (dec s) (hour_angle s) (pier_side s) (altitude s) (azimuth s) (frames s).
Definition set_focal_length (v : Z) (s : t) : t :=
  mk (start_time s) (end_time s) (equipment_profile s) (pixel_scale s) v
     (ra s) (dec s) (hour_angle s) (pier_side s) (altitude s) (azimuth s) (frames s).
Definition set_pointing (vra vdec vha : F) (vps : string) (valt vaz : F) (s : t) : t :=
  mk (start_time s) (end_time s) (equipment_profile s) (pixel_scale s) (focal_length s)
     vra vdec vha vps valt vaz (frames s).
Definition set_frames (v : list (GuidingFrame.t F)) (s : t) : t :=
  mk (start_time s) (end_time s) (equipment_profile s) (pixel_scale s) (focal_length s)
     (ra s) (dec s) (hour_angle s) (pier_side s) (altitude s) (azimuth s) v.

(** [float(np.sqrt(np.mean(np.square(values))))] *)
Definition rms_px (values : list F) : F := np_sqrt (np_mean (np_square values)).

(** [np.sqrt(a**2 + b**2)] *)
Definition quadrature (a b : F) : F := np_sqrt (fadd (fpow2 a) (fpow2 b)).

Definition ra_rms (self : t) : F :=
  match frames self with
  | [] => f0
  | _ =>
      let ra_values := map GuidingFrame.ra_raw (frames self) in
      let px := rms_px ra_values in
      if f_truthy (pixel_scale self) then fmul px (pixel_scale self) else px
  end.

Definition dec_rms (self : t) : F :=
  match frames self with
  | [] => f0
  | _ =>
      let dec_values := map GuidingFrame.dec_raw (frames self) in
      let px := rms_px dec_values in
      if f_truthy (pixel_scale self) then fmul px (pixel_scale self) else px
  end.

Definition total_rms (self : t) : F :=
  match frames self with
  | [] => f0
  | _ => quadrature (ra_rms self) (dec_rms self)
  end.

(** [duration_seconds]: a [datetime] is always truthy, so the test is
    whether [end_time] is set. *)
Definition duration_seconds (self : t) : F :=
  match end_time self with
  | Some e => total_seconds (e - start_time self)
  | None => f0
  end.

End WithNum.
Arguments t F : clear implicits.
End GuidingSession.

Module AutofocusRun.
Record t (F : Type) : Type := mk {
  timestamp : datetime;
  trigger : string;
  filter_name : string;
  initial_position : Z;
  final_position : Z;
  final_hfr : F;
  temperature : option F
}.
Arguments mk {F}.
Arguments timestamp {F}.
Arguments trigger {F}.
Arguments filter_name {F}.
Arguments initial_position {F}.
Arguments final_position {F}.
Arguments final_hfr {F}.
Arguments temperature {F}.

Definition set_trigger {F} (v : string) (a : t F) : t F :=
  mk (timestamp a) v (filter_name a) (initial_position a) (final_position a)
     (final_hfr a) (temperature a).
Definition set_initial_position {F} (v : Z) (a : t F) : t F :=
  mk (timestamp a) (trigger a) (filter_name a) v (final_position a)
     (final_hfr a) (temperature a).
Definition set_final_position {F} (v : Z) (a : t F) : t F :=
  mk (timestamp a) (trigger a) (filter_name a) (initial_position a) v
     (final_hfr a) (temperature a).
Definition set_final_hfr {F} (v : F) (a : t F) : t F :=
  mk (timestamp a) (trigger a) (filter_name a) (initial_position a) (final_position a)
     v (temperature a).
Definition set_temperature {F} (v : option F) (a : t F) : t F :=
  mk (timestamp a) (trigger a) (filter_name a) (initial_position a) (final_position a)
     (final_hfr a) v.
End AutofocusRun.

Module Exposure.
Record t (F : Type) : Type := mk {
  timestamp : datetime;
  exposure_time : F;
  filter_name : string;
  gain : Z;
  offset : Z;
  binning : string;
  image_type : string;
  hfr : option F;
  stars_detected : option Z;
  saved_path : option string;
  ra_rms : option F;
  dec_rms : option F;
  total_rms : option F;
  guiding_frames : Z
}.
Arguments mk {F}.
Arguments timestamp {F}.
Arguments exposure_time {F}.
Arguments filter_name {F}.
Arguments gain {F}.
Arguments offset {F}.
Arguments binning {F}.
Arguments image_type {F}.
Arguments hfr {F}.
Arguments stars_detected {F}.
Arguments saved_path {F}.
Arguments ra_rms {F}.
Arguments dec_rms {F}.
Arguments total_rms {F}.
Arguments guiding_frames {F}.

(** [Exposure(timestamp=, exposure_time=, filter_name=, gain=, offset=,
    binning=)]: the dataclass defaults for the rest. *)
Definition new {F} (ts : datetime) (et : F) (fn : string) (g o : Z) (b : string) : t F :=
  mk ts et fn g o b "LIGHT" None None None None None None 0.

Definition set_hfr {F} (v : option F) (e : t F) : t F :=
  mk (timestamp e) (exposure_time e) (filter_name e) (gain e) (offset e) (binning e)
     (image_type e) v (stars_detected e) (saved_path e)
     (ra_rms e) (dec_rms e) (total_rms e) (guiding_frames e).
Definition set_stars_detected {F} (v : option Z) (e : t F) : t F :=
  mk (timestamp e) (exposure_time e) (filter_name e) (gain e) (offset e) (binning e)
     (image_type e) (hfr e) v (saved_path e)
     (ra_rms e) (dec_rms e) (total_rms e) (guiding_frames e).
Definition set_saved_path {F} (v : option string) (e : t F) : t F :=
  mk (timestamp e) (exposure_time e) (filter_name e) (gain e) (offset e) (binning e)
     (image_type e) (hfr e) (stars_detected e) v
     (ra_rms e) (dec_rms e) (total_rms e) (guiding_frames e).
(** The four fields [correlate_guiding_with_exposures] writes. *)
Definition set_guiding {F} (vra vdec vtotal : option F) (n : Z) (e : t F) : t F :=
  mk (timestamp e) (exposure_time e) (filter_name e) (gain e) (offset e) (binning e)
     (image_type e) (hfr e) (stars_detected e) (saved_path e)
     vra vdec vtotal n.
End Exposure.

Module FilterChange.
Record t : Type := mk {
  timestamp : datetime;
  filter_name : string;
  position : Z
}.
End FilterChange.

Module MeridianFlip.
Record t : Type := mk {
  timestamp : datetime;
  from_pier_side : string;
  to_pier_side : string
}.
End MeridianFlip.

Module RMSAlert.
Record t (F : Type) : Type := mk {
  timestamp : datetime;
  total_rms : F;
  ra_rms : F;
  dec_rms : F;
  threshold : F
}.
Arguments mk {F}.
Arguments timestamp {F}.
Arguments total_rms {F}.
Arguments ra_rms {F}.
Arguments dec_rms {F}.
Arguments threshold {F}.
End RMSAlert.

Module DitherEvent.
Record t : Type := mk {
  start_time : datetime;
  end_time : option datetime
}.
Definition set_end_time (v : option datetime) (e : t) : t := mk (start_time e) v.

(** [duration_seconds] *)
Definition duration_seconds {F : Type} `{PyNum F} (self : t) : F :=
  match end_time self with
  | Some e => total_seconds (e - start_time self)
  | None => f0
  end.
End DitherEvent.

(** [bool(dither_events)] for an [Optional[list]]: neither [None] nor empty. *)
Definition list_truthy {A : Type} (o : option (list A)) : bool :=
  match o with
  | Some (_ :: _) => true
  | _ => false
  end.

Definition list_of {A : Type} (o : option (list A)) : list A :=
  match o with
  | Some l => l
  | None => []
  end.

(** [x <- e ;; k]: [k] with the value of [e], [None] when [e] has none. *)
Notation "x <- e ;; k" :=
  (match e with Some x => k | None => None end)
  (at level 60, e at next level, right associativity).

(** ** The PHD2 guide-log parser *)

Module PHD2Parser.
Section WithNum.
Context {F : Type} `{PyNum F}.

Record t : Type := mk {
  sessions : list (GuidingSession.t F);
  log_date : option datetime
}.

(** [PHD2Parser()] *)
Definition init : t := mk [] None.

Definition set_sessions (v : list (GuidingSession.t F)) (self : t) : t :=
  mk v (log_date self).
Definition set_log_date (v : option datetime) (self : t) : t :=
  mk (sessions self) v.

(** [\d{4}-\d{2}-\d{2} \d{2}:\d{2}:\d{2}] *)
Definition re_date_time : Re.regex :=
  Re.seqs [Re.rep 4 Re.d; Re.chr "-"; Re.rep 2 Re.d; Re.chr "-"; Re.rep 2 Re.d;
           Re.chr " "; Re.rep 2 Re.d; Re.chr ":"; Re.rep 2 Re.d; Re.chr ":";
           Re.rep 2 Re.d].

(** [Log enabled at (\d{4}-\d{2}-\d{2} \d{2}:\d{2}:\d{2})] *)
Definition re_log_enabled : Re.regex :=
  Re.Seq (Re.lit "Log enabled at ") (Re.Group 1 re_date_time).

(** [Guiding Begins at (\d{4}-\d{2}-\d{2} \d{2}:\d{2}:\d{2})] *)
Definition re_begins : Re.regex :=
  Re.Seq (Re.lit "Guiding Begins at ") (Re.Group 1 re_date_time).

(** [Guiding Ends at (\d{4}-\d{2}-\d{2} \d{2}:\d{2}:\d{2})] *)
Definition re_ends : Re.regex :=
  Re.Seq (Re.lit "Guiding Ends at ") (Re.Group 1 re_date_time).

(** [Equipment Profile = (.+)] *)
Definition re_profile : Re.regex :=
  Re.Seq (Re.lit "Equipment Profile = ") (Re.Group 1 (Re.plus Re.any)).

(** [Pixel scale = ([\d.]+).*Focal length = (\d+)] *)
Definition re_pixel_scale : Re.regex :=
  Re.seqs [Re.lit "Pixel scale = "; Re.Group 1 (Re.plus Re.digit_dot); Re.Star Re.any;
           Re.lit "Focal length = "; Re.Group 2 (Re.plus Re.d)].

(** [RA = ([\d.]+) hr, Dec = ([-\d.]+) deg, Hour angle = ([-\d.]+) hr, ]
    [Pier side = (\w+).*Alt = ([\d.]+) deg, Az = ([\d.]+) deg] *)
Definition re_pointing : Re.regex :=
  Re.seqs [Re.lit "RA = "; Re.Group 1 (Re.plus Re.digit_dot);
           Re.lit " hr, Dec = "; Re.Group 2 (Re.plus Re.minus_digit_dot);
           Re.lit " deg, Hour angle = "; Re.Group 3 (Re.plus Re.minus_digit_dot);
           Re.lit " hr, Pier side = "; Re.Group 4 (Re.plus Re.w); Re.Star Re.any;
           Re.lit "Alt = "; Re.Group 5 (Re.plus Re.digit_dot);
           Re.lit " deg, Az = "; Re.Group 6 (Re.plus Re.digit_dot); Re.lit " deg"].

(** [^\d+,] *)
Definition re_frame_line : Re.regex := Re.Seq (Re.plus Re.d) (Re.chr ",").

(** [int(p) if p else 0] and [float(p) if p else 0.0] *)
Definition int_or_0 (p : string) : option Z :=
  if Str.nonempty p then py_int p else Some 0.
Definition float_or_0 (p : string) : option F :=
  if Str.nonempty p then py_float p else Some f0.

(** [_parse_frame]: [None] for a line with fewer than 18 fields or with a
    field that does not convert (the [except] branch). *)
Definition _parse_frame (line : string) : option (GuidingFrame.t F) :=
  let parts := Str.split "," line in
  if (length parts <? 18)%nat then None
  else
    let part (i : nat) := nth i parts "" in
    frame <- py_int (part 0%nat) ;;
    time <- py_float (part 1%nat) ;;
    dx <- py_float (part 3%nat) ;;
    dy <- py_float (part 4%nat) ;;
    ra_raw <- py_float (part 5%nat) ;;
    dec_raw <- py_float (part 6%nat) ;;
    ra_guide <- py_float (part 7%nat) ;;
    dec_guide <- py_float (part 8%nat) ;;
    ra_duration <- int_or_0 (part 9%nat) ;;
    dec_duration <- int_or_0 (part 11%nat) ;;
    star_mass <- float_or_0 (part 15%nat) ;;
    snr <- float_or_0 (part 16%nat) ;;
    error_code <- int_or_0 (part 17%nat) ;;
    Some (GuidingFrame.mk frame time dx dy ra_raw dec_raw ra_guide dec_guide
            ra_duration dec_duration (part 10%nat) (part 12%nat)
            star_mass snr error_code).

(** The state of the scan: [self] and the local [current_session]. *)
Definition scan : Type := (t * option (GuidingSession.t F))%type.

(** The body of the loop of [parse] for one line: the [if]/[elif] chain. *)
Definition parse_line (st : scan) (raw : string) : outcome scan :=
  let line := Str.strip raw in
  let '(self, current_session) := st in
  if Str.startswith "PHD2 version" line then
    match Re.search re_log_enabled line with
    | Some m =>
        match strptime " " false (Re.group 1 m) with
        | Some dt => Returned (set_log_date (Some dt) self, current_session)
        | None => Raised st
        end
    | None => Returned st
    end
  else if Str.startswith "Guiding Begins at" line then
    match Re.search re_begins line with
    | Some m =>
        match strptime " " false (Re.group 1 m) with
        | Some dt => Returned (self, Some (GuidingSession.new dt))
        | None => Raised st
        end
    | None => Returned st
    end
  else if Str.startswith "Equipment Profile" line && is_some current_session then
    match current_session, Re.search re_profile line with
    | Some cs, Some m =>
        Returned (self, Some (GuidingSession.set_equipment_profile (Re.group 1 m) cs))
    | _, _ => Returned st
    end
  else if Str.startswith "Pixel scale" line && is_some current_session then
    match current_session, Re.search re_pixel_scale line with
    | Some cs, Some m =>
        match py_float (Re.group 1 m) with
        | Some ps =>
            let cs := GuidingSession.set_pixel_scale ps cs in
            match py_int (Re.group 2 m) with
            | Some fl => Returned (self, Some (GuidingSession.set_focal_length fl cs))
            | None => Raised (self, Some cs)
            end
        | None => Raised st
        end
    | _, _ => Returned st
    end
  else if Str.startswith "RA =" line && is_some current_session then
    match current_session, Re.search re_pointing line with
    | Some cs, Some m =>
        match py_float (Re.group 1 m), py_float (Re.group 2 m), py_float (Re.group 3 m),
              py_float (Re.group 5 m), py_float (Re.group 6 m) with
        | Some vra, Some vdec, Some vha, Some valt, Some vaz =>
            Returned (self,
                      Some (GuidingSession.set_pointing vra vdec vha (Re.group 4 m)
                              valt vaz cs))
        | _, _, _, _, _ => Raised st
        end
    | _, _ => Returned st
    end
  else if is_some current_session && is_some (Re.rmatch re_frame_line line) then
    match current_session, _parse_frame line with
    | Some cs, Some frame =>
        Returned (self,
                  Some (GuidingSession.set_frames (GuidingSession.frames cs ++ [frame]) cs))
    | _, _ => Returned st
    end
  else if Str.startswith "Guiding Ends at" line then
    match Re.search re_ends line, current_session with
    | Some m, Some cs =>
        match strptime " " false (Re.group 1 m) with
        | Some dt =>
            Returned (set_sessions
                        (sessions self ++ [GuidingSession.set_end_time (Some dt) cs]) self,
                      None)
        | None => Raised st
        end
    | _, _ => Returned st
    end
  else Returned st.

(** [parse]: the session list is emptied, then the lines are scanned. *)
Definition parse (self : t) (lines : list string) : outcome t :=
  let self := set_sessions [] self in
  match for_each parse_line (self, None) lines with
  | Returned (self', _) => Returned self'
  | Raised (self', _) => Raised self'
  end.

(** [_is_during_dither] *)
Fixpoint _is_during_dither (timestamp : datetime) (dither_events : list DitherEvent.t)
    (margin_seconds : F) : bool :=
  let margin := timedelta_seconds margin_seconds in
  match dither_events with
  | [] => false
  | dither :: rest =>
      let start := DitherEvent.start_time dither - margin in
      let end_ :=
        match DitherEvent.end_time dither with
        | Some e => e
        | None => DitherEvent.start_time dither
        end + margin in
      if (start <=? timestamp) && (timestamp <=? end_) then true
      else _is_during_dither timestamp rest margin_seconds
  end.

(** The absolute time of a frame:
    [datetime.fromtimestamp(session.start_time.timestamp() + frame.time)]. *)
Definition frame_dt (session : GuidingSession.t F) (frame : GuidingFrame.t F) : datetime :=
  fromtimestamp (fadd (timestamp (GuidingSession.start_time session))
                      (GuidingFrame.time frame)).

(** [dither_events and self._is_during_dither(frame_dt, dither_events, margin)] *)
Definition skipped (dither_events : option (list DitherEvent.t)) (margin : F)
    (dt : datetime) : bool :=
  list_truthy dither_events && _is_during_dither dt (list_of dither_events) margin.

(** One row of [get_rms_over_time]: the statistics of a bucket. *)
Definition bucket_row (pixel_scale : F) (bucket_start : datetime)
    (current_bucket : list (GuidingFrame.t F)) : datetime * F * F * F :=
  let ra_vals := map GuidingFrame.ra_raw current_bucket in
  let dec_vals := map GuidingFrame.dec_raw current_bucket in
  let ra_rms := fmul (GuidingSession.rms_px ra_vals) pixel_scale in
  let dec_rms := fmul (GuidingSession.rms_px dec_vals) pixel_scale in
  let total_rms := GuidingSession.quadrature ra_rms dec_rms in
  (bucket_start, ra_rms, dec_rms, total_rms).

(** The variables of the frame loop of [get_rms_over_time]. *)
Record buckets : Type := mk_buckets {
  results : list (datetime * F * F * F);
  current_bucket : list (GuidingFrame.t F);
  bucket_start : datetime
}.

Definition bucket_frame (interval_seconds : F) (dither_events : option (list DitherEvent.t))
    (dither_margin_seconds : F) (session : GuidingSession.t F) (pixel_scale : F)
    (b : buckets) (frame : GuidingFrame.t F) : buckets :=
  let dt := frame_dt session frame in
  if skipped dither_events dither_margin_seconds dt then b
  else if f_geb (total_seconds (dt - bucket_start b)) interval_seconds then
    let results' :=
      match current_bucket b with
      | [] => results b
      | _ => results b ++ [bucket_row pixel_scale (bucket_start b) (current_bucket b)]
      end in
    mk_buckets results' [frame] dt
  else mk_buckets (results b) (current_bucket b ++ [frame]) (bucket_start b).

(** The body of the session loop of [get_rms_over_time]. *)
Definition bucket_session (interval_seconds : F)
    (dither_events : option (list DitherEvent.t)) (dither_margin_seconds : F)
    (results0 : list (datetime * F * F * F)) (session : GuidingSession.t F)
    : list (datetime * F * F * F) :=
  match GuidingSession.frames session with
  | [] => results0
  | _ =>
      let pixel_scale :=
        if f_truthy (GuidingSession.pixel_scale session)
        then GuidingSession.pixel_scale session else f1 in
      let b := fold_left
                 (bucket_frame interval_seconds dither_events dither_margin_seconds
                    session pixel_scale)
                 (GuidingSession.frames session)
                 (mk_buckets results0 [] (GuidingSession.start_time session)) in
      match current_bucket b with
      | [] => results b
      | _ => results b ++ [bucket_row pixel_scale (bucket_start b) (current_bucket b)]
      end
  end.

Definition get_rms_over_time (self : t) (interval_seconds : F)
    (dither_events : option (list DitherEvent.t)) (dither_margin_seconds : F)
    : list (datetime * F * F * F) :=
  fold_left (bucket_session interval_seconds dither_events dither_margin_seconds)
            (sessions self) [].

(** The variables of the session loop of [get_overall_rms]. *)
Record overall : Type := mk_overall {
  all_ra : list F;
  all_dec : list F;
  overall_pixel_scale : F
}.

Definition overall_frame (dither_events : option (list DitherEvent.t))
    (dither_margin_seconds : F) (session : GuidingSession.t F)
    (o : overall) (frame : GuidingFrame.t F) : overall :=
  if skipped dither_events dither_margin_seconds (frame_dt session frame) then o
  else mk_overall (all_ra o ++ [GuidingFrame.ra_raw frame])
                  (all_dec o ++ [GuidingFrame.dec_raw frame])
                  (overall_pixel_scale o).

Definition overall_session (dither_events : option (list DitherEvent.t))
    (dither_margin_seconds : F) (o : overall) (session : GuidingSession.t F) : overall :=
  let o :=
    if f_truthy (GuidingSession.pixel_scale session)
    then mk_overall (all_ra o) (all_dec o) (GuidingSession.pixel_scale session)
    else o in
  fold_left (overall_frame dither_events dither_margin_seconds session)
            (GuidingSession.frames session) o.

Definition get_overall_rms (self : t) (dither_events : option (list DitherEvent.t))
    (dither_margin_seconds : F) : F * F * F :=
  let o := fold_left (overall_session dither_events dither_margin_seconds)
                     (sessions self) (mk_overall [] [] f1) in
  match all_ra o with
  | [] => (f0, f0, f0)
  | _ =>
      let ra_rms := fmul (GuidingSession.rms_px (all_ra o)) (overall_pixel_scale o) in
      let dec_rms := fmul (GuidingSession.rms_px (all_dec o)) (overall_pixel_scale o) in
      let total_rms := GuidingSession.quadrature ra_rms dec_rms in
      (ra_rms, dec_rms, total_rms)
  end.

End WithNum.
Arguments t F : clear implicits.
Arguments scan F : clear implicits.
Arguments buckets F : clear implicits.
Arguments overall F : clear implicits.
End PHD2Parser.

(** ** The NINA log parser *)

Module NINAParser.
Section WithNum.
Context {F : Type} `{PyNum F}.

Record t : Type := mk {
  autofocus_runs : list (AutofocusRun.t F);
  exposures : list (Exposure.t F);
  filter_changes : list FilterChange.t;
  meridian_flips : list MeridianFlip.t;
  rms_alerts : list (RMSAlert.t F);
  dither_events : list DitherEvent.t;
  target_name : string;
  session_start : option datetime;
  session_end : option datetime;
  _current_filter : string;
  _current_pier_side : string;
  _pending_af : option (AutofocusRun.t F);
  _pending_exposure : option (Exposure.t F);
  _pending_dither : option DitherEvent.t;
  _last_hfr : option F;
  _last_stars : option Z
}.

(** [NINAParser()] *)
Definition init : t :=
  mk [] [] [] [] [] [] "" None None "" "" None None None None None.

Definition set_autofocus_runs (v : list (AutofocusRun.t F)) (s : t) : t :=
  mk v (exposures s) (filter_changes s) (meridian_flips s) (rms_alerts s)
     (dither_events s) (target_name s) (session_start s) (session_end s)
     (_current_filter s) (_current_pier_side s) (_pending_af s) (_pending_exposure s)
     (_pending_dither s) (_last_hfr s) (_last_stars s).
Definition set_exposures (v : list (Exposure.t F)) (s : t) : t :=
  mk (autofocus_runs s) v (filter_changes s) (meridian_flips s) (rms_alerts s)
     (dither_events s) (target_name s) (session_start s) (session_end s)
     (_current_filter s) (_current_pier_side s) (_pending_af s) (_pending_exposure s)
     (_pending_dither s) (_last_hfr s) (_last_stars s).
Definition set_filter_changes (v : list FilterChange.t) (s : t) : t :=
  mk (autofocus_runs s) (exposures s) v (meridian_flips s) (rms_alerts s)
     (dither_events s) (target_name s) (session_start s) (session_end s)
     (_current_filter s) (_current_pier_side s) (_pending_af s) (_pending_exposure s)
     (_pending_dither s) (_last_hfr s) (_last_stars s).
Definition set_meridian_flips (v : list MeridianFlip.t) (s : t) : t :=
  mk (autofocus_runs s) (exposures s) (filter_changes s) v (rms_alerts s)
     (dither_events s) (target_name s) (session_start s) (session_end s)
     (_current_filter s) (_current_pier_side s) (_pending_af s) (_pending_exposure s)
     (_pending_dither s) (_last_hfr s) (_last_stars s).
Definition set_rms_alerts (v : list (RMSAlert.t F)) (s : t) : t :=
  mk (autofocus_runs s) (exposures s) (filter_changes s) (meridian_flips s) v
     (dither_events s) (target_name s) (session_start s) (session_end s)
     (_current_filter s) (_current_pier_side s) (_pending_af s) (_pending_exposure s)
     (_pending_dither s) (_last_hfr s) (_last_stars s).
Definition set_dither_events (v : list DitherEvent.t) (s : t) : t :=
  mk (autofocus_runs s) (exposures s) (filter_changes s) (meridian_flips s) (rms_alerts s)
     v (target_name s) (session_start s) (session_end s)
     (_current_filter s) (_current_pier_side s) (_pending_af s) (_pending_exposure s)
     (_pending_dither s) (_last_hfr s) (_last_stars s).
Definition set_target_name (v : string) (s : t) : t :=
  mk (autofocus_runs s) (exposures s) (filter_changes s) (meridian_flips s) (rms_alerts s)
     (dither_events s) v (session_start s) (session_end s)
     (_current_filter s) (_current_pier_side s) (_pending_af s) (_pending_exposure s)
     (_pending_dither s) (_last_hfr s) (_last_stars s).
Definition set_session_start (v : option datetime) (s : t) : t :=
  mk (autofocus_runs s) (exposures s) (filter_changes s) (meridian_flips s) (rms_alerts s)
     (dither_events s) (target_name s) v (session_end s)
     (_current_filter s) (_current_pier_side s) (_pending_af s) (_pending_exposure s)
     (_pending_dither s) (_last_hfr s) (_last_stars s).
Definition set_session_end (v : option datetime) (s : t) : t :=
  mk (autofocus_runs s) (exposures s) (filter_changes s) (meridian_flips s) (rms_alerts s)
     (dither_events s) (target_name s) (session_start s) v
     (_current_filter s) (_current_pier_side s) (_pending_af s) (_pending_exposure s)
     (_pending_dither s) (_last_hfr s) (_last_stars s).
Definition set_current_filter (v : string) (s : t) : t :=
  mk (autofocus_runs s) (exposures s) (filter_changes s) (meridian_flips s) (rms_alerts s)
     (dither_events s) (target_name s) (session_start s) (session_end s)
     v (_current_pier_side s) (_pending_af s) (_pending_exposure s)
     (_pending_dither s) (_last_hfr s) (_last_stars s).
Definition set_current_pier_side (v : string) (s : t) : t :=
  mk (autofocus_runs s) (exposures s) (filter_changes s) (meridian_flips s) (rms_alerts s)
     (dither_events s) (target_name s) (session_start s) (session_end s)
     (_current_filter s) v (_pending_af s) (_pending_exposure s)
     (_pending_dither s) (_last_hfr s) (_last_stars s).
Definition set_pending_af (v : option (AutofocusRun.t F)) (s : t) : t :=
  mk (autofocus_runs s) (exposures s) (filter_changes s) (meridian_flips s) (rms_alerts s)
     (dither_events s) (target_name s) (session_start s) (session_end s)
     (_current_filter s) (_current_pier_side s) v (_pending_exposure s)
     (_pending_dither s) (_last_hfr s) (_last_stars s).
Definition set_pending_exposure (v : option (Exposure.t F)) (s : t) : t :=
  mk (autofocus_runs s) (exposures s) (filter_changes s) (meridian_flips s) (rms_alerts s)
     (dither_events s) (target_name s) (session_start s) (session_end s)
     (_current_filter s) (_current_pier_side s) (_pending_af s) v
     (_pending_dither s) (_last_hfr s) (_last_stars s).
Definition set_pending_dither (v : option DitherEvent.t) (s : t) : t :=
  mk (autofocus_runs s) (exposures s) (filter_changes s) (meridian_flips s) (rms_alerts s)
     (dither_events s) (target_name s) (session_start s) (session_end s)
     (_current_filter s) (_current_pier_side s) (_pending_af s) (_pending_exposure s)
     v (_last_hfr s) (_last_stars s).
Definition set_last_hfr (v : option F) (s : t) : t :=
  mk (autofocus_runs s) (exposures s) (filter_changes s) (meridian_flips s) (rms_alerts s)
     (dither_events s) (target_name s) (session_start s) (session_end s)
     (_current_filter s) (_current_pier_side s) (_pending_af s) (_pending_exposure s)
     (_pending_dither s) v (_last_stars s).
Definition set_last_stars (v : option Z) (s : t) : t :=
  mk (autofocus_runs s) (exposures s) (filter_changes s) (meridian_flips s) (rms_alerts s)
     (dither_events s) (target_name s) (session_start s) (session_end s)
     (_current_filter s) (_current_pier_side s) (_pending_af s) (_pending_exposure s)
     (_pending_dither s) (_last_hfr s) v.

(** [^(\d{4}-\d{2}-\d{2}T\d{2}:\d{2}:\d{2}\.\d+)] *)
Definition re_timestamp : Re.regex :=
  Re.Group 1
    (Re.seqs [Re.rep 4 Re.d; Re.chr "-"; Re.rep 2 Re.d; Re.chr "-"; Re.rep 2 Re.d;
              Re.chr "T"; Re.rep 2 Re.d; Re.chr ":"; Re.rep 2 Re.d; Re.chr ":";
              Re.rep 2 Re.d; Re.chr "."; Re.plus Re.d]).

(** [Target:\s*(.+?)\s+RA:] *)
Definition re_target : Re.regex :=
  Re.seqs [Re.lit "Target:"; Re.Star Re.sp; Re.Group 1 (Re.lazy_plus Re.any);
           Re.plus Re.sp; Re.lit "RA:"].

(** [initial position (\d+)] *)
Definition re_initial_position : Re.regex :=
  Re.Seq (Re.lit "initial position ") (Re.Group 1 (Re.plus Re.d)).

(** [Trigger: (AutofocusAfter\w+)] *)
Definition re_trigger : Re.regex :=
  Re.Seq (Re.lit "Trigger: ") (Re.Group 1 (Re.Seq (Re.lit "AutofocusAfter") (Re.plus Re.w))).

(** [Temperature ([\d.]+)] *)
Definition re_temperature : Re.regex :=
  Re.Seq (Re.lit "Temperature ") (Re.Group 1 (Re.plus Re.digit_dot)).

(** [ending at (\d+)] *)
Definition re_ending_at : Re.regex :=
  Re.Seq (Re.lit "ending at ") (Re.Group 1 (Re.plus Re.d)).

(** [Average HFR: ([\d.]+).*Detected Stars (\d+)] *)
Definition re_hfr : Re.regex :=
  Re.seqs [Re.lit "Average HFR: "; Re.Group 1 (Re.plus Re.digit_dot); Re.Star Re.any;
           Re.lit "Detected Stars "; Re.Group 2 (Re.plus Re.d)].

(** [Moving to Filter (\w+) at Position (\d+)] *)
Definition re_filter : Re.regex :=
  Re.seqs [Re.lit "Moving to Filter "; Re.Group 1 (Re.plus Re.w);
           Re.lit " at Position "; Re.Group 2 (Re.plus Re.d)].

(** [Exposure Time: ([\d.]+)s; Filter: (W); Gain: (\d+); Offset (\d+); ]
    [Binning: (\d+x\d+)], where [W] is [\w*], a possibly empty run of
    word characters. *)
Definition re_exposure : Re.regex :=
  Re.seqs [Re.lit "Exposure Time: "; Re.Group 1 (Re.plus Re.digit_dot);
           Re.lit "s; Filter: "; Re.Group 2 (Re.Star Re.w);
           Re.lit "; Gain: "; Re.Group 3 (Re.plus Re.d);
           Re.lit "; Offset "; Re.Group 4 (Re.plus Re.d);
           Re.lit "; Binning: ";
           Re.Group 5 (Re.seqs [Re.plus Re.d; Re.chr "x"; Re.plus Re.d])].

(** [Saved image to (.+\.fits)] *)
Definition re_saved : Re.regex :=
  Re.Seq (Re.lit "Saved image to ") (Re.Group 1 (Re.Seq (Re.plus Re.any) (Re.lit ".fits"))).

(** [pier side pier(\w+)] *)
Definition re_pier_side : Re.regex :=
  Re.Seq (Re.lit "pier side pier") (Re.Group 1 (Re.plus Re.w)).

(** [Total RMS above threshold \(([\d.]+) / ([\d.]+)\)] *)
Definition re_rms_alert : Re.regex :=
  Re.seqs [Re.lit "Total RMS above threshold ("; Re.Group 1 (Re.plus Re.digit_dot);
           Re.lit " / "; Re.Group 2 (Re.plus Re.digit_dot); Re.lit ")"].

(** [_parse_timestamp]: [Value None] when the line does not start with a
    timestamp; [ValueError] when both [strptime] calls raise. *)
Definition _parse_timestamp (line : string) : result (option datetime) :=
  match Re.rmatch re_timestamp line with
  | Some m =>
      let ts_str := Str.take 23 (Re.group 1 m) in
      match strptime "T" true ts_str with
      | Some dt => Value (Some dt)
      | None =>
          match strptime "T" false (Str.take 19 ts_str) with
          | Some dt => Value (Some dt)
          | None => ValueError
          end
      end
  | None => Value None
  end.

(** [bool(self._last_hfr)] and [bool(self._last_stars)] *)
Definition hfr_truthy (o : option F) : bool :=
  match o with Some x => f_truthy x | None => false end.
Definition stars_truthy (o : option Z) : bool :=
  match o with Some n => negb (n =? 0) | None => false end.

(** The detectors of [_parse_line], in the order of the source. Each is one
    of its independent [if] statements, run once the line has a timestamp. *)

(** Target name from DeepSkyObjectContainer *)
Definition detect_target (line : string) (self : t) : outcome t :=
  if Str.contains "DeepSkyObjectContainer" line && Str.contains "Target:" line then
    match Re.search re_target line with
    | Some m => Returned (set_target_name (Str.strip (Re.group 1 m)) self)
    | None => Returned self
    end
  else Returned self.

(** Autofocus start *)
Definition detect_af_start (line : string) (timestamp : datetime) (self : t) : outcome t :=
  if Str.contains "RunAutofocus" line && Str.contains "Starting" line then
    Returned (set_pending_af
                (Some (AutofocusRun.mk timestamp "" (_current_filter self) 0 0 f0 None))
                self)
  else Returned self.

(** Autofocus initial position *)
Definition detect_af_initial (line : string) (self : t) : outcome t :=
  if Str.contains "Starting AutoFocus with initial position" line
     && is_some (_pending_af self) then
    match _pending_af self, Re.search re_initial_position line with
    | Some af, Some m =>
        match py_int (Re.group 1 m) with
        | Some n => Returned (set_pending_af (Some (AutofocusRun.set_initial_position n af)) self)
        | None => Raised self
        end
    | _, _ => Returned self
    end
  else Returned self.

(** Autofocus trigger reason *)
Definition detect_af_trigger (line : string) (self : t) : outcome t :=
  if Str.contains "AutofocusAfter" line && Str.contains "Starting Trigger" line then
    match Re.search re_trigger line, _pending_af self with
    | Some m, Some af =>
        Returned (set_pending_af (Some (AutofocusRun.set_trigger (Re.group 1 m) af)) self)
    | _, _ => Returned self
    end
  else Returned self.

(** Autofocus completion: the temperature of the success broadcast *)
Definition detect_af_temperature (line : string) (self : t) : outcome t :=
  if Str.contains "BroadcastSuccessfulAutoFocusRun" line then
    match Re.search re_temperature line, _pending_af self with
    | Some m, Some af =>
        match py_float (Re.group 1 m) with
        | Some x => Returned (set_pending_af (Some (AutofocusRun.set_temperature (Some x) af)) self)
        | None => Raised self
        end
    | _, _ => Returned self
    end
  else Returned self.

(** Autofocus completion: the run is closed and appended *)
Definition detect_af_completed (line : string) (self : t) : outcome t :=
  if Str.contains "AutoFocus completed" line && is_some (_pending_af self) then
    match _pending_af self, Re.search re_ending_at line with
    | Some af, Some m =>
        match py_int (Re.group 1 m) with
        | Some n =>
            let af := AutofocusRun.set_final_position n af in
            let af :=
              match _last_hfr self with
              | Some x => if f_truthy x then AutofocusRun.set_final_hfr x af else af
              | None => af
              end in
            Returned (set_pending_af None
                        (set_autofocus_runs (autofocus_runs self ++ [af]) self))
        | None => Raised self
        end
    | _, _ => Returned self
    end
  else Returned self.

(** HFR detection (Hocus Focus) *)
Definition detect_hfr (line : string) (self : t) : outcome t :=
  if Str.contains "HocusFocusStarDetection" line && Str.contains "Average HFR:" line then
    match Re.search re_hfr line with
    | Some m =>
        match py_float (Re.group 1 m) with
        | Some x =>
            let self := set_last_hfr (Some x) self in
            match py_int (Re.group 2 m) with
            | Some n => Returned (set_last_stars (Some n) self)
            | None => Raised self
            end
        | None => Raised self
        end
    | None => Returned self
    end
  else Returned self.

(** Filter change *)
Definition detect_filter (line : string) (timestamp : datetime) (self : t) : outcome t :=
  if Str.contains "FilterWheelVM" line && Str.contains "Moving to Filter" line then
    match Re.search re_filter line with
    | Some m =>
        let new_filter := Re.group 1 m in
        match py_int (Re.group 2 m) with
        | Some position =>
            Returned (set_current_filter new_filter
                        (set_filter_changes
                           (filter_changes self
                              ++ [FilterChange.mk timestamp new_filter position]) self))
        | None => Raised self
        end
    | None => Returned self
    end
  else Returned self.

(** Exposure start *)
Definition detect_exposure (line : string) (timestamp : datetime) (self : t) : outcome t :=
  if Str.contains "CameraVM" line && Str.contains "Starting Exposure" line then
    match Re.search re_exposure line with
    | Some m =>
        let filter_name :=
          if Str.nonempty (Re.group 2 m) then Re.group 2 m else _current_filter self in
        let self :=
          if Str.nonempty filter_name then set_current_filter filter_name self else self in
        match py_float (Re.group 1 m), py_int (Re.group 3 m), py_int (Re.group 4 m) with
        | Some exposure_time, Some gain, Some offset =>
            Returned (set_pending_exposure
                        (Some (Exposure.new timestamp exposure_time filter_name gain offset
                                 (Re.group 5 m)))
                        self)
        | _, _, _ => Raised self
        end
    | None => Returned self
    end
  else Returned self.

(** Saved LIGHT image *)
Definition detect_saved (line : string) (self : t) : outcome t :=
  if Str.contains "SaveToDisk" line && Str.contains "LIGHT" line then
    match Re.search re_saved line, _pending_exposure self with
    | Some m, Some e =>
        let e := Exposure.set_saved_path (Some (Re.group 1 m)) e in
        let e := if hfr_truthy (_last_hfr self) then Exposure.set_hfr (_last_hfr self) e else e in
        let e :=
          if stars_truthy (_last_stars self)
          then Exposure.set_stars_detected (_last_stars self) e else e in
        Returned (set_pending_exposure None (set_exposures (exposures self ++ [e]) self))
    | _, _ => Returned self
    end
  else Returned self.

(** Pier side detection *)
Definition detect_pier_side (line : string) (timestamp : datetime) (self : t) : outcome t :=
  if Str.contains "MeridianFlipTrigger" line && Str.contains "pier side" line then
    match Re.search re_pier_side line with
    | Some m =>
        let new_pier_side := Re.group 1 m in
        let self :=
          if Str.nonempty (_current_pier_side self)
             && negb (String.eqb (_current_pier_side self) new_pier_side)
          then set_meridian_flips
                 (meridian_flips self
                    ++ [MeridianFlip.mk timestamp (_current_pier_side self) new_pier_side])
                 self
          else self in
        Returned (set_current_pier_side new_pier_side self)
    | None => Returned self
    end
  else Returned self.

(** RMS threshold alert *)
Definition detect_rms_alert (line : string) (timestamp : datetime) (self : t) : outcome t :=
  if Str.contains "InterruptWhenRMSAbove" line
     && Str.contains "Total RMS above threshold" line then
    match Re.search re_rms_alert line with
    | Some m =>
        match py_float (Re.group 1 m), py_float (Re.group 2 m) with
        | Some total, Some threshold =>
            Returned (set_rms_alerts
                        (rms_alerts self ++ [RMSAlert.mk timestamp total f0 f0 threshold])
                        self)
        | _, _ => Raised self
        end
    | None => Returned self
    end
  else Returned self.

(** Dither start *)
Definition detect_dither_start (line : string) (timestamp : datetime) (self : t)
    : outcome t :=
  if Str.contains "SequenceItem" line && Str.contains "Starting" line
     && Str.contains "Item: Dither" line then
    Returned (set_pending_dither (Some (DitherEvent.mk timestamp None)) self)
  else Returned self.

(** Dither end *)
Definition detect_dither_end (line : string) (timestamp : datetime) (self : t)
    : outcome t :=
  if Str.contains "SequenceItem" line && Str.contains "Finishing" line
     && Str.contains "Item: Dither" line then
    match _pending_dither self with
    | Some dither =>
        Returned (set_pending_dither None
                    (set_dither_events
                       (dither_events self
                          ++ [DitherEvent.set_end_time (Some timestamp) dither]) self))
    | None => Returned self
    end
  else Returned self.

(** [_parse_line] *)
Definition _parse_line (self : t) (line : string) : outcome t :=
  match _parse_timestamp line with
  | ValueError => Raised self
  | Value None => Returned self
  | Value (Some timestamp) =>
      let self :=
        match session_start self with
        | None => set_session_start (Some timestamp) self
        | Some _ => self
        end in
      let self := set_session_end (Some timestamp) self in
      detect_target line self
        >>> detect_af_start line timestamp
        >>> detect_af_initial line
        >>> detect_af_trigger line
        >>> detect_af_temperature line
        >>> detect_af_completed line
        >>> detect_hfr line
        >>> detect_filter line timestamp
        >>> detect_exposure line timestamp
        >>> detect_saved line
        >>> detect_pier_side line timestamp
        >>> detect_rms_alert line timestamp
        >>> detect_dither_start line timestamp
        >>> detect_dither_end line timestamp
  end.

(** The five assignments at the head of [parse]. *)
Definition reset (self : t) : t :=
  set_rms_alerts []
    (set_meridian_flips []
       (set_filter_changes []
          (set_exposures []
             (set_autofocus_runs [] self)))).

(** [parse] *)
Definition parse (self : t) (lines : list string) : outcome t :=
  for_each (fun self line => _parse_line self (Str.strip line)) (reset self) lines.

(** [get_hfr_over_time]: the comprehension over [self.exposures] with its
    filter [exp.hfr is not None]. *)
Definition get_hfr_over_time (self : t) : list (datetime * F * string) :=
  flat_map
    (fun exp =>
       match Exposure.hfr exp with
       | Some hfr => [(Exposure.timestamp exp, hfr, Exposure.filter_name exp)]
       | None => []
       end)
    (exposures self).

End WithNum.
Arguments t F : clear implicits.
End NINAParser.

(** ** Correlation of guiding frames with exposures *)

Section Correlate.
Context {F : Type} `{PyNum F}.

(** The first loop: the pixel scale of the first session that has one. *)
Fixpoint first_pixel_scale (sessions : list (GuidingSession.t F)) : F :=
  match sessions with
  | [] => f1
  | session :: rest =>
      if f_truthy (GuidingSession.pixel_scale session)
      then GuidingSession.pixel_scale session
      else first_pixel_scale rest
  end.

(** The pixel scale [get_overall_rms] ends with: the scale of the last
    session that has one. *)
Definition last_pixel_scale (sessions : list (GuidingSession.t F)) : F :=
  fold_left
    (fun scale session =>
       if f_truthy (GuidingSession.pixel_scale session)
       then GuidingSession.pixel_scale session else scale)
    sessions f1.

(** The inlined dither test: the loop over [dither_events] with its [break]. *)
Fixpoint is_dither (frame_dt : datetime) (dither_events : list DitherEvent.t)
    (dither_margin_seconds : F) : bool :=
  let margin := timedelta_seconds dither_margin_seconds in
  match dither_events with
  | [] => false
  | dither :: rest =>
      let d_start := DitherEvent.start_time dither - margin in
      let d_end :=
        match DitherEvent.end_time dither with
        | Some e => e
        | None => DitherEvent.start_time dither
        end + margin in
      if (d_start <=? frame_dt) && (frame_dt <=? d_end) then true
      else is_dither frame_dt rest dither_margin_seconds
  end.

(** Whether the frame loop appends the frame's errors for the exposure. *)
Definition qualifies (exposure : Exposure.t F) (dither_events : option (list DitherEvent.t))
    (dither_margin_seconds : F) (session : GuidingSession.t F) (frame : GuidingFrame.t F)
    : bool :=
  let exp_start := Exposure.timestamp exposure in
  let exp_end := exp_start + timedelta_seconds (Exposure.exposure_time exposure) in
  let frame_dt := PHD2Parser.frame_dt session frame in
  if (exp_start <=? frame_dt) && (frame_dt <=? exp_end) then
    if list_truthy dither_events then
      negb (is_dither frame_dt (list_of dither_events) dither_margin_seconds)
    else true
  else false.

(** The loops over sessions and frames for one exposure: [ra_values] and
    [dec_values] grow together. *)
Definition collect_frame (exposure : Exposure.t F)
    (dither_events : option (list DitherEvent.t)) (dither_margin_seconds : F)
    (session : GuidingSession.t F) (acc : list F * list F) (frame : GuidingFrame.t F)
    : list F * list F :=
  if qualifies exposure dither_events dither_margin_seconds session frame
  then (fst acc ++ [GuidingFrame.ra_raw frame], snd acc ++ [GuidingFrame.dec_raw frame])
  else acc.

Definition collect (sessions : list (GuidingSession.t F)) (exposure : Exposure.t F)
    (dither_events : option (list DitherEvent.t)) (dither_margin_seconds : F)
    : list F * list F :=
  fold_left
    (fun acc session =>
       fold_left (collect_frame exposure dither_events dither_margin_seconds session)
                 (GuidingSession.frames session) acc)
    sessions ([], []).

(** The body of the exposure loop: the exposure as it is left. *)
Definition correlate_exposure (sessions : list (GuidingSession.t F)) (pixel_scale : F)
    (dither_events : option (list DitherEvent.t)) (dither_margin_seconds : F)
    (exposure : Exposure.t F) : Exposure.t F :=
  let '(ra_values, dec_values) :=
    collect sessions exposure dither_events dither_margin_seconds in
  match ra_values with
  | [] => exposure
  | _ =>
      let ra_rms_px := GuidingSession.rms_px ra_values in
      let dec_rms_px := GuidingSession.rms_px dec_values in
      let ra_rms := fmul ra_rms_px pixel_scale in
      let dec_rms := fmul dec_rms_px pixel_scale in
      Exposure.set_guiding (Some ra_rms) (Some dec_rms)
        (Some (GuidingSession.quadrature ra_rms dec_rms))
        (Z.of_nat (length ra_values)) exposure
  end.

(** [correlate_guiding_with_exposures]: [nina] with its exposures updated. *)
Definition correlate_guiding_with_exposures (phd2 : PHD2Parser.t F) (nina : NINAParser.t F)
    (dither_events : option (list DitherEvent.t)) (dither_margin_seconds : F)
    : NINAParser.t F :=
  let pixel_scale := first_pixel_scale (PHD2Parser.sessions phd2) in
  NINAParser.set_exposures
    (map (correlate_exposure (PHD2Parser.sessions phd2) pixel_scale
            dither_events dither_margin_seconds)
         (NINAParser.exposures nina))
    nina.

(** [match_session_logs]: each log parsed by a fresh parser; [None] when one
    of the two [parse] calls raises (the second is then not reached, or its
    exception leaves the function). *)
Definition match_session_logs (phd2_lines nina_lines : list string)
    : option (PHD2Parser.t F * NINAParser.t F) :=
  match PHD2Parser.parse PHD2Parser.init phd2_lines with
  | Returned phd2_parser =>
      match NINAParser.parse NINAParser.init nina_lines with
      | Returned nina_parser => Some (phd2_parser, nina_parser)
      | Raised _ => None
      end
  | Raised _ => None
  end.

End Correlate.

(** ** A reference arithmetic

    An executable instance of [PyNum], used to run the model on concrete
    logs: exact decimal fixed point with six fractional digits, so that a
    number of seconds and a number of microseconds are the same integer.
    [py_float] reads plain decimal notation (an optional sign, digits, an
    optional fractional part). *)

Module Decimal6.

Definition F : Type := Z.

Definition unit : Z := 1000000.

Definition all_digits (s : string) : bool := forallb Str.is_digit (Str.chars s).

(** Digits after the dot, as millionths (further digits are dropped). *)
Definition millionths (s : string) : Z :=
  Str.decimal (firstn 6 (Str.chars s ++ repeat "0"%char 6)).

Definition unsigned (l : list ascii) : option Z :=
  match Str.split_on "."%char l [] with
  | [i] =>
      if all_digits i && Str.nonempty i then Some (Str.decimal (Str.chars i) * unit)
      else None
  | [i; f] =>
      if all_digits i && all_digits f && (Str.nonempty i || Str.nonempty f)
      then Some (Str.decimal (Str.chars i) * unit + millionths f)
      else None
  | _ => None
  end.

Definition to_float (s : string) : option Z :=
  match Str.chars (Str.strip s) with
  | a :: l =>
      if Ascii.eqb a "-"%char then option_map Z.opp (unsigned l)
      else if Ascii.eqb a "+"%char then unsigned l
      else unsigned (a :: l)
  | [] => None
  end.

Definition mul (a b : Z) : Z := a * b / unit.

Definition mean (l : list Z) : Z := fold_left Z.add l 0 / Z.of_nat (length l).

Definition sqrt (x : Z) : Z := Z.sqrt (x * unit).

#[export] Instance num : PyNum F := {|
  f0 := 0;
  f1 := unit;
  f_truthy := fun x => negb (x =? 0);
  fadd := Z.add;
  fmul := mul;
  fpow2 := fun x => mul x x;
  f_geb := Z.geb;
  np_square := map (fun x => mul x x);
  np_mean := mean;
  np_sqrt := sqrt;
  py_float := to_float;
  timestamp := fun dt => dt;
  fromtimestamp := fun x => x;
  timedelta_seconds := fun x => x;
  total_seconds := fun d => d
|}.

End Decimal6.

(** ** IEEE arithmetic

    The numeric library on IEEE 754 binary64 values, the floats of Python
    and numpy: Rocq's primitive floats, NaN and the infinities included.
    [float(text)] and the division of integers round to nearest, ties to
    even, as Python does. Where the libraries leave a result open the
    instance fixes one: [x ** 2] is the product [x * x] and [np.mean] adds from
    left to right (C's [pow] and numpy's blocked sum can differ from these in
    the last bit); the local time zone is UTC; and the conversions to a time
    read an infinite value or NaN, for which Python raises, as zero. *)

Module Float64.

Definition F : Type := PrimFloat.float.

Definition prec : Z := FloatOps.prec.
Definition emax : Z := FloatOps.emax.

(** [float(z)] for an integer: the nearest double. *)
Definition of_Z (z : Z) : F :=
  FloatOps.SF2Prim (SpecFloat.binary_normalize prec emax z 0 false).

(** [n / d] for integers, [d] positive: the double nearest to the quotient. *)
Definition of_ratio (n : Z) (d : positive) : F :=
  FloatOps.SF2Prim
    match n with
    | Z0 => SpecFloat.S754_zero false
    | Zpos p =>
        SpecFloat.SFdiv prec emax (SpecFloat.S754_finite false p 0)
                        (SpecFloat.S754_finite false d 0)
    | Zneg p =>
        SpecFloat.SFdiv prec emax (SpecFloat.S754_finite true p 0)
                        (SpecFloat.S754_finite false d 0)
    end.

(** The double nearest to [n * 10 ^ e], for [n] not negative. *)
Definition of_decimal (n e : Z) : F :=
  if 0 <=? e then of_Z (n * 10 ^ e) else of_ratio n (Z.to_pos (10 ^ (- e))).

(** Underscores may stand between two digits, and are dropped; [None] when
    one stands elsewhere. *)
Fixpoint drop_underscores (l : list ascii) (prev : ascii) : option (list ascii) :=
  match l with
  | [] => if Ascii.eqb prev "_"%char then None else Some []
  | c :: l' =>
      if Ascii.eqb c "_"%char then
        if Str.is_digit prev then drop_underscores l' c else None
      else if Ascii.eqb prev "_"%char && negb (Str.is_digit c) then None
      else option_map (cons c) (drop_underscores l' c)
  end.

(** The leading digits of a text, and the rest of it. *)
Fixpoint span_digits (l : list ascii) : list ascii * list ascii :=
  match l with
  | c :: l' =>
      if Str.is_digit c then let (d, r) := span_digits l' in (c :: d, r)
      else ([], l)
  | [] => ([], [])
  end.

Definition is_nil {A : Type} (l : list A) : bool :=
  match l with [] => true | _ => false end.

(** The digits after a dot, if the text begins with one, and the rest. *)
Definition after_dot (l : list ascii) : list ascii * list ascii :=
  match l with
  | c :: r => if Ascii.eqb c "."%char then span_digits r else ([], l)
  | [] => ([], [])
  end.

(** An exponent, or nothing: [e] or [E], an optional sign and digits. *)
Definition exponent (l : list ascii) : option Z :=
  match l with
  | [] => Some 0
  | c :: r =>
      if Ascii.eqb c "e"%char || Ascii.eqb c "E"%char then
        let (neg, r') := match r with
                         | s :: r' =>
                             if Ascii.eqb s "-"%char then (true, r')
                             else if Ascii.eqb s "+"%char then (false, r')
                             else (false, r)
                         | [] => (false, r)
                         end in
        let (x, rest) := span_digits r' in
        if negb (is_nil x) && is_nil rest
        then Some (if neg then - Str.decimal x else Str.decimal x)
        else None
      else None
  end.

(** A decimal numeral: digits, with an optional dot among them and an
    optional exponent after them; as the integer its digits spell and the
    power of ten that scales it. *)
Definition numeral (l : list ascii) : option (Z * Z) :=
  let (i, r1) := span_digits l in
  let (f, r2) := after_dot r1 in
  if is_nil i && is_nil f then None
  else match exponent r2 with
       | Some x => Some (Str.decimal (i ++ f), x - Z.of_nat (length f))
       | None => None
       end.

Definition lower (c : ascii) : ascii :=
  if ((65 <=? Str.code c) && (Str.code c <=? 90))%N
  then ascii_of_N (Str.code c + 32) else c.

(** The text, in lower case, is the word [w]. *)
Definition spells (w : string) (l : list ascii) : bool :=
  String.eqb (Str.of_chars (map lower l)) w.

(** A text without its sign: nan, inf or infinity in any case, or a
    numeral. *)
Definition unsigned (l : list ascii) : option F :=
  if spells "nan" l then Some PrimFloat.nan
  else if spells "inf" l || spells "infinity" l then Some PrimFloat.infinity
  else match numeral l with
       | Some (n, e) => Some (of_decimal n e)
       | None => None
       end.

(** [float(text)]; [None] is [ValueError]. *)
Definition to_float (s : string) : option F :=
  match drop_underscores (Str.chars (Str.strip s)) "000"%char with
  | Some (a :: l) =>
      if Ascii.eqb a "-"%char then option_map PrimFloat.opp (unsigned l)
      else if Ascii.eqb a "+"%char then unsigned l
      else unsigned (a :: l)
  | _ => None
  end.

(** [np.mean]: the sum of the values over their number; of no value, NaN. *)
Definition mean (l : list F) : F :=
  match l with
  | [] => PrimFloat.nan
  | a :: r =>
      PrimFloat.div (fold_left PrimFloat.add r a) (of_Z (Z.of_nat (length l)))
  end.

(** The integer part of a value, toward zero. *)
Definition trunc (x : F) : Z :=
  match FloatOps.Prim2SF x with
  | SpecFloat.S754_finite s m e =>
      let v := if 0 <=? e then Zpos m * 2 ^ e else Zpos m / 2 ^ (- e) in
      if s then - v else v
  | _ => 0
  end.

(** [n / d] to the nearest integer, ties to even. *)
Definition half_even (n d : Z) : Z :=
  let q := n / d in
  let r := n mod d in
  if 2 * r <? d then q
  else if d <? 2 * r then q + 1
  else if Z.even q then q else q + 1.

(** The integer nearest to a value, ties to even. *)
Definition rint (x : F) : Z :=
  match FloatOps.Prim2SF x with
  | SpecFloat.S754_finite s m e =>
      let v := if 0 <=? e then Zpos m * 2 ^ e else half_even (Zpos m) (2 ^ (- e)) in
      if s then - v else v
  | _ => 0
  end.

(** Seconds to microseconds, as [timedelta(seconds=x)] and [fromtimestamp]
    do it: the whole seconds, and the fraction times a million rounded to
    the nearest integer. *)
Definition micros (x : F) : Z :=
  let t := trunc x in
  t * 1000000 + rint (PrimFloat.mul (PrimFloat.sub x (of_Z t)) (of_Z 1000000)).

(** A value of the specification of the format that is not below zero: a
    zero of either sign, a positive value or the positive infinity. *)
Definition ge_zero (x : SpecFloat.spec_float) : Prop :=
  SpecFloat.SFleb (SpecFloat.S754_zero false) x = true.

Definition ge_zero_or_nan (x : SpecFloat.spec_float) : Prop :=
  x = SpecFloat.S754_nan \/ ge_zero x.

(** 1970-01-01T00:00:00, in seconds since 0001-01-01T00:00:00. *)
Definition epoch : Z := 62135596800.

#[export] Instance num : PyNum F := {|
  f0 := PrimFloat.zero;
  f1 := PrimFloat.one;
  f_truthy := fun x => negb (PrimFloat.eqb x PrimFloat.zero);
  fadd := PrimFloat.add;
  fmul := PrimFloat.mul;
  fpow2 := fun x => PrimFloat.mul x x;
  f_geb := fun x y => PrimFloat.leb y x;
  np_square := map (fun x => PrimFloat.mul x x);
  np_mean := mean;
  np_sqrt := PrimFloat.sqrt;
  py_float := to_float;
  timestamp := fun dt =>
    PrimFloat.add (of_Z (dt / 1000000 - epoch))
                  (PrimFloat.div (of_Z (dt mod 1000000)) (of_Z 1000000));
  fromtimestamp := fun x => epoch * 1000000 + micros x;
  timedelta_seconds := micros;
  total_seconds := fun d => of_ratio d 1000000
|}.

End Float64.

(** ** Specification-side views of the aggregations

    The loops of the source accumulate lists of raw errors and rows of
    statistics. The definitions below name the frames behind them, so that
    the properties can speak of the frames a result was computed from. *)

Section Views.
Context {F : Type} `{PyNum F}.

(** The frames of all sessions that [get_overall_rms] does not skip. *)
Definition survivors (self : PHD2Parser.t F) (dither_events : option (list DitherEvent.t))
    (dither_margin_seconds : F) : list (GuidingFrame.t F) :=
  flat_map
    (fun session =>
       filter (fun frame =>
                 negb (PHD2Parser.skipped dither_events dither_margin_seconds
                         (PHD2Parser.frame_dt session frame)))
              (GuidingSession.frames session))
    (PHD2Parser.sessions self).

(** The frames, over all sessions, that qualify for an exposure: inside its
    inclusive window and outside every dither window. *)
Definition qualifying_frames (sessions : list (GuidingSession.t F))
    (exposure : Exposure.t F) (dither_events : option (list DitherEvent.t))
    (dither_margin_seconds : F) : list (GuidingFrame.t F) :=
  flat_map
    (fun session =>
       filter (qualifies exposure dither_events dither_margin_seconds session)
              (GuidingSession.frames session))
    sessions.

(** The frame loop of [get_rms_over_time] with the member frames of each
    bucket kept: the closed buckets, the open one and its start. *)
Record members : Type := mk_members {
  closed : list (datetime * list (GuidingFrame.t F));
  open : list (GuidingFrame.t F);
  open_start : datetime
}.

Definition close_bucket (b : members) : list (datetime * list (GuidingFrame.t F)) :=
  match open b with
  | [] => closed b
  | _ => closed b ++ [(open_start b, open b)]
  end.

Definition member_frame (interval_seconds : F) (dither_events : option (list DitherEvent.t))
    (dither_margin_seconds : F) (session : GuidingSession.t F)
    (b : members) (frame : GuidingFrame.t F) : members :=
  let dt := PHD2Parser.frame_dt session frame in
  if PHD2Parser.skipped dither_events dither_margin_seconds dt then b
  else if f_geb (total_seconds (dt - open_start b)) interval_seconds then
    mk_members (close_bucket b) [frame] dt
  else mk_members (closed b) (open b ++ [frame]) (open_start b).

(** The buckets of one session, each with its start and its member frames. *)
Definition session_buckets (interval_seconds : F)
    (dither_events : option (list DitherEvent.t)) (dither_margin_seconds : F)
    (session : GuidingSession.t F) : list (datetime * list (GuidingFrame.t F)) :=
  close_bucket
    (fold_left (member_frame interval_seconds dither_events dither_margin_seconds session)
               (GuidingSession.frames session)
               (mk_members [] [] (GuidingSession.start_time session))).

(** [session.pixel_scale or 1.0] *)
Definition scale_or_1 (session : GuidingSession.t F) : F :=
  if f_truthy (GuidingSession.pixel_scale session)
  then GuidingSession.pixel_scale session else f1.

(** The row [get_rms_over_time] emits for a bucket of a session. *)
Definition row_of (session : GuidingSession.t F)
    (b : datetime * list (GuidingFrame.t F)) : datetime * F * F * F :=
  PHD2Parser.bucket_row (scale_or_1 session) (fst b) (snd b).

(** The frames placed so far: the closed buckets' members, then the open
    bucket's. *)
Definition placed (mb : members) : list (GuidingFrame.t F) :=
  concat (map snd (closed mb)) ++ open mb.

(** The guiding fields of an exposure as the parser leaves them. *)
Definition unset (e : Exposure.t F) : Prop :=
  Exposure.ra_rms e = None /\ Exposure.dec_rms e = None /\
  Exposure.total_rms e = None /\ Exposure.guiding_frames e = 0.

(** Every exposure the parser holds, listed or pending, has its guiding
    fields unset. *)
Definition exposures_unset (s : NINAParser.t F) : Prop :=
  Forall unset (NINAParser.exposures s) /\
  forall e, NINAParser._pending_exposure s = Some e -> unset e.

End Views.
Arguments members F : clear implicits.

(** ** Markers of the two-phase records

    The lines that open and close a guiding session and a dither event, as
    the parsers test them (on the stripped line). *)

(** The line takes the ["Guiding Begins at"] branch of [PHD2Parser.parse]. *)
Definition begin_marker (raw : string) : bool :=
  Str.startswith "Guiding Begins at" (Str.strip raw).

(** The line starts with ["Guiding Ends at"]. *)
Definition end_marker (raw : string) : bool :=
  Str.startswith "Guiding Ends at" (Str.strip raw).

(** The line carries the three substrings of a dither start. *)
Definition dither_start_marker (raw : string) : bool :=
  let line := Str.strip raw in
  Str.contains "SequenceItem" line && Str.contains "Starting" line
  && Str.contains "Item: Dither" line.

(** The line carries the three substrings of a dither end. *)
Definition dither_finish_marker (raw : string) : bool :=
  let line := Str.strip raw in
  Str.contains "SequenceItem" line && Str.contains "Finishing" line
  && Str.contains "Item: Dither" line.

(** The twentieth character of the line is not a dot: what follows a
    [YYYY-MM-DDTHH:MM:SS] stamp is not a fractional part. *)
Definition no_fraction (line : string) : bool :=
  match nth_error (Str.chars line) 19 with
  | Some c => negb (Ascii.eqb "."%char c)
  | None => true
  end.

(** The pixel scale of every session the guiding parser holds, closed or
    open, is non-negative. *)
Definition scales_nonneg {F : Type} `{PyNum F} (st : PHD2Parser.scan F) : Prop :=
  Forall (fun s => nonneg (GuidingSession.pixel_scale s)) (PHD2Parser.sessions (fst st)) /\
  forall cs, snd st = Some cs -> nonneg (GuidingSession.pixel_scale cs).

(** A property of the parser state kept by a step that may raise. *)
Definition preserves {S : Type} (P : S -> Prop) (f : S -> outcome S) : Prop :=
  forall s, P s -> P (state_of (f s)).

(** ** Sample logs

    Small logs in the format of the two tools, run through the model with
    the reference arithmetic. *)

Module Samples.

Import Decimal6.

(** A guide log: one session of pixel scale 1.00 that begins at 22:10:00,
    with frames 5, 15 and 40 seconds into it. *)
Definition guide_log : list string :=
  ["PHD2 version 2.6.11 [Windows], Log version 2.5. Log enabled at 2026-01-22 22:06:06";
   "";
   "Guiding Begins at 2026-01-22 22:10:00";
   "Equipment Profile = Newton200";
   "Pixel scale = 1.00 arc-sec/px, Binning = 1, Focal length = 1200 mm";
   "Frame,Time,mount,dx,dy,RARawDistance,DECRawDistance,RAGuideDistance,DECGuideDistance,RADuration,RADirection,DECDuration,DECDirection,XStep,YStep,StarMass,SNR,ErrorCode";
   "1,5.0,Mount,0.1,0.2,0.3,0.4,0.1,0.1,10,W,20,N,,,1000,25.5,0";
   "2,15.0,Mount,0.1,0.2,0.6,0.8,0.1,0.1,,,,,,,1000,25.5,0";
   "3,40.0,Mount,0.1,0.2,3.0,4.0,0.1,0.1,,,,,,,1000,25.5,0";
   "Guiding Ends at 2026-01-22 22:11:00"].

(** A session that is begun and never ended. *)
Definition guide_log_open_tail : list string :=
  ["4,1.0,Mount,0.1,0.2,0.3,0.4,0.1,0.1,10,W,20,N,,,1000,25.5,0";
   "5,2.0,Mount,0.1,0.2,0.3,0.4,0.1,0.1,10,W,20,N,,,1000,25.5,0"].

Definition begin_line : string := "Guiding Begins at 2026-01-22 23:30:00".

(** An imaging log: a 30 second exposure at 22:10:00 and its saved image, a
    completed dither, and a second exposure at 22:20:00. *)
Definition imaging_log : list string :=
  ["2026-01-22T22:04:19.1000|INFO|DeepSkyObjectContainer.cs|Execute|Starting Category: Container, Target: M 31 RA: 00h42m44s Dec: 41d16m09s";
   "2026-01-22T22:10:00.0000|INFO|CameraVM.cs|Capture|Starting Exposure - Exposure Time: 30s; Filter: L; Gain: 100; Offset 50; Binning: 1x1;";
   "2026-01-22T22:10:31.5000|INFO|BaseImageData.cs|SaveToDisk|Saved image to C:\img\M31_LIGHT_0001.fits";
   "2026-01-22T22:10:32.0000|INFO|SequenceItem.cs|Run|Starting Category: Guider, Item: Dither";
   "2026-01-22T22:10:38.0000|INFO|SequenceItem.cs|Run|Finishing Category: Guider, Item: Dither";
   "2026-01-22T22:20:00.0000|INFO|CameraVM.cs|Capture|Starting Exposure - Exposure Time: 30s; Filter: L; Gain: 100; Offset 50; Binning: 1x1;";
   "2026-01-22T22:20:31.5000|INFO|BaseImageData.cs|SaveToDisk|Saved image to C:\img\M31_LIGHT_0002.fits"].

Definition dither_start_line : string :=
  "2026-01-22T22:21:00.0000|INFO|SequenceItem.cs|Run|Starting Category: Guider, Item: Dither".

Definition imaging_log_open_tail : list string :=
  ["2026-01-22T22:21:05.0000|INFO|CameraVM.cs|Capture|Starting Exposure - Exposure Time: 30s; Filter: L; Gain: 100; Offset 50; Binning: 1x1;"].

(** The imaging log of another night: one line, no marker. *)
Definition next_night_log : list string :=
  ["2026-01-23T21:00:00.0000|INFO|Application.cs|Start|NINA started"].

(** A line stamped to the second, with the markers of a dither start. *)
Definition second_precision_line : string :=
  "2026-01-22T22:21:00|INFO|SequenceItem.cs|Run|Starting Category: Guider, Item: Dither".

(** Two guiding sessions with pixel scales 1.0 and 2.0, one frame each, raw
    errors 3.0 (RA) and 4.0 (Dec). *)
Definition frame_3_4 : GuidingFrame.t F :=
  GuidingFrame.mk 1 1000000 0 0 3000000 4000000 0 0 0 0 "" "" 0 0 0.

Definition session_scale (start : datetime) (scale : F) : GuidingSession.t F :=
  GuidingSession.set_frames [frame_3_4]
    (GuidingSession.set_pixel_scale scale (GuidingSession.new start)).

(** The second exposure of [imaging_log], as the parser builds it. *)
Definition second_exposure : Exposure.t F :=
  Exposure.set_saved_path (Some "C:\img\M31_LIGHT_0002.fits")
    (Exposure.new 63904717200000000 30000000 "L" 100 50 "1x1").

(** The sample logs as parsed by fresh parsers, and their parts. *)
Definition parsed_guide_log : PHD2Parser.t F :=
  state_of (PHD2Parser.parse PHD2Parser.init guide_log).
Definition parsed_imaging_log : NINAParser.t F :=
  state_of (NINAParser.parse NINAParser.init imaging_log).
Definition parsed_session : GuidingSession.t F :=
  nth 0 (PHD2Parser.sessions parsed_guide_log) (GuidingSession.new 0).
Definition parsed_frame (k : nat) : GuidingFrame.t F :=
  nth k (GuidingSession.frames parsed_session) frame_3_4.
Definition first_exposure : Exposure.t F :=
  Exposure.set_saved_path (Some "C:\img\M31_LIGHT_0001.fits")
    (Exposure.new 63904716600000000 30000000 "L" 100 50 "1x1").

Definition two_scales : PHD2Parser.t F :=
  PHD2Parser.mk [session_scale 63904716600000000 1000000;
                 session_scale 63904720200000000 2000000] None.

End Samples.

(** ** A guide log with a frame that is not a number *)

Module Float64Samples.

Import Float64.

(** One session of pixel scale 1.00 with one frame, 5 seconds into it, whose
    raw RA error reads nan. *)
Definition nan_guide_log : list string :=
  ["Guiding Begins at 2026-01-22 22:10:00";
   "Pixel scale = 1.00 arc-sec/px, Binning = 1, Focal length = 1200 mm";
   "1,5.0,Mount,0.1,0.2,nan,0.4,0.1,0.1,10,W,20,N,,,1000,25.5,0";
   "Guiding Ends at 2026-01-22 22:11:00"].

Definition parsed_nan_log : PHD2Parser.t F :=
  state_of (PHD2Parser.parse PHD2Parser.init nan_guide_log).

(** The sample logs of [Samples] on doubles: the guide log as parsed, its
    session, the first row of the RMS over time in buckets of 60 seconds,
    and the first exposure of the imaging log after the correlation. *)
Definition ieee_guide_log : PHD2Parser.t F :=
  state_of (PHD2Parser.parse PHD2Parser.init Samples.guide_log).
Definition ieee_session : GuidingSession.t F :=
  nth 0 (PHD2Parser.sessions ieee_guide_log) (GuidingSession.new 0).
Definition ieee_row : datetime * F * F * F :=
  nth 0 (PHD2Parser.get_rms_over_time ieee_guide_log (of_Z 60) None (of_Z 3))
      (0, f0, f0, f0).
Definition ieee_imaging_log : NINAParser.t F :=
  state_of (NINAParser.parse NINAParser.init Samples.imaging_log).
Definition ieee_exposure : Exposure.t F :=
  nth 0 (NINAParser.exposures
           (correlate_guiding_with_exposures ieee_guide_log ieee_imaging_log
              None (of_Z 3)))
      (Exposure.new 0 f0 "" 0 0 "").

End Float64Samples.

(** ** Discovery of sessions

    [SessionFinder] pairs the NINA and PHD2 log files of two folders by the
    date in their names. The file system is an input of [scan]: a folder is
    given by whether it exists and by the paths its [glob] yields for a
    pattern, in the order it yields them. *)

Module Date.

(** [datetime.date]: compared, hashed and tested for equality as the triple
    (year, month, day). *)
Record t : Type := mk {
  year : Z;
  month : Z;
  day : Z
}.

(** [date(year, month, day)]; [None] is its [ValueError]. *)
Definition make (y m d : Z) : option t :=
  if (1 <=? y) && (y <=? 9999) && (1 <=? m) && (m <=? 12) &&
     (1 <=? d) && (d <=? days_in_month y m)
  then Some (mk y m d)
  else None.

(** [a == b] *)
Definition eqb (a b : t) : bool :=
  (year a =? year b) && (month a =? month b) && (day a =? day b).

(** [a < b] *)
Definition ltb (a b : t) : bool :=
  (year a <? year b)
  || ((year a =? year b)
      && ((month a <? month b) || ((month a =? month b) && (day a <? day b)))).

End Date.

Module Path.

(** A [Path]: the folder it lies in and its final component, [name]. *)
Record t : Type := mk {
  parent : string;
  name : string
}.

End Path.

Module Folder.

(** A folder as [scan] finds it: [exists()] and [glob(pattern)]. *)
Record t : Type := mk {
  exists_ : bool;
  glob : string -> list Path.t
}.

End Folder.

Module DiscoveredSession.

Record t : Type := mk {
  session_date : Date.t;
  nina_logs : list Path.t;
  phd2_logs : list Path.t
}.

(** [DiscoveredSession(session_date=d)] *)
Definition new (d : Date.t) : t := mk d [] [].

(** [self.nina_logs.append(log_file)] and [self.phd2_logs.append(log_file)] *)
Definition append_nina_log (log_file : Path.t) (self : t) : t :=
  mk (session_date self) (nina_logs self ++ [log_file]) (phd2_logs self).
Definition append_phd2_log (log_file : Path.t) (self : t) : t :=
  mk (session_date self) (nina_logs self) (phd2_logs self ++ [log_file]).

(** [has_both]: [bool(self.nina_logs and self.phd2_logs)] *)
Definition has_both (self : t) : bool :=
  match nina_logs self with
  | [] => false
  | _ :: _ =>
      match phd2_logs self with
      | [] => false
      | _ :: _ => true
      end
  end.

End DiscoveredSession.

Module SessionFinder.

(** [^(\d{4})(\d{2})(\d{2})-\d{6}.*\.log$], up to the final [$] *)
Definition NINA_PATTERN : Re.regex :=
  Re.seqs [Re.Group 1 (Re.rep 4 Re.d); Re.Group 2 (Re.rep 2 Re.d);
           Re.Group 3 (Re.rep 2 Re.d); Re.chr "-"; Re.rep 6 Re.d; Re.Star Re.any;
           Re.lit ".log"].

(** [^PHD2_GuideLog_(\d{4})-(\d{2})-(\d{2})_\d{6}\.txt$], up to the final [$] *)
Definition PHD2_PATTERN : Re.regex :=
  Re.seqs [Re.lit "PHD2_GuideLog_"; Re.Group 1 (Re.rep 4 Re.d); Re.chr "-";
           Re.Group 2 (Re.rep 2 Re.d); Re.chr "-"; Re.Group 3 (Re.rep 2 Re.d);
           Re.chr "_"; Re.rep 6 Re.d; Re.lit ".txt"].

(** [$]: the end of the text, or the line feed that ends it. *)
Definition at_end (rest : list ascii) (c : Re.caps) : option Re.caps :=
  match rest with
  | [] => Some c
  | [a] => if Ascii.eqb a "010"%char then Some c else None
  | _ => None
  end.

(** [PATTERN.match(filename)] for a pattern that ends in [$]. *)
Definition match_ (pattern : Re.regex) (filename : string) : option Re.caps :=
  Re.exec pattern (Str.chars filename) [] at_end.

(** [_extract_nina_date]: [Value None] for a name the pattern does not match
    or whose digits are no date; the [int] conversions lie outside the
    [try], so a failing one would leave the function as [ValueError]. *)
Definition _extract_nina_date (filename : string) : result (option Date.t) :=
  match match_ NINA_PATTERN filename with
  | Some m =>
      match py_int (Re.group 1 m), py_int (Re.group 2 m), py_int (Re.group 3 m) with
      | Some year, Some month, Some day => Value (Date.make year month day)
      | _, _, _ => ValueError
      end
  | None => Value None
  end.

(** [_extract_phd2_date] *)
Definition _extract_phd2_date (filename : string) : result (option Date.t) :=
  match match_ PHD2_PATTERN filename with
  | Some m =>
      match py_int (Re.group 1 m), py_int (Re.group 2 m), py_int (Re.group 3 m) with
      | Some year, Some month, Some day => Value (Date.make year month day)
      | _, _, _ => ValueError
      end
  | None => Value None
  end.

(** [self._sessions]: a dict from dates to sessions, as the list of its
    items in insertion order. *)
Definition sessions_dict : Type := list (Date.t * DiscoveredSession.t).

(** [session_date in sessions] *)
Definition contains_key (session_date : Date.t) (sessions : sessions_dict) : bool :=
  existsb (fun item => Date.eqb (fst item) session_date) sessions.

(** [sessions[session_date] = session]: the value of the key is replaced,
    a new key becomes the last item. *)
Fixpoint setitem (session_date : Date.t) (session : DiscoveredSession.t)
    (sessions : sessions_dict) : sessions_dict :=
  match sessions with
  | [] => [(session_date, session)]
  | (k, v) :: rest =>
      if Date.eqb k session_date then (k, session) :: rest
      else (k, v) :: setitem session_date session rest
  end.

(** [sessions[session_date]] changed in place by [f]; the code subscripts
    keys that are present only. *)
Fixpoint update (session_date : Date.t) (f : DiscoveredSession.t -> DiscoveredSession.t)
    (sessions : sessions_dict) : sessions_dict :=
  match sessions with
  | [] => []
  | (k, v) :: rest =>
      if Date.eqb k session_date then (k, f v) :: rest
      else (k, v) :: update session_date f rest
  end.

(** [sessions.values()] *)
Definition values (sessions : sessions_dict) : list DiscoveredSession.t :=
  map snd sessions.

Record t : Type := mk {
  nina_folder : option Folder.t;
  phd2_folder : option Folder.t;
  _sessions : sessions_dict
}.

(** [SessionFinder(nina_folder, phd2_folder)] *)
Definition init (nina_folder phd2_folder : option Folder.t) : t :=
  mk nina_folder phd2_folder [].

Definition set_nina_folder (folder : Folder.t) (self : t) : t :=
  mk (Some folder) (phd2_folder self) (_sessions self).
Definition set_phd2_folder (folder : Folder.t) (self : t) : t :=
  mk (nina_folder self) (Some folder) (_sessions self).
Definition set_sessions (v : sessions_dict) (self : t) : t :=
  mk (nina_folder self) (phd2_folder self) v.

(** The body of the loop over the NINA logs. *)
Definition scan_nina_file (self : t) (log_file : Path.t) : outcome t :=
  match _extract_nina_date (Path.name log_file) with
  | ValueError => Raised self
  | Value None => Returned self
  | Value (Some session_date) =>
      let sessions :=
        if contains_key session_date (_sessions self) then _sessions self
        else setitem session_date (DiscoveredSession.new session_date) (_sessions self) in
      Returned (set_sessions
                  (update session_date (DiscoveredSession.append_nina_log log_file) sessions)
                  self)
  end.

(** The body of the loop over the PHD2 logs. *)
Definition scan_phd2_file (self : t) (log_file : Path.t) : outcome t :=
  match _extract_phd2_date (Path.name log_file) with
  | ValueError => Raised self
  | Value None => Returned self
  | Value (Some session_date) =>
      let sessions :=
        if contains_key session_date (_sessions self) then _sessions self
        else setitem session_date (DiscoveredSession.new session_date) (_sessions self) in
      Returned (set_sessions
                  (update session_date (DiscoveredSession.append_phd2_log log_file) sessions)
                  self)
  end.

(** [sorted(sessions, key=lambda s: s.session_date, reverse=True)]: a stable
    sort, newest first, that compares keys with [<]. *)
Fixpoint insert_newest_first (s : DiscoveredSession.t) (l : list DiscoveredSession.t)
    : list DiscoveredSession.t :=
  match l with
  | [] => [s]
  | s' :: l' =>
      if Date.ltb (DiscoveredSession.session_date s) (DiscoveredSession.session_date s')
      then s' :: insert_newest_first s l'
      else s :: l
  end.

Definition sorted_reverse (l : list DiscoveredSession.t) : list DiscoveredSession.t :=
  fold_right insert_newest_first [] l.

(** The two scanning loops of [scan], each under its folder test. *)
Definition scan_folders (self : t) : outcome t :=
  (match nina_folder self with
   | Some folder =>
       if Folder.exists_ folder
       then for_each scan_nina_file self (Folder.glob folder "*.log")
       else Returned self
   | None => Returned self
   end)
  >>> (fun self =>
         match phd2_folder self with
         | Some folder =>
             if Folder.exists_ folder
             then for_each scan_phd2_file self (Folder.glob folder "PHD2_GuideLog_*.txt")
             else Returned self
         | None => Returned self
         end).

(** [scan]: [self] with its dict rebuilt, and the sessions, newest first. *)
Definition scan (self : t) : result (t * list DiscoveredSession.t) :=
  match scan_folders (set_sessions [] self) with
  | Returned self => Value (self, sorted_reverse (values (_sessions self)))
  | Raised _ => ValueError
  end.

(** [get_matching_sessions] *)
Definition get_matching_sessions (self : t) : result (t * list DiscoveredSession.t) :=
  match scan self with
  | Value (self, sessions) => Value (self, filter DiscoveredSession.has_both sessions)
  | ValueError => ValueError
  end.

End SessionFinder.

(** ** Views of the parsers' records and of the matcher *)

Module Lang.

(** The texts a pattern matches, as a relation. *)
Inductive matches : Re.regex -> list ascii -> Prop :=
| matches_eps : matches Re.Eps []
| matches_cls (p : ascii -> bool) (a : ascii) : p a = true -> matches (Re.Cls p) [a]
| matches_seq (r1 r2 : Re.regex) (l1 l2 : list ascii) :
    matches r1 l1 -> matches r2 l2 -> matches (Re.Seq r1 r2) (l1 ++ l2)
| matches_star_nil (r : Re.regex) : matches (Re.Star r) []
| matches_star_more (r : Re.regex) (l1 l2 : list ascii) :
    matches r l1 -> matches (Re.Star r) l2 -> matches (Re.Star r) (l1 ++ l2)
| matches_lazy_nil (r : Re.regex) : matches (Re.LazyStar r) []
| matches_lazy_more (r : Re.regex) (l1 l2 : list ascii) :
    matches r l1 -> matches (Re.LazyStar r) l2 -> matches (Re.LazyStar r) (l1 ++ l2)
| matches_group (n : nat) (r : Re.regex) (l : list ascii) :
    matches r l -> matches (Re.Group n r) l.

(** The pattern has no group. *)
Fixpoint groupless (r : Re.regex) : bool :=
  match r with
  | Re.Eps => true
  | Re.Cls _ => true
  | Re.Seq r1 r2 => groupless r1 && groupless r2
  | Re.Star r1 => groupless r1
  | Re.LazyStar r1 => groupless r1
  | Re.Group _ _ => false
  end.

End Lang.

Section RecordViews.
Context {F : Type} `{PyNum F}.

(** The files of [files] whose name carries the date [d], in their order. *)
Definition dated (extract : string -> result (option Date.t)) (d : Date.t)
    (files : list Path.t) : list Path.t :=
  filter (fun f =>
            match extract (Path.name f) with
            | Value (Some d') => Date.eqb d' d
            | _ => false
            end)
         files.

(** What the globs of [scan] yield: nothing for a folder that is not set
    or does not exist. *)
Definition globbed (folder : option Folder.t) (pattern : string) : list Path.t :=
  match folder with
  | Some f => if Folder.exists_ f then Folder.glob f pattern else []
  | None => []
  end.

(** The sessions are in strictly descending order of date. *)
Fixpoint newest_first (l : list DiscoveredSession.t) : Prop :=
  match l with
  | [] => True
  | a :: rest =>
      Forall (fun b => Date.ltb (DiscoveredSession.session_date b)
                                (DiscoveredSession.session_date a) = true) rest
      /\ newest_first rest
  end.

(** A pending exposure as [detect_exposure] builds it: no HFR, no star count. *)
Definition pending_fresh (s : NINAParser.t F) : Prop :=
  forall e, NINAParser._pending_exposure s = Some e ->
            Exposure.hfr e = None /\ Exposure.stars_detected e = None.

(** A listed exposure: its image was saved, and an HFR or a star count it
    carries is a truthy one. *)
Definition saved_exposure (e : Exposure.t F) : Prop :=
  is_some (Exposure.saved_path e) = true /\
  (forall x, Exposure.hfr e = Some x -> f_truthy x = true) /\
  (forall n, Exposure.stars_detected e = Some n -> n <> 0).

(** Each flip starts from the side the flip before it ended on. *)
Fixpoint chained (l : list MeridianFlip.t) : Prop :=
  match l with
  | a :: (b :: _) as rest =>
      MeridianFlip.to_pier_side a = MeridianFlip.from_pier_side b /\ chained rest
  | _ => True
  end.

(** A flip between two different, named sides. *)
Definition real_flip (f : MeridianFlip.t) : Prop :=
  MeridianFlip.from_pier_side f <> "" /\ MeridianFlip.to_pier_side f <> "" /\
  MeridianFlip.from_pier_side f <> MeridianFlip.to_pier_side f.

(** The line carries the two substrings of a saved LIGHT image. *)
Definition saved_marker (raw : string) : bool :=
  let line := Str.strip raw in
  Str.contains "SaveToDisk" line && Str.contains "LIGHT" line.

(** The line carries the two substrings of an exposure start. *)
Definition exposure_marker (raw : string) : bool :=
  let line := Str.strip raw in
  Str.contains "CameraVM" line && Str.contains "Starting Exposure" line.

(** Whether the frame lies in the exposure's inclusive window. *)
Definition in_window (exposure : Exposure.t F) (session : GuidingSession.t F)
    (frame : GuidingFrame.t F) : bool :=
  (Exposure.timestamp exposure <=? PHD2Parser.frame_dt session frame)
  && (PHD2Parser.frame_dt session frame
      <=? Exposure.timestamp exposure
          + timedelta_seconds (Exposure.exposure_time exposure)).

(** The window of a dither event, widened by the margin. *)
Definition dither_window (margin_seconds : F) (dither : DitherEvent.t) (t : datetime)
    : bool :=
  (DitherEvent.start_time dither - timedelta_seconds margin_seconds <=? t)
  && (t <=? match DitherEvent.end_time dither with
            | Some e => e
            | None => DitherEvent.start_time dither
            end + timedelta_seconds margin_seconds).

(** The dither list the window hands to the correlation:
    [nina.dither_events if exclude else None]. *)
Definition dither_setting (nina : NINAParser.t F) (exclude : bool)
    : option (list DitherEvent.t) :=
  if exclude then Some (NINAParser.dither_events nina) else None.

(** The sessions the scan of the guiding parser holds, the open one
    included. *)
Definition held (st : PHD2Parser.scan F) : nat :=
  (length (PHD2Parser.sessions (fst st)) + if is_some (snd st) then 1 else 0)%nat.

(** The span of a bucket: its start is the start of the session or the
    time of its first frame, and each of its frames is at the start or lies
    less than the interval after it. *)
Definition within (session : GuidingSession.t F) (interval : F)
    (b : datetime * list (GuidingFrame.t F)) : Prop :=
  (fst b = GuidingSession.start_time session \/
   exists f rest, snd b = f :: rest /\ fst b = PHD2Parser.frame_dt session f) /\
  Forall (fun f =>
            PHD2Parser.frame_dt session f = fst b \/
            f_geb (total_seconds (PHD2Parser.frame_dt session f - fst b)) interval = false)
         (snd b).

(** The dict of [scan] once the logs [files] of one kind and [others] of
    the other kind went through its loops: no date is a key twice, the
    session of a date holds the files of that date, in order, and at least
    one file, and every date of a file is a key. [get] and [other] are the
    two lists of a session, [extract] and [extract_o] the date functions
    that go with them. *)
Definition grouped (extract extract_o : string -> result (option Date.t))
    (get other : DiscoveredSession.t -> list Path.t) (files others : list Path.t)
    (sessions : SessionFinder.sessions_dict) : Prop :=
  NoDup (map fst sessions) /\
  Forall (fun item =>
            DiscoveredSession.session_date (snd item) = fst item /\
            get (snd item) = dated extract (fst item) files /\
            other (snd item) = dated extract_o (fst item) others /\
            (get (snd item) <> [] \/ other (snd item) <> []))
         sessions /\
  forall d, dated extract d files <> [] \/ dated extract_o d others <> [] ->
            In d (map fst sessions).

End RecordViews.

Module FinderSamples.

(** Two folders: three NINA logs of two nights, one of them with the digits
    of no date, and two guide logs of two nights. *)
Definition nina_files : list Path.t :=
  [Path.mk "C:\logs\nina" "20260122-220000-3.1.2.3001.1234.log";
   Path.mk "C:\logs\nina" "20260123-210000-3.1.2.3001.5678.log";
   Path.mk "C:\logs\nina" "20261345-210000-3.1.2.3001.9999.log";
   Path.mk "C:\logs\nina" "20260122-230500-3.1.2.3001.4321.log"].

Definition phd2_files : list Path.t :=
  [Path.mk "C:\logs\phd2" "PHD2_GuideLog_2026-01-22_220606.txt";
   Path.mk "C:\logs\phd2" "PHD2_GuideLog_2026-01-20_200000.txt"].

Definition nina_dir : Folder.t :=
  Folder.mk true (fun pattern => if String.eqb pattern "*.log" then nina_files else []).

Definition phd2_dir : Folder.t :=
  Folder.mk true
    (fun pattern => if String.eqb pattern "PHD2_GuideLog_*.txt" then phd2_files else []).

Definition finder : SessionFinder.t := SessionFinder.init (Some nina_dir) (Some phd2_dir).

End FinderSamples.

Module MoreSamples.

Import Decimal6 Samples.

(** An imaging log with star detections, two saved exposures and pier-side
    reports: the first exposure is saved after a detection of HFR 2.35 on
    120 stars, the second after a detection of HFR 0.0 on no star. *)
Definition imaging_log_hfr : list string :=
  ["NINA log of 2026-01-22";
   "2026-01-22T22:00:00.0000|INFO|MeridianFlipTrigger.cs|ShouldTrigger|Telescope reports pier side pierEast";
   "2026-01-22T22:10:00.0000|INFO|CameraVM.cs|Capture|Starting Exposure - Exposure Time: 30s; Filter: L; Gain: 100; Offset 50; Binning: 1x1;";
   "2026-01-22T22:10:31.0000|INFO|HocusFocusStarDetection.cs|Detect|Average HFR: 2.35, Detected Stars 120";
   "2026-01-22T22:10:31.5000|INFO|BaseImageData.cs|SaveToDisk|Saved image to C:\img\M31_LIGHT_0001.fits";
   "2026-01-22T22:15:00.0000|INFO|MeridianFlipTrigger.cs|ShouldTrigger|Telescope reports pier side pierWest";
   "2026-01-22T22:20:00.0000|INFO|CameraVM.cs|Capture|Starting Exposure - Exposure Time: 30s; Filter: L; Gain: 100; Offset 50; Binning: 1x1;";
   "2026-01-22T22:20:31.0000|INFO|HocusFocusStarDetection.cs|Detect|Average HFR: 0.0, Detected Stars 0";
   "2026-01-22T22:20:31.5000|INFO|BaseImageData.cs|SaveToDisk|Saved image to C:\img\M31_LIGHT_0002.fits";
   "2026-01-22T22:30:00.0000|INFO|MeridianFlipTrigger.cs|ShouldTrigger|Telescope reports pier side pierEast";
   "end of log"].

(** The first and the last stamped line of [imaging_log_hfr]. *)
Definition first_stamped_line : string :=
  "2026-01-22T22:00:00.0000|INFO|MeridianFlipTrigger.cs|ShouldTrigger|Telescope reports pier side pierEast".
Definition last_stamped_line : string :=
  "2026-01-22T22:30:00.0000|INFO|MeridianFlipTrigger.cs|ShouldTrigger|Telescope reports pier side pierEast".

(** A dither window from 22:10:00 to 22:10:20: with a margin of 3 seconds
    it covers the frames of [guide_log] at 22:10:05 and 22:10:15. *)
Definition covering_dither : option (list DitherEvent.t) :=
  Some [DitherEvent.mk 63904716600000000 (Some 63904716620000000)].

End MoreSamples.

(** ** Properties of the matcher *)

Section MatcherProperties.
Variable n : nat.
Variable p : ascii -> bool.

Lemma chars_of_chars (l : list ascii) : Str.chars (Str.of_chars l) = l.
Proof. apply list_ascii_of_string_of_list_ascii. Qed.

Lemma consumed_app (l rest : list ascii) : Re.consumed (l ++ rest) rest = l.
Proof.
  unfold Re.consumed. rewrite length_app.
  replace (length l + length rest - length rest)%nat with (length l) by lia.
  rewrite firstn_app, firstn_all, Nat.sub_diag. simpl. apply app_nil_r.
Qed.

Lemma greedy_loop_sound (r1 : Re.regex) (k : list ascii -> Re.caps -> option Re.caps)
    (res : Re.caps) :
  Re.run_sound n p r1 ->
  forall (fuel : nat) (s : list ascii) (c : Re.caps),
    Re.caps_over n p c ->
    (fix loop (fuel : nat) (s : list ascii) (c : Re.caps) {struct fuel} : option Re.caps :=
       match fuel with
       | O => k s c
       | S fuel' =>
           match Re.exec r1 s c
                   (fun s' c' =>
                      if (length s' <? length s)%nat then loop fuel' s' c' else None)
           with
           | Some res => Some res
           | None => k s c
           end
       end) fuel s c = Some res ->
    exists (l rest : list ascii) (c' : Re.caps),
      s = l ++ rest /\ Re.caps_over n p c' /\ k rest c' = Some res /\
      (Re.over p r1 -> forallb p l = true).
Proof.
  intros IH1. induction fuel as [|fuel IHf]; intros s c Hc Hrun.
  - exists [], s, c. auto.
  - match type of Hrun with
    | match ?e with _ => _ end = _ => destruct e as [res'|] eqn:Hexec
    end.
    + injection Hrun as ->.
      apply IH1 in Hexec; [|assumption].
      destruct Hexec as (l1 & rest1 & c1 & -> & Hc1 & Hk1 & Hover1).
      destruct (length rest1 <? length (l1 ++ rest1))%nat; [|discriminate].
      apply IHf in Hk1; [|assumption].
      destruct Hk1 as (l2 & rest2 & c2 & -> & Hc2 & Hk2 & Hover2).
      exists (l1 ++ l2), rest2, c2. rewrite app_assoc. repeat split; auto.
      intros Hov. rewrite forallb_app, Hover1, Hover2; auto.
    + exists [], s, c. auto.
Qed.

Lemma lazy_loop_sound (r1 : Re.regex) (k : list ascii -> Re.caps -> option Re.caps)
    (res : Re.caps) :
  Re.run_sound n p r1 ->
  forall (fuel : nat) (s : list ascii) (c : Re.caps),
    Re.caps_over n p c ->
    (fix loop (fuel : nat) (s : list ascii) (c : Re.caps) {struct fuel} : option Re.caps :=
       match k s c with
       | Some res => Some res
       | None =>
           match fuel with
           | O => None
           | S fuel' =>
               Re.exec r1 s c
                 (fun s' c' =>
                    if (length s' <? length s)%nat then loop fuel' s' c' else None)
           end
       end) fuel s c = Some res ->
    exists (l rest : list ascii) (c' : Re.caps),
      s = l ++ rest /\ Re.caps_over n p c' /\ k rest c' = Some res /\
      (Re.over p r1 -> forallb p l = true).
Proof.
  intros IH1. induction fuel as [|fuel IHf]; intros s c Hc Hrun.
  - destruct (k s c) as [res'|] eqn:Hk; [|discriminate].
    injection Hrun as ->. exists [], s, c. auto.
  - destruct (k s c) as [res'|] eqn:Hk.
    + injection Hrun as ->. exists [], s, c. auto.
    + apply IH1 in Hrun; [|assumption].
      destruct Hrun as (l1 & rest1 & c1 & -> & Hc1 & Hk1 & Hover1).
      destruct (length rest1 <? length (l1 ++ rest1))%nat; [|discriminate].
      apply IHf in Hk1; [|assumption].
      destruct Hk1 as (l2 & rest2 & c2 & -> & Hc2 & Hk2 & Hover2).
      exists (l1 ++ l2), rest2, c2. rewrite app_assoc. repeat split; auto.
      intros Hov. rewrite forallb_app, Hover1, Hover2; auto.
Qed.

Lemma exec_sound (r : Re.regex) : Re.group_over n p r -> Re.run_sound n p r.
Proof.
  induction r as [|q|r1 IH1 r2 IH2|r1 IH1|r1 IH1|k0 r1 IH1]; intros Hg s c k res Hc Hrun;
    simpl in Hrun.
  - exists [], s, c. auto.
  - destruct s as [|a s]; [discriminate|].
    destruct (q a) eqn:Hq; [|discriminate].
    exists [a], s, c. repeat split; auto.
    intros Hov. simpl. now rewrite (Hov a Hq).
  - destruct Hg as [Hg1 Hg2].
    apply (IH1 Hg1) in Hrun; [|assumption].
    destruct Hrun as (l1 & rest1 & c1 & -> & Hc1 & Hk1 & Hover1).
    apply (IH2 Hg2) in Hk1; [|assumption].
    destruct Hk1 as (l2 & rest2 & c2 & -> & Hc2 & Hk2 & Hover2).
    exists (l1 ++ l2), rest2, c2. rewrite app_assoc. repeat split; auto.
    intros [Hov1 Hov2]. rewrite forallb_app, Hover1, Hover2; auto.
  - simpl in Hg. apply (greedy_loop_sound r1 k res (IH1 Hg)) in Hrun; assumption.
  - simpl in Hg. apply (lazy_loop_sound r1 k res (IH1 Hg)) in Hrun; assumption.
  - destruct Hg as [Hgk Hg1].
    apply (IH1 Hg1) in Hrun; [|assumption].
    destruct Hrun as (l1 & rest1 & c1 & -> & Hc1 & Hk1 & Hover1).
    exists l1, rest1, ((k0, Str.of_chars (Re.consumed (l1 ++ rest1) rest1)) :: c1).
    repeat split; auto.
    constructor; [|assumption]. simpl. intros Hk0.
    rewrite consumed_app, chars_of_chars. auto.
Qed.

Lemma caps_over_group (c : Re.caps) :
  Re.caps_over n p c -> forallb p (Str.chars (Re.group n c)) = true.
Proof.
  induction c as [|[m s] c IH]; intros Hc; simpl; [reflexivity|].
  inversion Hc as [|e c' He Hc']; subst.
  destruct (Nat.eqb_spec m n) as [->|Hne]; [now apply He | now apply IH].
Qed.

(** The text of group [n] of a match found by [re.search] is over [p]. *)
Lemma search_group_over (r : Re.regex) (s : string) (m : Re.caps) :
  Re.group_over n p r ->
  Re.search r s = Some m ->
  forallb p (Str.chars (Re.group n m)) = true.
Proof.
  intros Hg. unfold Re.search.
  induction (Str.chars s) as [|a l IH]; simpl; intros Hs.
  - destruct (Re.exec r [] [] (fun _ c => Some c)) as [c|] eqn:Hexec; [|discriminate].
    injection Hs as ->.
    apply (exec_sound r Hg) in Hexec; [|constructor].
    destruct Hexec as (l1 & rest & c' & _ & Hc' & Hk & _).
    injection Hk as ->. now apply caps_over_group.
  - destruct (Re.exec r (a :: l) [] (fun _ c => Some c)) as [c|] eqn:Hexec.
    + injection Hs as ->.
      apply (exec_sound r Hg) in Hexec; [|constructor].
      destruct Hexec as (l1 & rest & c' & _ & Hc' & Hk & _).
      injection Hk as ->. now apply caps_over_group.
    + now apply IH.
Qed.

End MatcherProperties.

(** ** Properties of the aggregations *)

Section AggregationProperties.
Context {F : Type} `{PyNum F}.

(** Loops whose bodies agree on every step agree. *)
Lemma fold_left_ext {A B : Type} (f g : A -> B -> A) (l : list B) (a : A) :
  (forall x y, f x y = g x y) -> fold_left f l a = fold_left g l a.
Proof.
  intros Hfg. revert a.
  induction l as [|b l IH]; intros a; simpl; [reflexivity|].
  rewrite Hfg. apply IH.
Qed.

(** *** The accumulators of [get_overall_rms] *)

Lemma overall_frames_spec (d : option (list DitherEvent.t)) (m : F)
    (session : GuidingSession.t F) (fs : list (GuidingFrame.t F)) (o : PHD2Parser.overall F) :
  let kept := filter (fun frame =>
                        negb (PHD2Parser.skipped d m (PHD2Parser.frame_dt session frame))) fs in
  let o' := fold_left (PHD2Parser.overall_frame d m session) fs o in
  PHD2Parser.all_ra o' = PHD2Parser.all_ra o ++ map GuidingFrame.ra_raw kept /\
  PHD2Parser.all_dec o' = PHD2Parser.all_dec o ++ map GuidingFrame.dec_raw kept /\
  PHD2Parser.overall_pixel_scale o' = PHD2Parser.overall_pixel_scale o.
Proof.
  revert o. induction fs as [|f fs IH]; intros o; simpl.
  - rewrite !app_nil_r. auto.
  - specialize (IH (PHD2Parser.overall_frame d m session o f)).
    simpl in IH. destruct IH as (Hra & Hdec & Hps).
    rewrite Hra, Hdec, Hps. unfold PHD2Parser.overall_frame.
    destruct (PHD2Parser.skipped d m (PHD2Parser.frame_dt session f)); simpl.
    + auto.
    + rewrite <- !app_assoc. auto.
Qed.

Lemma overall_sessions_ra (d : option (list DitherEvent.t)) (m : F)
    (ss : list (GuidingSession.t F)) (o : PHD2Parser.overall F) :
  PHD2Parser.all_ra (fold_left (PHD2Parser.overall_session d m) ss o)
  = PHD2Parser.all_ra o
    ++ map GuidingFrame.ra_raw (survivors (PHD2Parser.mk ss None) d m).
Proof.
  revert o. induction ss as [|s ss IH]; intros o; simpl.
  - now rewrite app_nil_r.
  - rewrite IH. unfold PHD2Parser.overall_session at 1.
    destruct (overall_frames_spec d m s (GuidingSession.frames s)
                (if f_truthy (GuidingSession.pixel_scale s)
                 then PHD2Parser.mk_overall (PHD2Parser.all_ra o) (PHD2Parser.all_dec o)
                        (GuidingSession.pixel_scale s)
                 else o)) as (Hra & _ & _).
    rewrite Hra. unfold survivors. simpl.
    rewrite map_app, app_assoc.
    destruct (f_truthy (GuidingSession.pixel_scale s)); reflexivity.
Qed.

(** C10. A session without frames has RA, Dec and total RMS 0.0, whatever
    its pixel scale; and [get_overall_rms] returns (0.0, 0.0, 0.0) when no
    frame of any session survives the dither exclusion. *)
Theorem empty_frames_give_zero_rms
    (session : GuidingSession.t F) (self : PHD2Parser.t F)
    (dither_events : option (list DitherEvent.t)) (dither_margin_seconds : F) :
  (GuidingSession.frames session = [] ->
   GuidingSession.ra_rms session = f0 /\
   GuidingSession.dec_rms session = f0 /\
   GuidingSession.total_rms session = f0) /\
  (survivors self dither_events dither_margin_seconds = [] ->
   PHD2Parser.get_overall_rms self dither_events dither_margin_seconds = (f0, f0, f0)).
Proof.
  split.
  - intros Hnil.
    unfold GuidingSession.ra_rms, GuidingSession.dec_rms, GuidingSession.total_rms.
    rewrite Hnil. auto.
  - intros Hnone. unfold PHD2Parser.get_overall_rms.
    rewrite overall_sessions_ra. simpl.
    destruct self as [ss ld]. unfold survivors in *. simpl in *.
    rewrite Hnone. reflexivity.
Qed.

(** *** The accumulators of [correlate_guiding_with_exposures] *)

Lemma collect_frames_spec (e : Exposure.t F) (d : option (list DitherEvent.t)) (m : F)
    (session : GuidingSession.t F) (fs : list (GuidingFrame.t F)) (acc : list F * list F) :
  fold_left (collect_frame e d m session) fs acc
  = (fst acc ++ map GuidingFrame.ra_raw (filter (qualifies e d m session) fs),
     snd acc ++ map GuidingFrame.dec_raw (filter (qualifies e d m session) fs)).
Proof.
  revert acc. induction fs as [|f fs IH]; intros [ra dec]; simpl.
  - now rewrite !app_nil_r.
  - rewrite IH. unfold collect_frame.
    destruct (qualifies e d m session f); simpl.
    + now rewrite <- !app_assoc.
    + reflexivity.
Qed.

Lemma collect_sessions_spec (e : Exposure.t F) (d : option (list DitherEvent.t)) (m : F)
    (ss : list (GuidingSession.t F)) (acc : list F * list F) :
  fold_left
    (fun acc session =>
       fold_left (collect_frame e d m session) (GuidingSession.frames session) acc)
    ss acc
  = (fst acc ++ map GuidingFrame.ra_raw (qualifying_frames ss e d m),
     snd acc ++ map GuidingFrame.dec_raw (qualifying_frames ss e d m)).
Proof.
  revert acc. induction ss as [|s ss IH]; intros [ra dec]; simpl.
  - now rewrite !app_nil_r.
  - rewrite IH, collect_frames_spec. simpl.
    now rewrite !map_app, !app_assoc.
Qed.

(** What the frame loops hand to the RMS computation. *)
Lemma collect_spec (ss : list (GuidingSession.t F)) (e : Exposure.t F)
    (d : option (list DitherEvent.t)) (m : F) :
  collect ss e d m
  = (map GuidingFrame.ra_raw (qualifying_frames ss e d m),
     map GuidingFrame.dec_raw (qualifying_frames ss e d m)).
Proof.
  unfold collect. now rewrite collect_sessions_spec.
Qed.

(** The qualifying frames depend on the exposure's window only. *)
Lemma qualifying_frames_window (ss : list (GuidingSession.t F)) (e1 e2 : Exposure.t F)
    (d : option (list DitherEvent.t)) (m : F) :
  Exposure.timestamp e1 = Exposure.timestamp e2 ->
  Exposure.exposure_time e1 = Exposure.exposure_time e2 ->
  qualifying_frames ss e1 d m = qualifying_frames ss e2 d m.
Proof.
  intros Hts Het. unfold qualifying_frames.
  induction ss as [|s ss IH]; simpl; [reflexivity|].
  rewrite IH. f_equal. apply filter_ext. intros f.
  unfold qualifies. now rewrite Hts, Het.
Qed.

Lemma correlate_exposure_window (ss : list (GuidingSession.t F)) (ps : F)
    (d : option (list DitherEvent.t)) (m : F) (e : Exposure.t F) :
  qualifying_frames ss (correlate_exposure ss ps d m e) d m = qualifying_frames ss e d m.
Proof.
  apply qualifying_frames_window; unfold correlate_exposure;
    destruct (collect ss e d m) as [[|r ra] dec]; reflexivity.
Qed.

Lemma correlate_exposure_idempotent (ss : list (GuidingSession.t F)) (ps : F)
    (d : option (list DitherEvent.t)) (m : F) (e : Exposure.t F) :
  correlate_exposure ss ps d m (correlate_exposure ss ps d m e)
  = correlate_exposure ss ps d m e.
Proof.
  unfold correlate_exposure at 1.
  rewrite collect_spec, correlate_exposure_window.
  unfold correlate_exposure. rewrite collect_spec.
  destruct (qualifying_frames ss e d m) as [|f fs]; reflexivity.
Qed.

(** C2. Running the correlation a second time with the same guiding data,
    dither list and margin leaves the imaging data exactly as the first run
    left them: every exposure keeps its ra_rms, dec_rms, total_rms and
    guiding_frames. *)
Theorem correlate_idempotent (phd2 : PHD2Parser.t F) (nina : NINAParser.t F)
    (dither_events : option (list DitherEvent.t)) (dither_margin_seconds : F) :
  correlate_guiding_with_exposures phd2
    (correlate_guiding_with_exposures phd2 nina dither_events dither_margin_seconds)
    dither_events dither_margin_seconds
  = correlate_guiding_with_exposures phd2 nina dither_events dither_margin_seconds.
Proof.
  unfold correlate_guiding_with_exposures. destruct nina; simpl.
  unfold NINAParser.set_exposures; simpl. f_equal.
  rewrite map_map. apply map_ext. intros e. apply correlate_exposure_idempotent.
Qed.

(** Without dither exclusion a frame qualifies when it lies in the
    exposure's inclusive window. *)
Lemma qualifies_no_dither (e : Exposure.t F) (d : option (list DitherEvent.t)) (m : F)
    (session : GuidingSession.t F) (frame : GuidingFrame.t F) :
  list_truthy d = false ->
  qualifies e d m session frame
  = (Exposure.timestamp e <=? PHD2Parser.frame_dt session frame)
    && (PHD2Parser.frame_dt session frame
        <=? Exposure.timestamp e + timedelta_seconds (Exposure.exposure_time e)).
Proof.
  intros Hd. unfold qualifies. rewrite Hd.
  now destruct (_ && _).
Qed.

(** C8. An exposure starts at [t0] and lasts 30 seconds; the guiding data
    are one session of pixel scale 1.0 whose three frames fall at [t0]+5s,
    [t0]+15s and [t0]+40s; no dither exclusion applies. The correlation
    gives the exposure guiding_frames = 2 and the RMS of the raw errors of
    the first two frames only. *)
Theorem correlate_literal_window
    (t0 : datetime) (session : GuidingSession.t F) (fr1 fr2 fr3 : GuidingFrame.t F)
    (phd2 : PHD2Parser.t F) (nina : NINAParser.t F) (e : Exposure.t F)
    (dither_events : option (list DitherEvent.t)) (dither_margin_seconds : F) :
  PHD2Parser.sessions phd2 = [session] ->
  GuidingSession.frames session = [fr1; fr2; fr3] ->
  GuidingSession.pixel_scale session = f1 ->
  PHD2Parser.frame_dt session fr1 = t0 + 5 * 1000000 ->
  PHD2Parser.frame_dt session fr2 = t0 + 15 * 1000000 ->
  PHD2Parser.frame_dt session fr3 = t0 + 40 * 1000000 ->
  Exposure.timestamp e = t0 ->
  timedelta_seconds (Exposure.exposure_time e) = 30 * 1000000 ->
  list_truthy dither_events = false ->
  In e (NINAParser.exposures nina) ->
  let ra := fmul (GuidingSession.rms_px [GuidingFrame.ra_raw fr1; GuidingFrame.ra_raw fr2]) f1 in
  let dec := fmul (GuidingSession.rms_px [GuidingFrame.dec_raw fr1; GuidingFrame.dec_raw fr2]) f1 in
  In (Exposure.set_guiding (Some ra) (Some dec) (Some (GuidingSession.quadrature ra dec)) 2 e)
     (NINAParser.exposures
        (correlate_guiding_with_exposures phd2 nina dither_events dither_margin_seconds)).
Proof.
  intros Hss Hfs Hps H1 H2 H3 Hts Het Hd Hin ra dec.
  unfold correlate_guiding_with_exposures. destruct nina; simpl in Hin |- *.
  apply in_map_iff. exists e. split; [|assumption].
  unfold correlate_exposure. rewrite collect_spec, Hss.
  assert (Hq : qualifying_frames [session] e dither_events dither_margin_seconds = [fr1; fr2]).
  { unfold qualifying_frames. simpl. rewrite app_nil_r, Hfs. simpl.
    rewrite !qualifies_no_dither by assumption.
    rewrite H1, H2, H3, Hts, Het.
    repeat match goal with
           | |- context [?a <=? ?b] => destruct (Z.leb_spec a b); try lia
           end.
    reflexivity. }
  rewrite Hq. simpl. rewrite Hps.
  destruct (f_truthy f1); reflexivity.
Qed.

(** *** The buckets of [get_rms_over_time] *)

Lemma close_bucket_rows (session : GuidingSession.t F) (b : PHD2Parser.buckets F)
    (mb : members F) (results0 : list (datetime * F * F * F)) :
  PHD2Parser.results b = results0 ++ map (row_of session) (closed mb) ->
  PHD2Parser.current_bucket b = open mb ->
  PHD2Parser.bucket_start b = open_start mb ->
  match PHD2Parser.current_bucket b with
  | [] => PHD2Parser.results b
  | _ => PHD2Parser.results b
         ++ [PHD2Parser.bucket_row (scale_or_1 session) (PHD2Parser.bucket_start b)
               (PHD2Parser.current_bucket b)]
  end
  = results0 ++ map (row_of session) (close_bucket mb).
Proof.
  intros Hres Hcur Hstart. unfold close_bucket.
  rewrite Hcur, Hres, Hstart.
  destruct (open mb) as [|f fs] eqn:Hopen; [reflexivity|].
  rewrite map_app, app_assoc. reflexivity.
Qed.

(** The loop of the source and the loop that keeps the member frames run in
    step. *)
Lemma bucket_frames_rows (interval : F) (d : option (list DitherEvent.t)) (m : F)
    (session : GuidingSession.t F) (results0 : list (datetime * F * F * F))
    (fs : list (GuidingFrame.t F)) (b : PHD2Parser.buckets F) (mb : members F) :
  PHD2Parser.results b = results0 ++ map (row_of session) (closed mb) ->
  PHD2Parser.current_bucket b = open mb ->
  PHD2Parser.bucket_start b = open_start mb ->
  let b' := fold_left (PHD2Parser.bucket_frame interval d m session (scale_or_1 session)) fs b in
  let mb' := fold_left (member_frame interval d m session) fs mb in
  PHD2Parser.results b' = results0 ++ map (row_of session) (closed mb') /\
  PHD2Parser.current_bucket b' = open mb' /\
  PHD2Parser.bucket_start b' = open_start mb'.
Proof.
  revert b mb. induction fs as [|f fs IH]; intros b mb Hres Hcur Hstart; simpl.
  - auto.
  - apply IH; unfold PHD2Parser.bucket_frame, member_frame; rewrite Hstart;
      destruct (PHD2Parser.skipped d m (PHD2Parser.frame_dt session f)); try assumption;
      destruct (f_geb (total_seconds (PHD2Parser.frame_dt session f - open_start mb)) interval);
      simpl; try assumption; try reflexivity.
    + rewrite <- Hstart. now apply close_bucket_rows.
    + now rewrite Hcur.
Qed.

Lemma bucket_session_rows (interval : F) (d : option (list DitherEvent.t)) (m : F)
    (results0 : list (datetime * F * F * F)) (session : GuidingSession.t F) :
  PHD2Parser.bucket_session interval d m results0 session
  = results0 ++ map (row_of session) (session_buckets interval d m session).
Proof.
  unfold PHD2Parser.bucket_session, session_buckets.
  destruct (GuidingSession.frames session) as [|f fs] eqn:Hfs.
  - simpl. now rewrite app_nil_r.
  - fold (scale_or_1 session).
    destruct (bucket_frames_rows interval d m session results0 (f :: fs)
                (PHD2Parser.mk_buckets results0 [] (GuidingSession.start_time session))
                (mk_members [] [] (GuidingSession.start_time session)))
      as (Hres & Hcur & Hstart); simpl; try reflexivity.
    + now rewrite app_nil_r.
    + now apply close_bucket_rows.
Qed.

Lemma rms_over_time_rows (interval : F) (d : option (list DitherEvent.t)) (m : F)
    (ss : list (GuidingSession.t F)) (results0 : list (datetime * F * F * F)) :
  fold_left (PHD2Parser.bucket_session interval d m) ss results0
  = results0
    ++ flat_map (fun session => map (row_of session) (session_buckets interval d m session)) ss.
Proof.
  revert results0. induction ss as [|s ss IH]; intros results0; simpl.
  - now rewrite app_nil_r.
  - rewrite IH, bucket_session_rows. now rewrite app_assoc.
Qed.

Lemma close_bucket_concat (mb : members F) :
  concat (map snd (close_bucket mb)) = placed mb.
Proof.
  unfold close_bucket, placed.
  destruct (open mb) as [|f fs].
  - now rewrite app_nil_r.
  - rewrite map_app, concat_app. simpl. now rewrite app_nil_r.
Qed.

Lemma close_bucket_nonempty (mb : members F) :
  Forall (fun b => snd b <> []) (closed mb) ->
  Forall (fun b => snd b <> []) (close_bucket mb).
Proof.
  intros Hall. unfold close_bucket.
  destruct (open mb) as [|f fs] eqn:Hopen; [assumption|].
  apply Forall_app. split; [assumption|].
  constructor; [simpl; discriminate | constructor].
Qed.

Lemma member_frames_partition (interval : F) (d : option (list DitherEvent.t)) (m : F)
    (session : GuidingSession.t F) (fs : list (GuidingFrame.t F)) (mb : members F) :
  Forall (fun b => snd b <> []) (closed mb) ->
  let mb' := fold_left (member_frame interval d m session) fs mb in
  placed mb'
  = placed mb
    ++ filter (fun frame =>
                 negb (PHD2Parser.skipped d m (PHD2Parser.frame_dt session frame))) fs /\
  Forall (fun b => snd b <> []) (closed mb').
Proof.
  revert mb. induction fs as [|f fs IH]; intros mb Hall; simpl.
  - now rewrite app_nil_r.
  - unfold member_frame at 2 4.
    destruct (PHD2Parser.skipped d m (PHD2Parser.frame_dt session f)); simpl.
    + now apply IH.
    + destruct (f_geb (total_seconds (PHD2Parser.frame_dt session f - open_start mb)) interval).
      * destruct (IH (mk_members (close_bucket mb) [f] (PHD2Parser.frame_dt session f)))
          as (Hp & Hne).
        { simpl. now apply close_bucket_nonempty. }
        split; [|assumption]. rewrite Hp. unfold placed at 1. simpl.
        rewrite close_bucket_concat. now rewrite <- app_assoc.
      * destruct (IH (mk_members (closed mb) (open mb ++ [f]) (open_start mb)))
          as (Hp & Hne).
        { assumption. }
        split; [|assumption]. rewrite Hp. unfold placed. simpl.
        now rewrite <- !app_assoc.
Qed.


End AggregationProperties.

(** ** Properties of the scans *)

Section ScanProperties.
Context {S X : Type}.

Lemma and_then_preserves (P : S -> Prop) (o : outcome S) (f : S -> outcome S) :
  P (state_of o) -> preserves P f -> P (state_of (o >>> f)).
Proof.
  intros Ho Hf. destruct o as [s|s]; simpl in *; [now apply Hf | assumption].
Qed.

Lemma for_each_preserves (P : S -> Prop) (body : S -> X -> outcome S) (xs : list X) :
  (forall x, In x xs -> preserves P (fun s => body s x)) ->
  preserves P (fun s => for_each body s xs).
Proof.
  induction xs as [|x xs IH]; intros Hbody s Hs; simpl; [assumption|].
  pose proof (Hbody x (or_introl eq_refl) s Hs) as Hx.
  destruct (body s x) as [s'|s']; simpl in Hx.
  - apply IH; [|assumption]. intros y Hy. apply Hbody. now right.
  - assumption.
Qed.

(** A scan of [pre ++ post] is the scan of [pre] continued on [post], unless
    [pre] already raised. *)
Lemma for_each_app (body : S -> X -> outcome S) (pre post : list X) (s : S) :
  for_each body s (pre ++ post)
  = match for_each body s pre with
    | Returned s' => for_each body s' post
    | Raised s' => Raised s'
    end.
Proof.
  revert s. induction pre as [|x pre IH]; intros s; simpl; [reflexivity|].
  destruct (body s x) as [s'|s']; [apply IH | reflexivity].
Qed.

End ScanProperties.

(** Case analysis on the tests of a detector. *)
Ltac break_tests :=
  repeat match goal with
         | |- context [match ?x with _ => _ end] => destruct x eqn:?; simpl
         end.

Section NINAProperties.
Context {F : Type} `{PyNum F}.

(** *** Dither events *)

(** Only the dither-end detector appends to [dither_events]. *)
Lemma parse_line_keeps_dither_events (X : list DitherEvent.t) (line : string) :
  Str.contains "SequenceItem" line && Str.contains "Finishing" line
    && Str.contains "Item: Dither" line = false ->
  preserves (fun s : NINAParser.t F => NINAParser.dither_events s = X)
            (fun s => NINAParser._parse_line s line).
Proof.
  intros Hfin s Hs. unfold NINAParser._parse_line.
  destruct (NINAParser._parse_timestamp line) as [[ts|]|]; simpl; try assumption.
  repeat (apply and_then_preserves;
          [| intros s' Hs';
             first [ unfold NINAParser.detect_dither_end; rewrite Hfin; assumption
                   | unfold NINAParser.detect_dither_start, NINAParser.detect_rms_alert,
                       NINAParser.detect_pier_side, NINAParser.detect_saved,
                       NINAParser.detect_exposure, NINAParser.detect_filter,
                       NINAParser.detect_hfr, NINAParser.detect_af_completed,
                       NINAParser.detect_af_temperature, NINAParser.detect_af_trigger,
                       NINAParser.detect_af_initial, NINAParser.detect_af_start;
                     break_tests; assumption ] ]).
  unfold NINAParser.detect_target. break_tests; assumption.
Qed.

Lemma nina_scan_keeps_dither_events (X : list DitherEvent.t) (lines : list string) :
  Forall (fun raw => dither_finish_marker raw = false) lines ->
  preserves (fun s : NINAParser.t F => NINAParser.dither_events s = X)
            (fun s => for_each (fun self line => NINAParser._parse_line self (Str.strip line))
                        s lines).
Proof.
  intros Hall. apply for_each_preserves. intros raw Hin.
  apply parse_line_keeps_dither_events.
  rewrite Forall_forall in Hall. exact (Hall raw Hin).
Qed.

(** *** Exposures as the parser builds them *)

Lemma detect_saved_unset (line : string) :
  preserves exposures_unset (NINAParser.detect_saved (F:=F) line).
Proof.
  intros s [Hex Hpe]. unfold NINAParser.detect_saved.
  destruct (_ && _); [|split; assumption].
  destruct (Re.search _ _) as [m|]; [|split; assumption].
  destruct (NINAParser._pending_exposure s) as [e|] eqn:Hp; [|split; [assumption|]].
  - destruct (Hpe e eq_refl) as (Hra & Hdec & Htot & Hn).
    split; simpl; [|discriminate].
    apply Forall_app. split; [assumption|].
    constructor; [|constructor].
    destruct (NINAParser.hfr_truthy _), (NINAParser.stars_truthy _);
      repeat split; assumption.
  - simpl. intros e0 He0. congruence.
Qed.

Lemma detect_exposure_unset (line : string) (ts : datetime) :
  preserves exposures_unset (NINAParser.detect_exposure (F:=F) line ts).
Proof.
  intros s [Hex Hpe]. unfold NINAParser.detect_exposure.
  destruct (_ && _); [|split; assumption].
  destruct (Re.search _ _) as [m|]; [|split; assumption].
  set (filter_name := if Str.nonempty (Re.group 2 m) then _ else _).
  assert (Hs' : exposures_unset
                  (if Str.nonempty filter_name
                   then NINAParser.set_current_filter filter_name s else s)).
  { destruct (Str.nonempty filter_name); split; assumption. }
  destruct Hs' as [Hex' Hpe'].
  destruct (py_float _); [|split; assumption].
  destruct (py_int _); [|split; assumption].
  destruct (py_int _); [|split; assumption].
  split; simpl.
  - destruct (Str.nonempty filter_name); assumption.
  - intros e He. injection He as <-. repeat split.
Qed.

(** The other detectors leave the exposure list and the pending exposure
    alone. *)
Ltac frame_detector :=
  let s := fresh "s" in
  let Hex := fresh "Hex" in
  let Hpe := fresh "Hpe" in
  intros s [Hex Hpe];
  unfold NINAParser.detect_dither_end, NINAParser.detect_dither_start,
    NINAParser.detect_rms_alert, NINAParser.detect_pier_side, NINAParser.detect_filter,
    NINAParser.detect_hfr, NINAParser.detect_af_completed,
    NINAParser.detect_af_temperature, NINAParser.detect_af_trigger,
    NINAParser.detect_af_initial, NINAParser.detect_af_start, NINAParser.detect_target;
  break_tests; split; assumption.

Lemma parse_line_keeps_exposures_unset (line : string) :
  preserves exposures_unset (fun s : NINAParser.t F => NINAParser._parse_line s line).
Proof.
  intros s Hs. unfold NINAParser._parse_line.
  destruct (NINAParser._parse_timestamp line) as [[ts|]|]; simpl; try assumption.
  repeat (apply and_then_preserves;
          [| first [ apply detect_saved_unset | apply detect_exposure_unset
                   | frame_detector ] ]).
  revert Hs. generalize s. 
  assert (Hstart : preserves exposures_unset
            (fun s0 : NINAParser.t F =>
               NINAParser.detect_target line
                 (NINAParser.set_session_end (Some ts)
                    match NINAParser.session_start s0 with
                    | Some _ => s0
                    | None => NINAParser.set_session_start (Some ts) s0
                    end))).
  { frame_detector. }
  exact Hstart.
Qed.

Lemma parsed_exposures_unset (lines : list string) :
  exposures_unset (state_of (NINAParser.parse (F:=F) NINAParser.init lines)).
Proof.
  unfold NINAParser.parse.
  apply (for_each_preserves exposures_unset).
  - intros raw _. apply parse_line_keeps_exposures_unset.
  - split; simpl; [constructor | discriminate].
Qed.

End NINAProperties.

Section PHD2Properties.
Context {F : Type} `{PyNum F}.

(** *** Sessions are appended by end markers only *)

Lemma begin_line_keeps_sessions (X : list (GuidingSession.t F)) (raw : string) :
  begin_marker raw = true ->
  preserves (fun st : PHD2Parser.scan F => PHD2Parser.sessions (fst st) = X)
            (fun st => PHD2Parser.parse_line st raw).
Proof.
  unfold begin_marker. intros Hb [self cur] Hs. unfold PHD2Parser.parse_line.
  rewrite Hb. break_tests; assumption.
Qed.

Lemma other_line_keeps_sessions (X : list (GuidingSession.t F)) (raw : string) :
  end_marker raw = false ->
  preserves (fun st : PHD2Parser.scan F => PHD2Parser.sessions (fst st) = X)
            (fun st => PHD2Parser.parse_line st raw).
Proof.
  unfold end_marker. intros He [self cur] Hs. unfold PHD2Parser.parse_line.
  rewrite He. break_tests; assumption.
Qed.

Lemma phd2_scan_keeps_sessions (X : list (GuidingSession.t F)) (lines : list string) :
  Forall (fun raw => begin_marker raw = true \/ end_marker raw = false) lines ->
  preserves (fun st : PHD2Parser.scan F => PHD2Parser.sessions (fst st) = X)
            (fun st => for_each PHD2Parser.parse_line st lines).
Proof.
  intros Hall. apply for_each_preserves. intros raw Hin.
  rewrite Forall_forall in Hall.
  destruct (Hall raw Hin) as [Hb|He];
    [now apply begin_line_keeps_sessions | now apply other_line_keeps_sessions].
Qed.

(** The sessions [parse] leaves are those of its scan. *)
Lemma parse_sessions (self : PHD2Parser.t F) (lines : list string) :
  PHD2Parser.sessions (state_of (PHD2Parser.parse self lines))
  = PHD2Parser.sessions
      (fst (state_of (for_each PHD2Parser.parse_line
                        (PHD2Parser.set_sessions [] self, None) lines))).
Proof.
  unfold PHD2Parser.parse.
  destruct (for_each _ _ _) as [[s c]|[s c]]; reflexivity.
Qed.

Lemma phd2_unterminated (self : PHD2Parser.t F) (pre post : list string) (l : string) :
  begin_marker l = true ->
  Forall (fun raw => end_marker raw = false) post ->
  PHD2Parser.sessions (state_of (PHD2Parser.parse self (pre ++ l :: post)))
  = PHD2Parser.sessions (state_of (PHD2Parser.parse self pre)).
Proof.
  intros Hb Hpost. rewrite !parse_sessions, for_each_app.
  destruct (for_each PHD2Parser.parse_line (PHD2Parser.set_sessions [] self, None) pre)
    as [st|st]; simpl; [|reflexivity].
  apply (phd2_scan_keeps_sessions (PHD2Parser.sessions (fst st)) (l :: post));
    [|reflexivity].
  constructor; [now left|].
  eapply Forall_impl; [|exact Hpost]. intros raw Hraw. now right.
Qed.

Lemma phd2_no_end_no_session (self : PHD2Parser.t F) (lines : list string) :
  Forall (fun raw => end_marker raw = false) lines ->
  PHD2Parser.sessions (state_of (PHD2Parser.parse self lines)) = [].
Proof.
  intros Hall. rewrite parse_sessions.
  apply (phd2_scan_keeps_sessions [] lines); [|reflexivity].
  eapply Forall_impl; [|exact Hall]. intros raw Hraw. now right.
Qed.

(** *** Pixel scales are non-negative *)

Lemma pixel_scale_group_over :
  Re.group_over 1 Str.is_digit_dot PHD2Parser.re_pixel_scale.
Proof.
  unfold PHD2Parser.re_pixel_scale. simpl.
  repeat split; auto; discriminate.
Qed.

Context `{!SignLaws F}.

Lemma parse_line_keeps_scales_nonneg (raw : string) :
  preserves scales_nonneg (fun st : PHD2Parser.scan F => PHD2Parser.parse_line st raw).
Proof.
  intros [self cur] [Hss Hcur]. unfold PHD2Parser.parse_line. simpl in Hss, Hcur.
  destruct (Str.startswith "PHD2 version" _).
  { break_tests; split; assumption. }
  destruct (Str.startswith "Guiding Begins at" _).
  { break_tests; split; simpl; try assumption.
    intros cs Hcs. injection Hcs as <-. simpl. apply nonneg_f0. }
  destruct (Str.startswith "Equipment Profile" _ && is_some cur).
  { destruct cur as [cs|]; [|split; assumption].
    destruct (Re.search _ _); [|split; assumption].
    split; simpl; [assumption|]. intros cs' Hcs'. injection Hcs' as <-.
    simpl. now apply Hcur. }
  destruct (Str.startswith "Pixel scale" _ && is_some cur).
  { destruct cur as [cs|]; [|split; assumption].
    destruct (Re.search _ _) as [m|] eqn:Hm; [|split; assumption].
    destruct (py_float _) as [ps|] eqn:Hps; [|split; assumption].
    assert (Hnn : nonneg ps).
    { apply (nonneg_float (Re.group 1 m)); [|assumption].
      eapply search_group_over; [apply pixel_scale_group_over | exact Hm]. }
    destruct (py_int _); split; simpl; try assumption;
      intros cs' Hcs'; injection Hcs' as <-; exact Hnn. }
  destruct (Str.startswith "RA =" _ && is_some cur).
  { destruct cur as [cs|]; [|split; assumption].
    destruct (Re.search _ _); [|split; assumption].
    break_tests; split; simpl; try assumption.
    intros cs' Hcs'. injection Hcs' as <-. simpl. now apply Hcur. }
  destruct (is_some cur && _).
  { destruct cur as [cs|]; [|split; assumption].
    destruct (PHD2Parser._parse_frame _); [|split; assumption].
    split; simpl; [assumption|]. intros cs' Hcs'. injection Hcs' as <-.
    simpl. now apply Hcur. }
  destruct (Str.startswith "Guiding Ends at" _); [|split; assumption].
  destruct (Re.search _ _); [|split; assumption].
  destruct cur as [cs|]; [|split; assumption].
  destruct (strptime _ _ _); [|split; assumption].
  split; simpl; [|discriminate].
  apply Forall_app. split; [assumption|].
  constructor; [|constructor]. simpl. now apply Hcur.
Qed.

Lemma parsed_scales_nonneg (self : PHD2Parser.t F) (lines : list string) :
  Forall (fun s => nonneg (GuidingSession.pixel_scale s))
         (PHD2Parser.sessions (state_of (PHD2Parser.parse self lines))).
Proof.
  rewrite parse_sessions.
  apply (for_each_preserves scales_nonneg PHD2Parser.parse_line lines).
  - intros raw _. apply parse_line_keeps_scales_nonneg.
  - split; simpl; [constructor | discriminate].
Qed.

Lemma first_pixel_scale_nonneg (ss : list (GuidingSession.t F)) :
  Forall (fun s => nonneg (GuidingSession.pixel_scale s)) ss ->
  nonneg (first_pixel_scale ss).
Proof.
  induction 1 as [|s ss Hs Hss IH]; simpl; [apply nonneg_f1|].
  destruct (f_truthy (GuidingSession.pixel_scale s)); assumption.
Qed.

Lemma scale_or_1_nonneg (s : GuidingSession.t F) :
  nonneg (GuidingSession.pixel_scale s) -> nonneg (scale_or_1 s).
Proof.
  intros Hs. unfold scale_or_1.
  destruct (f_truthy (GuidingSession.pixel_scale s)); [assumption | apply nonneg_f1].
Qed.

Lemma rms_px_sign (values : list F) : nonneg_or_nan (GuidingSession.rms_px values).
Proof.
  unfold GuidingSession.rms_px. apply nonneg_sqrt.
Qed.

Lemma scaled_rms_sign (values : list F) (scale : F) :
  nonneg scale -> nonneg_or_nan (fmul (GuidingSession.rms_px values) scale).
Proof.
  intros Hs Hnum. destruct (number_mul _ _ Hnum) as [Hrms _].
  apply nonneg_mul; [now apply rms_px_sign | assumption | assumption].
Qed.

Lemma quadrature_sign (a b : F) : nonneg_or_nan (GuidingSession.quadrature a b).
Proof.
  unfold GuidingSession.quadrature. apply nonneg_sqrt.
Qed.

Lemma session_rms_sign (s : GuidingSession.t F) :
  nonneg (GuidingSession.pixel_scale s) ->
  GuidingSession.total_rms s
  = np_sqrt (fadd (fpow2 (GuidingSession.ra_rms s)) (fpow2 (GuidingSession.dec_rms s))) /\
  nonneg_or_nan (GuidingSession.ra_rms s) /\
  nonneg_or_nan (GuidingSession.dec_rms s) /\
  nonneg_or_nan (GuidingSession.total_rms s).
Proof.
  intros Hs.
  unfold GuidingSession.total_rms, GuidingSession.ra_rms, GuidingSession.dec_rms.
  destruct (GuidingSession.frames s) as [|f fs].
  { split; [symmetry; apply root_of_zero|].
    split; [|split]; intros _; apply nonneg_f0. }
  split; [reflexivity|].
  destruct (f_truthy (GuidingSession.pixel_scale s));
    (split; [|split]);
    first [ now apply scaled_rms_sign | apply rms_px_sign | apply quadrature_sign ].
Qed.

Lemma row_sign (s : GuidingSession.t F) (b : datetime * list (GuidingFrame.t F))
    (t : datetime) (ra dec total : F) :
  nonneg (GuidingSession.pixel_scale s) ->
  row_of s b = (t, ra, dec, total) ->
  total = np_sqrt (fadd (fpow2 ra) (fpow2 dec)) /\
  nonneg_or_nan ra /\ nonneg_or_nan dec /\ nonneg_or_nan total.
Proof.
  intros Hs Hrow. unfold row_of, PHD2Parser.bucket_row in Hrow.
  injection Hrow as _ <- <- <-.
  split; [reflexivity|].
  (split; [|split]);
    first [ apply scaled_rms_sign; now apply scale_or_1_nonneg | apply quadrature_sign ].
Qed.

End PHD2Properties.

(** ** The properties of the specification *)

Section SpecificationProperties.
Context {F : Type} `{PyNum F}.

(** C5. Unterminated records are omitted. In a guiding log, the sessions
    [parse] leaves after a "Guiding Begins" line that no "Guiding Ends" line
    follows are those it had before that line, so none is emitted for it; a
    log made of that begin line and what follows yields no session. In an
    imaging log, the dither events [parse] leaves after a dither start line
    that no dither end follows are those it had before that line; a fresh
    parser given that start line and what follows yields no dither event. *)
Theorem unterminated_records_omitted
    (phd2 : PHD2Parser.t F) (nina : NINAParser.t F)
    (guide_pre guide_post imaging_pre imaging_post : list string)
    (begin_l start_l : string) :
  begin_marker begin_l = true ->
  Forall (fun raw => end_marker raw = false) guide_post ->
  dither_start_marker start_l = true ->
  Forall (fun raw => dither_finish_marker raw = false) (start_l :: imaging_post) ->
  PHD2Parser.sessions (state_of (PHD2Parser.parse phd2 (guide_pre ++ begin_l :: guide_post)))
  = PHD2Parser.sessions (state_of (PHD2Parser.parse phd2 guide_pre)) /\
  PHD2Parser.sessions (state_of (PHD2Parser.parse phd2 (begin_l :: guide_post))) = [] /\
  NINAParser.dither_events
    (state_of (NINAParser.parse nina (imaging_pre ++ start_l :: imaging_post)))
  = NINAParser.dither_events (state_of (NINAParser.parse nina imaging_pre)) /\
  NINAParser.dither_events
    (state_of (NINAParser.parse NINAParser.init (start_l :: imaging_post))) = [].
Proof.
  intros Hbegin Hguide Hstart Himaging.
  split; [now apply phd2_unterminated|].
  split; [apply (phd2_unterminated phd2 [] guide_post begin_l); assumption|].
  assert (Hkeep : forall (s0 : NINAParser.t F) (pre : list string),
             NINAParser.dither_events
               (state_of (NINAParser.parse s0 (pre ++ start_l :: imaging_post)))
             = NINAParser.dither_events (state_of (NINAParser.parse s0 pre))).
  { intros s0 pre. unfold NINAParser.parse. rewrite for_each_app.
    destruct (for_each _ (NINAParser.reset s0) pre) as [s|s]; simpl; [|reflexivity].
    now apply (nina_scan_keeps_dither_events (NINAParser.dither_events s)
                 (start_l :: imaging_post)). }
  split; [apply Hkeep | apply (Hkeep NINAParser.init [])].
Qed.

(** C9. After the correlation of any guiding data with a freshly parsed
    imaging log, an exposure for which no guiding frame qualifies (inside
    its inclusive window, outside the dither windows) still has ra_rms,
    dec_rms and total_rms unset and guiding_frames 0. *)
Theorem unqualified_exposure_stays_unset
    (lines : list string) (phd2 : PHD2Parser.t F)
    (dither_events : option (list DitherEvent.t)) (dither_margin_seconds : F)
    (e : Exposure.t F) :
  In e (NINAParser.exposures
          (correlate_guiding_with_exposures phd2
             (state_of (NINAParser.parse NINAParser.init lines))
             dither_events dither_margin_seconds)) ->
  qualifying_frames (PHD2Parser.sessions phd2) e dither_events dither_margin_seconds = [] ->
  Exposure.ra_rms e = None /\ Exposure.dec_rms e = None /\
  Exposure.total_rms e = None /\ Exposure.guiding_frames e = 0.
Proof.
  intros Hin Hq.
  destruct (parsed_exposures_unset lines) as [Hall _].
  unfold correlate_guiding_with_exposures in Hin.
  destruct (state_of (NINAParser.parse NINAParser.init lines)); simpl in *.
  apply in_map_iff in Hin. destruct Hin as (e0 & <- & Hin0).
  rewrite correlate_exposure_window in Hq.
  unfold correlate_exposure. rewrite collect_spec, Hq. simpl.
  rewrite Forall_forall in Hall. exact (Hall e0 Hin0).
Qed.

Context `{!SignLaws F}.


End SpecificationProperties.

(** ** The reference arithmetic satisfies the sign laws *)

Section Decimal6Laws.

Lemma digit_val_nonneg (c : ascii) : Str.is_digit c = true -> 0 <= Str.digit_val c.
Proof.
  unfold Str.is_digit, Str.digit_val. intros Hd.
  apply andb_prop in Hd. destruct Hd as [Hlo _].
  apply N.leb_le in Hlo. lia.
Qed.

Lemma decimal_nonneg (l : list ascii) :
  forallb Str.is_digit l = true -> 0 <= Str.decimal l.
Proof.
  unfold Str.decimal. intros Hall.
  assert (Hgen : forall acc, 0 <= acc ->
             0 <= fold_left (fun acc c => 10 * acc + Str.digit_val c) l acc).
  { induction l as [|c l IH]; intros a Ha; cbn [fold_left]; [assumption|].
    cbn [forallb] in Hall. apply andb_prop in Hall. destruct Hall as [Hc Hl].
    apply IH; [assumption|]. pose proof (digit_val_nonneg c Hc) as Hv.
    unfold Str.digit_val in *. lia. }
  apply Hgen. lia.
Qed.

Lemma forallb_firstn {A : Type} (q : A -> bool) (k : nat) (l : list A) :
  forallb q l = true -> forallb q (firstn k l) = true.
Proof.
  revert l. induction k as [|k IH]; intros [|a l] Hall; simpl; try reflexivity.
  simpl in Hall. apply andb_prop in Hall. destruct Hall as [Ha Hl].
  now rewrite Ha, IH.
Qed.

Lemma millionths_nonneg (s : string) :
  Decimal6.all_digits s = true -> 0 <= Decimal6.millionths s.
Proof.
  intros Hs. unfold Decimal6.millionths. apply decimal_nonneg, forallb_firstn.
  rewrite forallb_app. unfold Decimal6.all_digits in Hs. now rewrite Hs.
Qed.

Lemma unsigned_nonneg (l : list ascii) (x : Z) :
  Decimal6.unsigned l = Some x -> 0 <= x.
Proof.
  unfold Decimal6.unsigned.
  destruct (Str.split_on "." l []) as [|i [|f [|g rest]]]; try discriminate.
  - destruct (Decimal6.all_digits i) eqn:Hi; simpl; [|discriminate].
    destruct (Str.nonempty i); [|discriminate].
    intros Hx. injection Hx as <-.
    pose proof (decimal_nonneg (Str.chars i) Hi). unfold Decimal6.unit. lia.
  - destruct (Decimal6.all_digits i) eqn:Hi; simpl; [|discriminate].
    destruct (Decimal6.all_digits f) eqn:Hf; simpl; [|discriminate].
    destruct (Str.nonempty i || Str.nonempty f); [|discriminate].
    intros Hx. injection Hx as <-.
    pose proof (decimal_nonneg (Str.chars i) Hi).
    pose proof (millionths_nonneg f Hf). unfold Decimal6.unit. lia.
Qed.

Lemma lstrip_incl (l : list ascii) (a : ascii) : In a (Str.lstrip l) -> In a l.
Proof.
  induction l as [|c l IH]; simpl; [auto|].
  destruct (Str.is_space c); [intros Hin; right; now apply IH | auto].
Qed.

Lemma strip_incl (s : string) (a : ascii) :
  In a (Str.chars (Str.strip s)) -> In a (Str.chars s).
Proof.
  unfold Str.strip. rewrite chars_of_chars. intros Hin.
  apply in_rev, lstrip_incl, in_rev, lstrip_incl in Hin. exact Hin.
Qed.

#[export] Instance decimal6_sign_laws : @SignLaws Decimal6.F Decimal6.num.
Proof.
  constructor; unfold nonneg_or_nan, is_number, nonneg; simpl.
  - reflexivity.
  - reflexivity.
  - intros x _. apply Z.geb_le. unfold Decimal6.sqrt. apply Z.sqrt_nonneg.
  - intros a b Ha Hb _. apply Z.geb_le in Ha, Hb. apply Z.geb_le.
    unfold Decimal6.mul, Decimal6.unit. apply Z.div_pos; nia.
  - intros a b _. split; apply Z.geb_le; lia.
  - intros s x Hall Hx. apply Z.geb_le. unfold Decimal6.to_float in Hx.
    destruct (Str.chars (Str.strip s)) as [|a l] eqn:Hchars; [discriminate|].
    assert (Ha : Str.is_digit_dot a = true).
    { rewrite forallb_forall in Hall. apply Hall, strip_incl.
      rewrite Hchars. now left. }
    destruct (Ascii.eqb_spec a "-") as [->|_]; [discriminate|].
    destruct (Ascii.eqb_spec a "+") as [->|_]; [discriminate|].
    now apply (unsigned_nonneg (a :: l)).
  - reflexivity.
Qed.

End Decimal6Laws.

(** ** IEEE arithmetic satisfies the sign laws

    By the specification of Rocq's primitive floats ([FloatAxioms]): the
    sign of a rounded result is the sign of the exact one. *)

Module Float64Laws.
Import SpecFloat.
#[local] Existing Instance Float64.num.

Import Float64.

Lemma shr_1_nonneg (mrs : shr_record) : 0 <= shr_m mrs -> 0 <= shr_m (shr_1 mrs).
Proof.
  destruct mrs as [m r s]. destruct m as [|[p|p|]|p]; simpl; lia.
Qed.

Lemma iter_shr_nonneg (p : positive) (mrs : shr_record) :
  0 <= shr_m mrs -> 0 <= shr_m (iter_pos shr_1 p mrs).
Proof.
  revert mrs. induction p as [p IH|p IH|]; intros mrs Hm; simpl.
  - apply IH, IH, shr_1_nonneg, Hm.
  - apply IH, IH, Hm.
  - apply shr_1_nonneg, Hm.
Qed.

Lemma shr_fexp_nonneg (m e : Z) (l : location) :
  0 <= m -> 0 <= shr_m (fst (shr_fexp prec emax m e l)).
Proof.
  intros Hm. unfold shr_fexp, shr.
  assert (H0 : 0 <= shr_m (shr_record_of_loc m l)) by (destruct l as [|[]]; exact Hm).
  destruct (fexp _ _ _ - e); simpl; auto using iter_shr_nonneg.
Qed.

Lemma round_nearest_even_nonneg (m : Z) (l : location) :
  0 <= m -> 0 <= round_nearest_even m l.
Proof.
  intros Hm. destruct l as [|[]]; simpl; try destruct (Z.even m); lia.
Qed.

Lemma round_aux_ge_zero (mx ex : Z) (lx : location) :
  0 <= mx -> ge_zero (binary_round_aux prec emax false mx ex lx).
Proof.
  intros Hm. unfold binary_round_aux.
  pose proof (shr_fexp_nonneg mx ex lx Hm) as H1.
  destruct (shr_fexp _ _ mx ex lx) as [m1 e1]. simpl in H1.
  pose proof (shr_fexp_nonneg _ e1 loc_Exact
                (round_nearest_even_nonneg _ (loc_of_shr_record m1) H1)) as H2.
  destruct (shr_fexp _ _ _ e1 loc_Exact) as [m2 e2]. simpl in H2.
  destruct (shr_m m2); [reflexivity | destruct (_ <=? _); reflexivity | lia].
Qed.

Lemma round_aux_sign (mx ex : Z) (lx : location) :
  ge_zero_or_nan (binary_round_aux prec emax false mx ex lx).
Proof.
  unfold binary_round_aux.
  destruct (shr_fexp _ _ mx ex lx) as [m1 e1].
  destruct (shr_fexp _ _ _ e1 loc_Exact) as [m2 e2].
  destruct (shr_m m2); [right; reflexivity | right; destruct (_ <=? _); reflexivity | now left].
Qed.

Lemma round_ge_zero (m : positive) (e : Z) :
  ge_zero (binary_round prec emax false m e).
Proof.
  unfold binary_round. destruct (shl_align _ _ _) as [mz ez].
  apply round_aux_ge_zero. lia.
Qed.

Lemma normalize_ge_zero (z e : Z) :
  0 <= z -> ge_zero (binary_normalize prec emax z e false).
Proof.
  intros Hz. destruct z; simpl; [reflexivity | apply round_ge_zero | lia].
Qed.

Lemma ldexp_ge_zero (x : spec_float) (e : Z) :
  ge_zero x -> ge_zero (SFldexp prec emax x e).
Proof.
  destruct x as [s|s| |s m ex]; simpl; auto.
  destruct s; [discriminate|]. intros _. apply round_ge_zero.
Qed.

Lemma nonneg_spec (x : F) : nonneg x <-> ge_zero (FloatOps.Prim2SF x).
Proof.
  unfold nonneg, ge_zero. simpl. rewrite FloatAxioms.leb_spec. reflexivity.
Qed.

Lemma compare_refl (x : spec_float) :
  x <> S754_nan -> SFcompare x x = Some Eq.
Proof.
  destruct x as [s|s| |s m e]; simpl; intros Hx; try reflexivity.
  - now destruct s.
  - contradiction.
  - rewrite Z.compare_refl, Pos.compare_cont_refl. now destruct s.
Qed.

Lemma number_spec (x : F) :
  is_number x <-> FloatOps.Prim2SF x <> S754_nan.
Proof.
  unfold is_number. simpl. rewrite FloatAxioms.leb_spec. unfold SFleb. split.
  - intros H Hn. rewrite Hn in H. discriminate.
  - intros H. now rewrite compare_refl.
Qed.

Lemma ge_zero_or_nan_nonneg (x : F) :
  ge_zero_or_nan (FloatOps.Prim2SF x) -> nonneg_or_nan x.
Proof.
  intros [Hn|Hok] Hnum.
  - now apply number_spec in Hnum.
  - now apply nonneg_spec.
Qed.

Lemma of_spec_ge_zero (x : spec_float) : ge_zero x -> nonneg (FloatOps.SF2Prim x).
Proof.
  intros Hx. apply nonneg_spec.
  destruct x as [s|s| |s m e]; try discriminate.
  - destruct s; vm_compute; reflexivity.
  - destruct s; [discriminate | vm_compute; reflexivity].
  - destruct s; [discriminate|]. unfold FloatOps.SF2Prim, FloatOps.Z.ldexp.
    rewrite FloatAxioms.ldshiftexp_spec, FloatAxioms.of_uint63_spec.
    apply ldexp_ge_zero, normalize_ge_zero, Uint63.to_Z_bounded.
Qed.

Lemma sqrt_ge_zero_or_nan (x : spec_float) : ge_zero_or_nan (SFsqrt prec emax x).
Proof.
  destruct x as [s|[|]| |[|] m e]; simpl; try (now left); try (right; reflexivity).
  destruct (SFsqrt_core_binary _ _ _ _) as [[mz ez] lz]. apply round_aux_sign.
Qed.

Lemma mul_ge_zero_or_nan (x y : spec_float) :
  ge_zero x -> ge_zero y -> ge_zero_or_nan (SFmul prec emax x y).
Proof.
  destruct x as [sx|[|]| |[|] mx ex]; try discriminate;
    destruct y as [sy|[|]| |[|] my ey]; try discriminate; intros _ _; simpl;
    try (now left); try (right; reflexivity);
    try (right; now destruct sx); try (right; now destruct sy);
    try (right; now destruct sx, sy).
  apply round_aux_sign.
Qed.

Lemma mul_number (x y : spec_float) :
  SFmul prec emax x y <> S754_nan -> x <> S754_nan /\ y <> S754_nan.
Proof.
  intros H. split; intros ->; apply H; [reflexivity | now destruct x].
Qed.

Lemma div_core_nonneg (p d : positive) :
  0 <= fst (fst (SFdiv_core_binary prec emax (Zpos p) 0 (Zpos d) 0)).
Proof.
  unfold SFdiv_core_binary.
  set (m' := match _ - _ with Z0 => Zpos p | Zpos _ => Z.shiftl _ _ | Zneg _ => 0 end).
  assert (Hm : 0 <= m').
  { subst m'. destruct (_ - _); [lia | apply Z.shiftl_nonneg; lia | lia]. }
  pose proof (Z.div_pos m' (Zpos d) Hm ltac:(lia)) as Hq.
  unfold Z.div in Hq. destruct (Z.div_eucl m' (Zpos d)) as [q r]. exact Hq.
Qed.

Lemma of_Z_nonneg (z : Z) : 0 <= z -> nonneg (of_Z z).
Proof.
  intros Hz. apply of_spec_ge_zero, normalize_ge_zero, Hz.
Qed.

Lemma of_ratio_nonneg (n : Z) (d : positive) : 0 <= n -> nonneg (of_ratio n d).
Proof.
  intros Hn. apply of_spec_ge_zero. destruct n as [|p|p]; [reflexivity | | lia].
  unfold SFdiv. pose proof (div_core_nonneg p d) as Hq.
  destruct (SFdiv_core_binary _ _ _ _ _ _) as [[mz ez] lz]. simpl in Hq.
  now apply round_aux_ge_zero.
Qed.

Lemma of_decimal_nonneg (n e : Z) : 0 <= n -> nonneg (of_decimal n e).
Proof.
  intros Hn. unfold of_decimal. destruct (0 <=? e) eqn:He.
  - apply of_Z_nonneg. apply Z.leb_le in He. apply Z.mul_nonneg_nonneg; [assumption|].
    apply Z.pow_nonneg. lia.
  - now apply of_ratio_nonneg.
Qed.

Lemma span_digits_digits (l : list ascii) :
  forallb Str.is_digit (fst (span_digits l)) = true.
Proof.
  induction l as [|c l IH]; simpl; [reflexivity|].
  destruct (Str.is_digit c) eqn:Hc; [|reflexivity].
  destruct (span_digits l) as [d r]. simpl in *. now rewrite Hc.
Qed.

Lemma after_dot_digits (l : list ascii) :
  forallb Str.is_digit (fst (after_dot l)) = true.
Proof.
  destruct l as [|c r]; simpl; [reflexivity|].
  destruct (Ascii.eqb c "."); [apply span_digits_digits | reflexivity].
Qed.

Lemma numeral_nonneg (l : list ascii) (n e : Z) :
  numeral l = Some (n, e) -> 0 <= n.
Proof.
  unfold numeral.
  pose proof (span_digits_digits l) as Hi. destruct (span_digits l) as [i r1].
  pose proof (after_dot_digits r1) as Hf. destruct (after_dot r1) as [f r2].
  simpl in Hi, Hf.
  destruct (is_nil i && is_nil f); [discriminate|].
  destruct (exponent r2); [|discriminate].
  intros Hn. injection Hn as <- _.
  apply decimal_nonneg. rewrite forallb_app. now rewrite Hi, Hf.
Qed.

Lemma lower_digit_dot (c : ascii) : Str.is_digit_dot c = true -> lower c = c.
Proof.
  unfold Str.is_digit_dot, Str.is_digit, lower. intros Hc.
  destruct ((65 <=? Str.code c) && (Str.code c <=? 90))%N eqn:Hu; [|reflexivity].
  exfalso. apply andb_prop in Hu. destruct Hu as [Hlo _]. apply N.leb_le in Hlo.
  apply orb_prop in Hc. destruct Hc as [Hd|Hdot].
  - apply andb_prop in Hd. destruct Hd as [_ Hhi]. apply N.leb_le in Hhi. lia.
  - apply Ascii.eqb_eq in Hdot. subst c. vm_compute in Hlo. now apply Hlo.
Qed.

Lemma digits_and_dots_are_not_nan (l : list ascii) :
  forallb Str.is_digit_dot l = true -> spells "nan" l = false.
Proof.
  intros Hall. unfold spells.
  assert (Hl : map lower l = l).
  { induction l as [|c l IH]; simpl; [reflexivity|].
    simpl in Hall. apply andb_prop in Hall. destruct Hall as [Hc Hl].
    now rewrite lower_digit_dot, IH. }
  rewrite Hl. destruct (String.eqb_spec (Str.of_chars l) "nan") as [He|]; [|reflexivity].
  apply (f_equal Str.chars) in He. rewrite chars_of_chars in He. subst l. discriminate.
Qed.

Lemma unsigned_nonneg_float (l : list ascii) (x : F) :
  forallb Str.is_digit_dot l = true -> unsigned l = Some x -> nonneg x.
Proof.
  intros Hall. unfold unsigned. rewrite (digits_and_dots_are_not_nan l Hall).
  destruct (spells "inf" l || spells "infinity" l).
  - intros Hx. injection Hx as <-. reflexivity.
  - destruct (numeral l) as [[n e]|] eqn:Hn; [|discriminate].
    intros Hx. injection Hx as <-.
    apply of_decimal_nonneg. now apply (numeral_nonneg l n e).
Qed.

Lemma drop_underscores_incl (l : list ascii) :
  forall (prev : ascii) (l' : list ascii),
    drop_underscores l prev = Some l' -> incl l' l.
Proof.
  induction l as [|c l IH]; intros prev l'; simpl.
  - destruct (Ascii.eqb prev "_"); [discriminate|].
    intros Hl. injection Hl as <-. apply incl_refl.
  - destruct (Ascii.eqb c "_").
    + destruct (Str.is_digit prev); [|discriminate].
      intros Hl. apply incl_tl. now apply (IH c).
    + destruct (Ascii.eqb prev "_" && negb (Str.is_digit c)); [discriminate|].
      destruct (drop_underscores l c) as [r|] eqn:Hr; [|discriminate].
      intros Hl. injection Hl as <-.
      apply incl_cons; [now left | apply incl_tl; now apply (IH c)].
Qed.

Lemma to_float_nonneg (s : string) (x : F) :
  forallb Str.is_digit_dot (Str.chars s) = true -> to_float s = Some x -> nonneg x.
Proof.
  intros Hall. unfold to_float.
  destruct (drop_underscores _ _) as [[|a l]|] eqn:Hd; try discriminate.
  assert (Hal : forallb Str.is_digit_dot (a :: l) = true).
  { apply forallb_forall. intros c Hc. rewrite forallb_forall in Hall.
    apply Hall, strip_incl. now apply (drop_underscores_incl _ _ _ Hd). }
  destruct (Ascii.eqb_spec a "-") as [->|_]; [discriminate|].
  destruct (Ascii.eqb_spec a "+") as [->|_]; [discriminate|].
  now apply unsigned_nonneg_float.
Qed.

(** The IEEE doubles satisfy the sign laws. *)
#[export] Instance float64_sign_laws : @SignLaws F num.
Proof.
  constructor.
  - reflexivity.
  - reflexivity.
  - intros x. apply ge_zero_or_nan_nonneg. simpl.
    rewrite FloatAxioms.sqrt_spec. apply sqrt_ge_zero_or_nan.
  - intros a b Ha Hb. apply ge_zero_or_nan_nonneg. simpl.
    rewrite FloatAxioms.mul_spec. apply mul_ge_zero_or_nan; now apply nonneg_spec.
  - intros a b Hab. apply number_spec in Hab. simpl in Hab.
    rewrite FloatAxioms.mul_spec in Hab. apply mul_number in Hab.
    split; apply number_spec; tauto.
  - exact to_float_nonneg.
  - reflexivity.
Qed.

End Float64Laws.

(** ** Where the code departs from the specification *)

Section Departures.
Context {F : Type} `{PyNum F}.

(** The timestamp pattern needs the dot of a fractional part at the
    twentieth character. *)
Lemma timestamp_needs_fraction (line : string) :
  no_fraction line = true -> Re.rmatch NINAParser.re_timestamp line = None.
Proof.
  unfold no_fraction, Re.rmatch. generalize (Str.chars line) as l.
  intros l Hno.
  do 19 (destruct l as [|? l];
         [cbn; repeat match goal with
                      | |- context [if ?b then _ else _] => destruct b
                      end; reflexivity |]).
  destruct l as [|c l]; cbn in Hno |- *;
    repeat match goal with
           | |- context [if ?b then _ else _] => destruct b eqn:?
           end; try reflexivity; discriminate.
Qed.

(** C4 (the code departs from it). A line whose timestamp has no fractional
    part, the second-precision form included, is not recognised:
    [_parse_line] leaves the parser as it was, so the line sets no session
    bound and none of its markers is detected. *)
Theorem second_precision_line_ignored (self : NINAParser.t F) (line : string) :
  no_fraction line = true ->
  NINAParser._parse_timestamp line = Value None /\
  NINAParser._parse_line self line = Returned self.
Proof.
  intros Hno. unfold NINAParser._parse_line, NINAParser._parse_timestamp.
  rewrite (timestamp_needs_fraction line Hno). split; reflexivity.
Qed.

Lemma overall_sessions_scale (d : option (list DitherEvent.t)) (m : F)
    (ss : list (GuidingSession.t F)) (o : PHD2Parser.overall F) :
  PHD2Parser.overall_pixel_scale (fold_left (PHD2Parser.overall_session d m) ss o)
  = fold_left
      (fun scale session =>
         if f_truthy (GuidingSession.pixel_scale session)
         then GuidingSession.pixel_scale session else scale)
      ss (PHD2Parser.overall_pixel_scale o).
Proof.
  revert o. induction ss as [|s ss IH]; intros o; simpl; [reflexivity|].
  rewrite IH. f_equal. unfold PHD2Parser.overall_session.
  destruct (overall_frames_spec d m s (GuidingSession.frames s)
              (if f_truthy (GuidingSession.pixel_scale s)
               then PHD2Parser.mk_overall (PHD2Parser.all_ra o) (PHD2Parser.all_dec o)
                      (GuidingSession.pixel_scale s)
               else o)) as (_ & _ & Hps).
  rewrite Hps. destruct (f_truthy (GuidingSession.pixel_scale s)); reflexivity.
Qed.

(** [get_overall_rms] multiplies by the scale of the last session that
    declares one. *)
Lemma overall_rms_uses_last_scale (self : PHD2Parser.t F)
    (d : option (list DitherEvent.t)) (m : F) :
  survivors self d m <> [] ->
  fst (fst (PHD2Parser.get_overall_rms self d m))
  = fmul (GuidingSession.rms_px (map GuidingFrame.ra_raw (survivors self d m)))
         (last_pixel_scale (PHD2Parser.sessions self)).
Proof.
  intros Hne. unfold PHD2Parser.get_overall_rms.
  rewrite overall_sessions_scale, overall_sessions_ra. simpl.
  destruct self as [ss ld]. unfold survivors in *. simpl in *.
  destruct (flat_map _ ss) as [|f fs]; [contradiction|]. reflexivity.
Qed.

End Departures.

Section Evaluations.
Import Samples Decimal6.

(** C1 (the code departs from it). A parser that parsed [imaging_log] and
    then parses [next_night_log] keeps the dither event, the target name,
    the session start and the current filter of the first log; a fresh
    parser given [next_night_log] alone has none of them. Likewise the
    guiding parser keeps the log date of an earlier log. *)
Theorem reparse_keeps_earlier_state :
  NINAParser.dither_events
    (state_of (NINAParser.parse (state_of (NINAParser.parse NINAParser.init imaging_log))
                 next_night_log))
  = [DitherEvent.mk 63904716632000000 (Some 63904716638000000)] /\
  NINAParser.dither_events (state_of (NINAParser.parse NINAParser.init next_night_log))
  = [] /\
  NINAParser.target_name
    (state_of (NINAParser.parse (state_of (NINAParser.parse NINAParser.init imaging_log))
                 next_night_log))
  = "M 31" /\
  NINAParser.target_name (state_of (NINAParser.parse NINAParser.init next_night_log))
  = "" /\
  NINAParser.session_start
    (state_of (NINAParser.parse (state_of (NINAParser.parse NINAParser.init imaging_log))
                 next_night_log))
  = Some 63904716259100000 /\
  NINAParser.session_start (state_of (NINAParser.parse NINAParser.init next_night_log))
  = Some 63904798800000000 /\
  NINAParser._current_filter
    (state_of (NINAParser.parse (state_of (NINAParser.parse NINAParser.init imaging_log))
                 next_night_log))
  = "L" /\
  NINAParser._current_filter (state_of (NINAParser.parse NINAParser.init next_night_log))
  = "" /\
  PHD2Parser.log_date
    (state_of (PHD2Parser.parse (state_of (PHD2Parser.parse PHD2Parser.init guide_log)) []))
  = Some 63904716366000000 /\
  PHD2Parser.log_date (state_of (PHD2Parser.parse PHD2Parser.init [])) = None.
Proof.
  vm_compute. repeat split; reflexivity.
Qed.

(** C3 (the code departs from it). For two sessions with pixel scales 1.0
    and 2.0 and raw errors 3.0 and 4.0, [get_overall_rms] returns
    (6.0, 8.0, 10.0): the errors scaled by 2.0, the scale of the last
    session, while the first session that declares a scale declares 1.0. *)
Theorem overall_rms_scales_by_last_session :
  PHD2Parser.get_overall_rms two_scales None 3000000 = (6000000, 8000000, 10000000) /\
  first_pixel_scale (PHD2Parser.sessions two_scales) = 1000000 /\
  last_pixel_scale (PHD2Parser.sessions two_scales) = 2000000.
Proof.
  vm_compute. repeat split; reflexivity.
Qed.

Lemma second_precision_line_ignored_witness :
  no_fraction second_precision_line = true /\
  dither_start_marker second_precision_line = true /\
  NINAParser._parse_timestamp second_precision_line = Value None /\
  NINAParser._parse_line (F:=Decimal6.F) NINAParser.init second_precision_line
  = Returned NINAParser.init.
Proof.
  split; [vm_compute; reflexivity|].
  split; [vm_compute; reflexivity|].
  apply (second_precision_line_ignored (F:=Decimal6.F)).
  vm_compute. reflexivity.
Defined.

End Evaluations.

(** ** The properties on the sample logs *)

Section Witnesses.
Import Samples Decimal6.

Lemma unterminated_records_omitted_witness :
  PHD2Parser.sessions
    (state_of (PHD2Parser.parse PHD2Parser.init
                 (guide_log ++ begin_line :: guide_log_open_tail)))
  = PHD2Parser.sessions (state_of (PHD2Parser.parse PHD2Parser.init guide_log)) /\
  PHD2Parser.sessions
    (state_of (PHD2Parser.parse PHD2Parser.init (begin_line :: guide_log_open_tail))) = [] /\
  NINAParser.dither_events
    (state_of (NINAParser.parse NINAParser.init
                 (imaging_log ++ dither_start_line :: imaging_log_open_tail)))
  = NINAParser.dither_events (state_of (NINAParser.parse NINAParser.init imaging_log)) /\
  NINAParser.dither_events
    (state_of (NINAParser.parse NINAParser.init
                 (dither_start_line :: imaging_log_open_tail))) = [].
Proof.
  apply (unterminated_records_omitted (F:=F) PHD2Parser.init NINAParser.init
           guide_log guide_log_open_tail imaging_log imaging_log_open_tail
           begin_line dither_start_line).
  - vm_compute. reflexivity.
  - repeat constructor.
  - vm_compute. reflexivity.
  - repeat constructor.
Defined.

Lemma correlate_literal_window_witness :
  In (Exposure.set_guiding (Some 474341) (Some 632455) (Some 790568) 2 first_exposure)
     (NINAParser.exposures
        (correlate_guiding_with_exposures parsed_guide_log parsed_imaging_log
           None 3000000)).
Proof.
  assert (Hss : PHD2Parser.sessions parsed_guide_log = [parsed_session])
    by (vm_compute; reflexivity).
  assert (Hfs : GuidingSession.frames parsed_session
                = [parsed_frame 0; parsed_frame 1; parsed_frame 2])
    by (vm_compute; reflexivity).
  assert (Hps : GuidingSession.pixel_scale parsed_session = f1)
    by (vm_compute; reflexivity).
  assert (H1 : PHD2Parser.frame_dt parsed_session (parsed_frame 0)
               = 63904716600000000 + 5 * 1000000)
    by (vm_compute; reflexivity).
  assert (H2 : PHD2Parser.frame_dt parsed_session (parsed_frame 1)
               = 63904716600000000 + 15 * 1000000)
    by (vm_compute; reflexivity).
  assert (H3 : PHD2Parser.frame_dt parsed_session (parsed_frame 2)
               = 63904716600000000 + 40 * 1000000)
    by (vm_compute; reflexivity).
  assert (Hts : Exposure.timestamp first_exposure = 63904716600000000)
    by (vm_compute; reflexivity).
  assert (Het : timedelta_seconds (Exposure.exposure_time first_exposure) = 30 * 1000000)
    by (vm_compute; reflexivity).
  assert (Hd : list_truthy (@None (list DitherEvent.t)) = false) by reflexivity.
  assert (Hin : In first_exposure (NINAParser.exposures parsed_imaging_log))
    by (vm_compute; left; reflexivity).
  pose proof (correlate_literal_window 63904716600000000 parsed_session
                (parsed_frame 0) (parsed_frame 1) (parsed_frame 2)
                parsed_guide_log parsed_imaging_log first_exposure None 3000000
                Hss Hfs Hps H1 H2 H3 Hts Het Hd Hin) as Hw.
  vm_compute in Hw. vm_compute. exact Hw.
Defined.

Lemma unqualified_exposure_stays_unset_witness :
  In second_exposure
     (NINAParser.exposures
        (correlate_guiding_with_exposures
           (state_of (PHD2Parser.parse PHD2Parser.init guide_log))
           (state_of (NINAParser.parse NINAParser.init imaging_log))
           None 3000000)) /\
  qualifying_frames
    (PHD2Parser.sessions (state_of (PHD2Parser.parse PHD2Parser.init guide_log)))
    second_exposure None 3000000 = [] /\
  Exposure.ra_rms second_exposure = None /\ Exposure.dec_rms second_exposure = None /\
  Exposure.total_rms second_exposure = None /\ Exposure.guiding_frames second_exposure = 0.
Proof.
  assert (Hin : In second_exposure
                   (NINAParser.exposures
                      (correlate_guiding_with_exposures (F:=F)
                         (state_of (PHD2Parser.parse PHD2Parser.init guide_log))
                         (state_of (NINAParser.parse NINAParser.init imaging_log))
                         None 3000000))).
  { vm_compute. right. left. reflexivity. }
  assert (Hq : qualifying_frames (F:=F)
                 (PHD2Parser.sessions (state_of (PHD2Parser.parse PHD2Parser.init guide_log)))
                 second_exposure None 3000000 = []).
  { vm_compute. reflexivity. }
  split; [exact Hin|]. split; [exact Hq|].
  exact (unqualified_exposure_stays_unset (F:=F) imaging_log
           (state_of (PHD2Parser.parse PHD2Parser.init guide_log))
           None 3000000 second_exposure Hin Hq).
Defined.

Lemma empty_frames_give_zero_rms_witness :
  GuidingSession.frames (GuidingSession.new (F:=F) 63904716600000000) = [] /\
  survivors (state_of (PHD2Parser.parse PHD2Parser.init guide_log))
    (Some [DitherEvent.mk 63904716600000000 (Some 63904716660000000)]) 3000000 = [] /\
  GuidingSession.ra_rms (GuidingSession.new (F:=F) 63904716600000000) = 0 /\
  GuidingSession.dec_rms (GuidingSession.new (F:=F) 63904716600000000) = 0 /\
  GuidingSession.total_rms (GuidingSession.new (F:=F) 63904716600000000) = 0 /\
  PHD2Parser.get_overall_rms (state_of (PHD2Parser.parse PHD2Parser.init guide_log))
    (Some [DitherEvent.mk 63904716600000000 (Some 63904716660000000)]) 3000000
  = (0, 0, 0).
Proof.
  destruct (empty_frames_give_zero_rms (F:=F)
              (GuidingSession.new 63904716600000000)
              (state_of (PHD2Parser.parse PHD2Parser.init guide_log))
              (Some [DitherEvent.mk 63904716600000000 (Some 63904716660000000)]) 3000000)
    as [Hsession Hoverall].
  assert (Hnil : GuidingSession.frames (GuidingSession.new (F:=F) 63904716600000000) = [])
    by reflexivity.
  assert (Hnone : survivors (F:=F)
                    (state_of (PHD2Parser.parse PHD2Parser.init guide_log))
                    (Some [DitherEvent.mk 63904716600000000 (Some 63904716660000000)])
                    3000000 = [])
    by (vm_compute; reflexivity).
  destruct (Hsession Hnil) as (Hra & Hdec & Htotal).
  split; [exact Hnil|]. split; [exact Hnone|].
  split; [exact Hra|]. split; [exact Hdec|]. split; [exact Htotal|].
  exact (Hoverall Hnone).
Defined.

End Witnesses.

(** ** The sign of the RMS values on IEEE doubles *)

Section Float64Evaluations.
Import Samples Float64 Float64Laws Float64Samples.



End Float64Evaluations.

(** ** The matcher and the texts of a pattern *)

Section LanguageProperties.

Lemma greedy_loop_matches (r1 : Re.regex) (k : list ascii -> Re.caps -> option Re.caps)
    (res : Re.caps) :
  (forall s c k res,
      Re.exec r1 s c k = Some res ->
      exists l rest, s = l ++ rest /\ Lang.matches r1 l /\ k rest c = Some res) ->
  forall (fuel : nat) (s : list ascii) (c : Re.caps),
    (fix loop (fuel : nat) (s : list ascii) (c : Re.caps) {struct fuel} : option Re.caps :=
       match fuel with
       | O => k s c
       | S fuel' =>
           match Re.exec r1 s c
                   (fun s' c' =>
                      if (length s' <? length s)%nat then loop fuel' s' c' else None)
           with
           | Some res => Some res
           | None => k s c
           end
       end) fuel s c = Some res ->
    exists l rest, s = l ++ rest /\ Lang.matches (Re.Star r1) l /\ k rest c = Some res.
Proof.
  intros IH1. induction fuel as [|fuel IHf]; intros s c Hrun.
  - exists [], s. repeat split; [constructor | assumption].
  - match type of Hrun with
    | match ?e with _ => _ end = _ => destruct e as [res'|] eqn:Hexec
    end.
    + injection Hrun as ->.
      apply IH1 in Hexec. destruct Hexec as (l1 & rest1 & -> & Hm1 & Hk1).
      destruct (length rest1 <? length (l1 ++ rest1))%nat; [|discriminate].
      apply IHf in Hk1. destruct Hk1 as (l2 & rest2 & -> & Hm2 & Hk2).
      exists (l1 ++ l2), rest2. rewrite app_assoc.
      repeat split; [now constructor | assumption].
    + exists [], s. repeat split; [constructor | assumption].
Qed.

Lemma lazy_loop_matches (r1 : Re.regex) (k : list ascii -> Re.caps -> option Re.caps)
    (res : Re.caps) :
  (forall s c k res,
      Re.exec r1 s c k = Some res ->
      exists l rest, s = l ++ rest /\ Lang.matches r1 l /\ k rest c = Some res) ->
  forall (fuel : nat) (s : list ascii) (c : Re.caps),
    (fix loop (fuel : nat) (s : list ascii) (c : Re.caps) {struct fuel} : option Re.caps :=
       match k s c with
       | Some res => Some res
       | None =>
           match fuel with
           | O => None
           | S fuel' =>
               Re.exec r1 s c
                 (fun s' c' =>
                    if (length s' <? length s)%nat then loop fuel' s' c' else None)
           end
       end) fuel s c = Some res ->
    exists l rest, s = l ++ rest /\ Lang.matches (Re.LazyStar r1) l /\ k rest c = Some res.
Proof.
  intros IH1. induction fuel as [|fuel IHf]; intros s c Hrun.
  - destruct (k s c) as [res'|] eqn:Hk; [|discriminate].
    injection Hrun as ->. exists [], s. repeat split; [constructor | assumption].
  - destruct (k s c) as [res'|] eqn:Hk.
    + injection Hrun as ->. exists [], s. repeat split; [constructor | assumption].
    + apply IH1 in Hrun. destruct Hrun as (l1 & rest1 & -> & Hm1 & Hk1).
      destruct (length rest1 <? length (l1 ++ rest1))%nat; [|discriminate].
      apply IHf in Hk1. destruct Hk1 as (l2 & rest2 & -> & Hm2 & Hk2).
      exists (l1 ++ l2), rest2. rewrite app_assoc.
      repeat split; [now constructor | assumption].
Qed.

(** A successful run of the matcher on a pattern without groups consumed
    a text of the pattern and handed the rest, with the groups it was given,
    to the continuation. *)
Lemma exec_groupless (r : Re.regex) :
  Lang.groupless r = true ->
  forall s c k res,
    Re.exec r s c k = Some res ->
    exists l rest, s = l ++ rest /\ Lang.matches r l /\ k rest c = Some res.
Proof.
  induction r as [|q|r1 IH1 r2 IH2|r1 IH1|r1 IH1|k0 r1 IH1]; intros Hg s c k res Hrun;
    simpl in Hg, Hrun.
  - exists [], s. repeat split; [constructor | assumption].
  - destruct s as [|a s]; [discriminate|].
    destruct (q a) eqn:Hq; [|discriminate].
    exists [a], s. repeat split; [now constructor | assumption].
  - apply andb_prop in Hg. destruct Hg as [Hg1 Hg2].
    apply (IH1 Hg1) in Hrun. destruct Hrun as (l1 & rest1 & -> & Hm1 & Hk1).
    apply (IH2 Hg2) in Hk1. destruct Hk1 as (l2 & rest2 & -> & Hm2 & Hk2).
    exists (l1 ++ l2), rest2. rewrite app_assoc.
    repeat split; [now constructor | assumption].
  - apply (greedy_loop_matches r1 k res (IH1 Hg)) in Hrun. exact Hrun.
  - apply (lazy_loop_matches r1 k res (IH1 Hg)) in Hrun. exact Hrun.
  - discriminate.
Qed.

Lemma exec_seq_groupless (r1 r2 : Re.regex) (s : list ascii) (c : Re.caps)
    (k : list ascii -> Re.caps -> option Re.caps) (res : Re.caps) :
  Lang.groupless r1 = true ->
  Re.exec (Re.Seq r1 r2) s c k = Some res ->
  exists l rest, s = l ++ rest /\ Lang.matches r1 l /\ Re.exec r2 rest c k = Some res.
Proof.
  intros Hg Hrun.
  apply (exec_groupless r1 Hg s c (fun s' c' => Re.exec r2 s' c' k) res). exact Hrun.
Qed.

Lemma exec_group (n : nat) (r1 : Re.regex) (s : list ascii) (c : Re.caps)
    (k : list ascii -> Re.caps -> option Re.caps) (res : Re.caps) :
  Lang.groupless r1 = true ->
  Re.exec (Re.Group n r1) s c k = Some res ->
  exists l rest,
    s = l ++ rest /\ Lang.matches r1 l /\ k rest ((n, Str.of_chars l) :: c) = Some res.
Proof.
  intros Hg Hrun. simpl in Hrun.
  apply (exec_groupless r1 Hg) in Hrun.
  destruct Hrun as (l & rest & -> & Hm & Hk).
  rewrite consumed_app in Hk. exists l, rest. auto.
Qed.

Lemma exec_seq_group (n : nat) (r1 r2 : Re.regex) (s : list ascii) (c : Re.caps)
    (k : list ascii -> Re.caps -> option Re.caps) (res : Re.caps) :
  Lang.groupless r1 = true ->
  Re.exec (Re.Seq (Re.Group n r1) r2) s c k = Some res ->
  exists l rest,
    s = l ++ rest /\ Lang.matches r1 l /\
    Re.exec r2 rest ((n, Str.of_chars l) :: c) k = Some res.
Proof.
  intros Hg Hrun.
  apply (exec_group n r1 s c (fun s' c' => Re.exec r2 s' c' k) res Hg). exact Hrun.
Qed.

Lemma matches_cls (p : ascii -> bool) (l : list ascii) :
  Lang.matches (Re.Cls p) l -> exists a, l = [a] /\ p a = true.
Proof. intros Hm. inversion Hm; subst. eauto. Qed.

Lemma matches_seq_inv (r1 r2 : Re.regex) (l : list ascii) :
  Lang.matches (Re.Seq r1 r2) l ->
  exists l1 l2, l = l1 ++ l2 /\ Lang.matches r1 l1 /\ Lang.matches r2 l2.
Proof. intros Hm. inversion Hm; subst. eauto. Qed.

(** [p{w}] matches [w] characters of the class. *)
Lemma matches_rep_cls (p : ascii -> bool) (w : nat) (l : list ascii) :
  Lang.matches (Re.rep w (Re.Cls p)) l -> length l = w /\ forallb p l = true.
Proof.
  revert l. induction w as [|w IH]; intros l Hm; simpl in Hm.
  - inversion Hm; subst. auto.
  - apply matches_seq_inv in Hm. destruct Hm as (l1 & l2 & -> & H1 & H2).
    apply matches_cls in H1. destruct H1 as (a & -> & Ha).
    destruct (IH l2 H2) as [Hlen Hall]. simpl. rewrite Ha, Hlen, Hall. auto.
Qed.

Lemma matches_star_cls (p : ascii -> bool) (l : list ascii) :
  Lang.matches (Re.Star (Re.Cls p)) l -> forallb p l = true.
Proof.
  intros Hm. remember (Re.Star (Re.Cls p)) as r eqn:Hr.
  induction Hm; try discriminate; [reflexivity|].
  injection Hr as ->.
  apply matches_cls in Hm1. destruct Hm1 as (a & -> & Ha).
  simpl. rewrite Ha. now apply IHHm2.
Qed.

(** [p+] matches one character of the class or more. *)
Lemma matches_plus_cls (p : ascii -> bool) (l : list ascii) :
  Lang.matches (Re.plus (Re.Cls p)) l -> l <> [] /\ forallb p l = true.
Proof.
  unfold Re.plus. intros Hm.
  apply matches_seq_inv in Hm. destruct Hm as (l1 & l2 & -> & H1 & H2).
  apply matches_cls in H1. destruct H1 as (a & -> & Ha).
  split; [discriminate|]. simpl. rewrite Ha. now apply matches_star_cls.
Qed.

(** *** [int] on a run of digits *)

Lemma digit_not_space (c : ascii) : Str.is_digit c = true -> Str.is_space c = false.
Proof.
  unfold Str.is_digit, Str.is_space. intros Hd.
  apply andb_prop in Hd. destruct Hd as [Hlo Hhi].
  apply N.leb_le in Hlo, Hhi.
  repeat match goal with
         | |- context [(?a <=? ?b)%N] => destruct (N.leb_spec a b)
         | |- context [(?a =? ?b)%N] => destruct (N.eqb_spec a b)
         end; simpl; try reflexivity; lia.
Qed.

Lemma lstrip_digits (l : list ascii) : forallb Str.is_digit l = true -> Str.lstrip l = l.
Proof.
  destruct l as [|c l]; simpl; [reflexivity|]. intros Hall.
  apply andb_prop in Hall. destruct Hall as [Hc _].
  now rewrite (digit_not_space c Hc).
Qed.

Lemma forallb_rev {A : Type} (p : A -> bool) (l : list A) :
  forallb p l = true -> forallb p (rev l) = true.
Proof.
  rewrite !forallb_forall. intros Hall a Ha. apply Hall. now apply in_rev.
Qed.

Lemma strip_digits (l : list ascii) :
  forallb Str.is_digit l = true -> Str.chars (Str.strip (Str.of_chars l)) = l.
Proof.
  intros Hall. unfold Str.strip. rewrite !chars_of_chars.
  rewrite (lstrip_digits l Hall), (lstrip_digits (rev l) (forallb_rev _ _ Hall)).
  apply rev_involutive.
Qed.

Lemma digits_value (l : list ascii) (prev : bool) (acc : Z) :
  forallb Str.is_digit l = true -> l <> [] \/ prev = true ->
  PyInt.digits l prev acc
  = Some (fold_left (fun acc c => 10 * acc + Str.digit_val c) l acc).
Proof.
  revert prev acc. induction l as [|c l IH]; intros prev acc Hall Hne.
  - destruct Hne as [Hne| ->]; [contradiction | reflexivity].
  - cbn [forallb] in Hall. apply andb_prop in Hall. destruct Hall as [Hc Hl].
    cbn [PyInt.digits fold_left]. rewrite Hc. apply IH; auto.
Qed.

(** [int] of a non-empty run of digits is its decimal value: it does not
    raise. *)
Lemma py_int_digits (l : list ascii) :
  l <> [] -> forallb Str.is_digit l = true -> py_int (Str.of_chars l) = Some (Str.decimal l).
Proof.
  intros Hne Hall. unfold py_int. rewrite (strip_digits l Hall).
  destruct l as [|c l']; [contradiction|].
  pose proof (digits_value (c :: l') false 0 Hall (or_introl Hne)) as Hd.
  fold (Str.decimal (c :: l')) in Hd.
  cbn [forallb] in Hall. apply andb_prop in Hall. destruct Hall as [Hc _].
  destruct c as [b0 b1 b2 b3 b4 b5 b6 b7].
  destruct b0, b1, b2, b3, b4, b5, b6, b7;
    first [ discriminate Hc | exact Hd ].
Qed.

End LanguageProperties.

(** ** Further properties of the correlation *)

Section CorrelationProperties.
Context {F : Type} `{PyNum F}.

Lemma during_dither_exists (t : datetime) (d : list DitherEvent.t) (m : F) :
  PHD2Parser._is_during_dither t d m = existsb (fun e => dither_window m e t) d.
Proof.
  induction d as [|e d IH]; simpl; [reflexivity|].
  rewrite IH. unfold dither_window.
  now destruct (_ && _).
Qed.

Lemma is_dither_is_during_dither (t : datetime) (d : list DitherEvent.t) (m : F) :
  is_dither t d m = PHD2Parser._is_during_dither t d m.
Proof.
  induction d as [|e d IH]; simpl; [reflexivity|]. now rewrite IH.
Qed.

Lemma qualifies_in_window_not_skipped (e : Exposure.t F) (d : option (list DitherEvent.t))
    (m : F) (s : GuidingSession.t F) (f : GuidingFrame.t F) :
  qualifies e d m s f
  = in_window e s f && negb (PHD2Parser.skipped d m (PHD2Parser.frame_dt s f)).
Proof.
  unfold qualifies, in_window, PHD2Parser.skipped.
  rewrite is_dither_is_during_dither.
  destruct (_ && _); [|reflexivity].
  destruct (list_truthy d); reflexivity.
Qed.

(** X1. The dither test inlined in [correlate_guiding_with_exposures] is the
    test of [PHD2Parser._is_during_dither], and both say that the time lies
    in the widened window of some event of the list, an event without end
    counting as its start. So a frame counts for an exposure exactly when
    it lies in the exposure's window and [get_overall_rms] would not skip
    it. *)
Theorem inlined_dither_test_agrees (t : datetime) (events : list DitherEvent.t)
    (e : Exposure.t F) (d : option (list DitherEvent.t)) (m : F)
    (s : GuidingSession.t F) (f : GuidingFrame.t F) :
  is_dither t events m = PHD2Parser._is_during_dither t events m /\
  PHD2Parser._is_during_dither t events m
  = existsb (fun dither => dither_window m dither t) events /\
  qualifies e d m s f
  = in_window e s f && negb (PHD2Parser.skipped d m (PHD2Parser.frame_dt s f)).
Proof.
  split; [apply is_dither_is_during_dither|].
  split; [apply during_dither_exists | apply qualifies_in_window_not_skipped].
Qed.

Lemma skipped_without_events (d : option (list DitherEvent.t)) (m : F) (t : datetime) :
  list_truthy d = false -> PHD2Parser.skipped d m t = false.
Proof. intros Hd. unfold PHD2Parser.skipped. now rewrite Hd. Qed.

Lemma qualifying_frames_ext (ss : list (GuidingSession.t F)) (e : Exposure.t F)
    (d1 d2 : option (list DitherEvent.t)) (m1 m2 : F) :
  (forall s f, qualifies e d1 m1 s f = qualifies e d2 m2 s f) ->
  qualifying_frames ss e d1 m1 = qualifying_frames ss e d2 m2.
Proof.
  intros Hq. unfold qualifying_frames.
  induction ss as [|s ss IH]; simpl; [reflexivity|].
  rewrite IH. f_equal. apply filter_ext. intros f. apply Hq.
Qed.

Lemma qualifying_frames_without_events (ss : list (GuidingSession.t F)) (e : Exposure.t F)
    (d : option (list DitherEvent.t)) (m m' : F) :
  list_truthy d = false ->
  qualifying_frames ss e d m = qualifying_frames ss e None m'.
Proof.
  intros Hd. apply qualifying_frames_ext. intros s f.
  rewrite !qualifies_in_window_not_skipped, !skipped_without_events; auto.
Qed.

Lemma correlate_exposure_without_events (ss : list (GuidingSession.t F)) (ps : F)
    (d : option (list DitherEvent.t)) (m m' : F) (e : Exposure.t F) :
  list_truthy d = false ->
  correlate_exposure ss ps d m e = correlate_exposure ss ps None m' e.
Proof.
  intros Hd. unfold correlate_exposure.
  now rewrite !collect_spec, (qualifying_frames_without_events ss e d m m' Hd).
Qed.

Lemma overall_without_events (d : option (list DitherEvent.t)) (m m' : F)
    (ss : list (GuidingSession.t F)) (o : PHD2Parser.overall F) :
  list_truthy d = false ->
  fold_left (PHD2Parser.overall_session d m) ss o
  = fold_left (PHD2Parser.overall_session None m') ss o.
Proof.
  intros Hd. apply fold_left_ext. intros o' s. unfold PHD2Parser.overall_session.
  apply fold_left_ext. intros o'' f. unfold PHD2Parser.overall_frame.
  now rewrite !skipped_without_events.
Qed.

Lemma buckets_without_events (i : F) (d : option (list DitherEvent.t)) (m m' : F)
    (ss : list (GuidingSession.t F)) (r : list (datetime * F * F * F)) :
  list_truthy d = false ->
  fold_left (PHD2Parser.bucket_session i d m) ss r
  = fold_left (PHD2Parser.bucket_session i None m') ss r.
Proof.
  intros Hd. apply fold_left_ext. intros r' s. unfold PHD2Parser.bucket_session.
  destruct (GuidingSession.frames s) as [|f fs]; [reflexivity|].
  rewrite (fold_left_ext
             (PHD2Parser.bucket_frame i d m s
                (if f_truthy (GuidingSession.pixel_scale s)
                 then GuidingSession.pixel_scale s else f1))
             (PHD2Parser.bucket_frame i None m' s
                (if f_truthy (GuidingSession.pixel_scale s)
                 then GuidingSession.pixel_scale s else f1))); [reflexivity|].
  intros b g. unfold PHD2Parser.bucket_frame.
  now rewrite !skipped_without_events.
Qed.

(** X2. A dither list that is [None] or empty switches the exclusion off in
    [get_overall_rms], [get_rms_over_time] and
    [correlate_guiding_with_exposures] alike, and the margin then has no
    effect. *)
Theorem empty_dither_list_excludes_nothing
    (phd2 : PHD2Parser.t F) (nina : NINAParser.t F) (interval_seconds : F)
    (dither_events : option (list DitherEvent.t)) (margin margin' : F) :
  list_truthy dither_events = false ->
  PHD2Parser.get_overall_rms phd2 dither_events margin
  = PHD2Parser.get_overall_rms phd2 None margin' /\
  PHD2Parser.get_rms_over_time phd2 interval_seconds dither_events margin
  = PHD2Parser.get_rms_over_time phd2 interval_seconds None margin' /\
  correlate_guiding_with_exposures phd2 nina dither_events margin
  = correlate_guiding_with_exposures phd2 nina None margin'.
Proof.
  intros Hd. split; [|split].
  - unfold PHD2Parser.get_overall_rms.
    now rewrite (overall_without_events dither_events margin margin').
  - unfold PHD2Parser.get_rms_over_time.
    now apply buckets_without_events.
  - unfold correlate_guiding_with_exposures. f_equal.
    apply map_ext. intros e. now apply correlate_exposure_without_events.
Qed.

(** *** Correlating again *)

Lemma set_guiding_correlate_exposure (ss : list (GuidingSession.t F)) (ps : F)
    (d : option (list DitherEvent.t)) (m : F) (e : Exposure.t F)
    (ra dec total : option F) (n : Z) :
  Exposure.set_guiding ra dec total n (correlate_exposure ss ps d m e)
  = Exposure.set_guiding ra dec total n e.
Proof.
  unfold correlate_exposure.
  destruct (collect ss e d m) as [[|r rs] decs]; reflexivity.
Qed.

(** What a second run of the exposure loop's body leaves: the values of the
    second run where a frame qualifies for it, those of the first run
    elsewhere. *)
Lemma recorrelate_exposure (ss : list (GuidingSession.t F)) (ps : F)
    (d1 d2 : option (list DitherEvent.t)) (m1 m2 : F) (e : Exposure.t F) :
  correlate_exposure ss ps d2 m2 (correlate_exposure ss ps d1 m1 e)
  = match qualifying_frames ss e d2 m2 with
    | [] => correlate_exposure ss ps d1 m1 e
    | _ => correlate_exposure ss ps d2 m2 e
    end.
Proof.
  assert (Hw : qualifying_frames ss (correlate_exposure ss ps d1 m1 e) d2 m2
               = qualifying_frames ss e d2 m2).
  { apply qualifying_frames_window; unfold correlate_exposure;
      destruct (collect ss e d1 m1) as [[|r rs] decs]; reflexivity. }
  remember (correlate_exposure ss ps d1 m1 e) as e1 eqn:He1.
  unfold correlate_exposure. rewrite !collect_spec, Hw.
  destruct (qualifying_frames ss e d2 m2) as [|f fs]; [reflexivity|].
  cbn [map]. subst e1. apply set_guiding_correlate_exposure.
Qed.

Lemma filter_nil_weaken {A : Type} (p q : A -> bool) (l : list A) :
  (forall a, p a = true -> q a = true) -> filter q l = [] -> filter p l = [].
Proof.
  intros Hpq. induction l as [|a l IH]; simpl; [reflexivity|].
  destruct (q a) eqn:Hq; [discriminate|].
  destruct (p a) eqn:Hp; [|exact IH].
  rewrite (Hpq a Hp) in Hq. discriminate.
Qed.

Lemma no_frame_in_window_none_qualifies (ss : list (GuidingSession.t F)) (e : Exposure.t F)
    (d : option (list DitherEvent.t)) (m m' : F) :
  qualifying_frames ss e None m' = [] -> qualifying_frames ss e d m = [].
Proof.
  unfold qualifying_frames. induction ss as [|s ss IH]; simpl; [reflexivity|].
  intros Hnil. apply app_eq_nil in Hnil. destruct Hnil as [Hs Hss].
  rewrite (IH Hss), app_nil_r.
  apply (filter_nil_weaken _ (qualifies e None m' s)); [|exact Hs].
  intros f. rewrite !qualifies_in_window_not_skipped.
  rewrite (skipped_without_events None m') by reflexivity.
  intros Hq. apply andb_prop in Hq. destruct Hq as [-> _]. reflexivity.
Qed.


(** X4. Switching the dither exclusion on: an exposure whose frames are all
    excluded under the new dither list and margin is not reset by the second
    correlation; it is left as the first correlation left it. *)
Theorem excluded_exposure_keeps_earlier_rms
    (phd2 : PHD2Parser.t F) (nina : NINAParser.t F)
    (d1 d2 : option (list DitherEvent.t)) (m1 m2 : F) (e : Exposure.t F) :
  In e (NINAParser.exposures nina) ->
  qualifying_frames (PHD2Parser.sessions phd2) e d2 m2 = [] ->
  In (correlate_exposure (PHD2Parser.sessions phd2)
        (first_pixel_scale (PHD2Parser.sessions phd2)) d1 m1 e)
     (NINAParser.exposures
        (correlate_guiding_with_exposures phd2
           (correlate_guiding_with_exposures phd2 nina d1 m1) d2 m2)).
Proof.
  intros Hin Hq. unfold correlate_guiding_with_exposures.
  destruct nina; simpl in *.
  rewrite map_map. apply in_map_iff. exists e. split; [|exact Hin].
  rewrite recorrelate_exposure, Hq. reflexivity.
Qed.

(** X5. The correlation writes the four guiding fields of the exposures and
    nothing else: the other fields of the imaging data are as before, and
    the exposures are the same in number and order and differ from the
    earlier ones in those four fields at most. *)
Theorem correlate_writes_guiding_fields_only
    (phd2 : PHD2Parser.t F) (nina : NINAParser.t F)
    (dither_events : option (list DitherEvent.t)) (margin : F) :
  NINAParser.set_exposures (NINAParser.exposures nina)
    (correlate_guiding_with_exposures phd2 nina dither_events margin) = nina /\
  map (Exposure.set_guiding None None None 0)
      (NINAParser.exposures (correlate_guiding_with_exposures phd2 nina dither_events margin))
  = map (Exposure.set_guiding None None None 0) (NINAParser.exposures nina).
Proof.
  unfold correlate_guiding_with_exposures. destruct nina; simpl. split; [reflexivity|].
  rewrite map_map. apply map_ext. intros e. apply set_guiding_correlate_exposure.
Qed.

Lemma filter_length_weaken {A : Type} (p q : A -> bool) (l : list A) :
  (forall a, p a = true -> q a = true) ->
  (length (filter p l) <= length (filter q l))%nat.
Proof.
  intros Hpq. induction l as [|a l IH]; simpl; [lia|].
  destruct (p a) eqn:Hp.
  - rewrite (Hpq a Hp). simpl. lia.
  - destruct (q a); simpl; lia.
Qed.

Lemma qualifying_frames_fewer (ss : list (GuidingSession.t F)) (e : Exposure.t F)
    (d : option (list DitherEvent.t)) (m m' : F) :
  (length (qualifying_frames ss e d m) <= length (qualifying_frames ss e None m'))%nat.
Proof.
  unfold qualifying_frames. induction ss as [|s ss IH]; simpl; [lia|].
  rewrite !length_app.
  pose proof (filter_length_weaken (qualifies e d m s) (qualifies e None m' s)
                (GuidingSession.frames s)) as Hs.
  assert (Himp : forall f, qualifies e d m s f = true -> qualifies e None m' s f = true).
  { intros f. rewrite !qualifies_in_window_not_skipped.
    rewrite (skipped_without_events None m') by reflexivity.
    intros Hq. apply andb_prop in Hq. destruct Hq as [-> _]. reflexivity. }
  specialize (Hs Himp). lia.
Qed.

Lemma correlate_exposure_count (ss : list (GuidingSession.t F)) (ps : F)
    (d : option (list DitherEvent.t)) (m : F) (e : Exposure.t F) :
  Exposure.guiding_frames e = 0 ->
  Exposure.guiding_frames (correlate_exposure ss ps d m e)
  = Z.of_nat (length (qualifying_frames ss e d m)).
Proof.
  intros Hzero. unfold correlate_exposure. rewrite collect_spec.
  destruct (qualifying_frames ss e d m) as [|f fs]; [exact Hzero|].
  simpl. now rewrite length_map.
Qed.


End CorrelationProperties.

(** ** Further properties of the guiding parser *)

Section GuidingProperties.
Context {F : Type} `{PyNum F}.

(** *** Emitted sessions are ended sessions *)

Lemma parse_line_keeps_sessions_ended (raw : string) :
  preserves (fun st : PHD2Parser.scan F =>
               Forall (fun s => is_some (GuidingSession.end_time s) = true)
                      (PHD2Parser.sessions (fst st)))
            (fun st => PHD2Parser.parse_line st raw).
Proof.
  intros [self cur] Hs. unfold PHD2Parser.parse_line. simpl in Hs.
  break_tests; try assumption.
  apply Forall_app. split; [assumption|]. constructor; [reflexivity | constructor].
Qed.

Lemma parsed_sessions_ended (self : PHD2Parser.t F) (lines : list string) :
  Forall (fun s => is_some (GuidingSession.end_time s) = true)
         (PHD2Parser.sessions (state_of (PHD2Parser.parse self lines))).
Proof.
  rewrite parse_sessions.
  apply (for_each_preserves
           (fun st : PHD2Parser.scan F =>
              Forall (fun s => is_some (GuidingSession.end_time s) = true)
                     (PHD2Parser.sessions (fst st)))
           PHD2Parser.parse_line lines).
  - intros raw _. apply parse_line_keeps_sessions_ended.
  - constructor.
Qed.

(** X7. Every session [parse] leaves has its end time set, whatever the parser
    held before, so its [duration_seconds] is the difference of its two
    times and never the 0.0 of an open session. *)
Theorem parsed_sessions_have_end (self : PHD2Parser.t F) (lines : list string) :
  Forall (fun session =>
            exists end_time,
              GuidingSession.end_time session = Some end_time /\
              GuidingSession.duration_seconds session
              = total_seconds (end_time - GuidingSession.start_time session))
         (PHD2Parser.sessions (state_of (PHD2Parser.parse self lines))).
Proof.
  eapply Forall_impl; [|apply parsed_sessions_ended].
  intros s. unfold GuidingSession.duration_seconds.
  destruct (GuidingSession.end_time s) as [e|]; [intros _ | discriminate].
  exists e. split; reflexivity.
Qed.

(** *** Sessions and their markers *)

Lemma begin_line_holds_one_more (st : PHD2Parser.scan F) (raw : string) :
  (held (state_of (PHD2Parser.parse_line st raw)) <= held st + 1)%nat.
Proof.
  destruct st as [self cur]. unfold PHD2Parser.parse_line, held.
  break_tests; simpl; rewrite ?length_app; simpl; lia.
Qed.

Lemma other_line_holds_no_more (st : PHD2Parser.scan F) (raw : string) :
  begin_marker raw = false ->
  (held (state_of (PHD2Parser.parse_line st raw)) <= held st)%nat.
Proof.
  unfold begin_marker. intros Hb. destruct st as [self cur].
  unfold PHD2Parser.parse_line, held. rewrite Hb.
  break_tests; simpl; rewrite ?length_app; simpl; lia.
Qed.

Lemma scan_held_bound (lines : list string) (st : PHD2Parser.scan F) :
  (held (state_of (for_each PHD2Parser.parse_line st lines))
   <= held st + length (filter begin_marker lines))%nat.
Proof.
  revert st. induction lines as [|raw lines IH]; intros st; simpl; [lia|].
  destruct (begin_marker raw) eqn:Hb.
  - pose proof (begin_line_holds_one_more st raw) as Hstep.
    destruct (PHD2Parser.parse_line st raw) as [st'|st']; simpl in *.
    + specialize (IH st'). lia.
    + lia.
  - pose proof (other_line_holds_no_more st raw Hb) as Hstep.
    destruct (PHD2Parser.parse_line st raw) as [st'|st']; simpl in *.
    + specialize (IH st'). lia.
    + lia.
Qed.

Lemma end_line_adds_one (st : PHD2Parser.scan F) (raw : string) :
  (length (PHD2Parser.sessions (fst (state_of (PHD2Parser.parse_line st raw))))
   <= length (PHD2Parser.sessions (fst st)) + 1)%nat.
Proof.
  destruct st as [self cur]. unfold PHD2Parser.parse_line.
  break_tests; simpl; rewrite ?length_app; simpl; lia.
Qed.

Lemma scan_sessions_bound (lines : list string) (st : PHD2Parser.scan F) :
  (length (PHD2Parser.sessions (fst (state_of (for_each PHD2Parser.parse_line st lines))))
   <= length (PHD2Parser.sessions (fst st)) + length (filter end_marker lines))%nat.
Proof.
  revert st. induction lines as [|raw lines IH]; intros st; simpl; [lia|].
  destruct (end_marker raw) eqn:He.
  - pose proof (end_line_adds_one st raw) as Hstep.
    destruct (PHD2Parser.parse_line st raw) as [st'|st']; simpl in *.
    + specialize (IH st'). lia.
    + lia.
  - pose proof (other_line_keeps_sessions (PHD2Parser.sessions (fst st)) raw He st eq_refl)
      as Hstep.
    cbv beta in Hstep.
    destruct (PHD2Parser.parse_line st raw) as [st'|st']; simpl in *.
    + specialize (IH st'). rewrite Hstep in IH. lia.
    + rewrite Hstep. lia.
Qed.

(** X8. [parse] leaves at most one session per "Guiding Begins at" line and at
    most one per "Guiding Ends at" line of the log: a second begin line
    before an end line replaces the open session, and an end line without an
    open session emits none. *)
Theorem sessions_bounded_by_markers (self : PHD2Parser.t F) (lines : list string) :
  (length (PHD2Parser.sessions (state_of (PHD2Parser.parse self lines)))
   <= length (filter begin_marker lines))%nat /\
  (length (PHD2Parser.sessions (state_of (PHD2Parser.parse self lines)))
   <= length (filter end_marker lines))%nat.
Proof.
  rewrite parse_sessions. split.
  - pose proof (scan_held_bound lines (PHD2Parser.set_sessions [] self, None)) as Hb.
    unfold held in Hb. simpl in Hb. lia.
  - pose proof (scan_sessions_bound lines (PHD2Parser.set_sessions [] self, None)) as He.
    simpl in He. lia.
Qed.

(** *** One session: the overall RMS and the session's own *)

Lemma overall_sessions_dec (d : option (list DitherEvent.t)) (m : F)
    (ss : list (GuidingSession.t F)) (o : PHD2Parser.overall F) :
  PHD2Parser.all_dec (fold_left (PHD2Parser.overall_session d m) ss o)
  = PHD2Parser.all_dec o
    ++ map GuidingFrame.dec_raw (survivors (PHD2Parser.mk ss None) d m).
Proof.
  revert o. induction ss as [|s ss IH]; intros o; simpl.
  - now rewrite app_nil_r.
  - rewrite IH. unfold PHD2Parser.overall_session at 1.
    destruct (overall_frames_spec d m s (GuidingSession.frames s)
                (if f_truthy (GuidingSession.pixel_scale s)
                 then PHD2Parser.mk_overall (PHD2Parser.all_ra o) (PHD2Parser.all_dec o)
                        (GuidingSession.pixel_scale s)
                 else o)) as (_ & Hdec & _).
    rewrite Hdec. unfold survivors. simpl.
    rewrite map_app, app_assoc.
    destruct (f_truthy (GuidingSession.pixel_scale s)); reflexivity.
Qed.

Lemma filter_all {A : Type} (p : A -> bool) (l : list A) :
  (forall a, p a = true) -> filter p l = l.
Proof.
  intros Hp. induction l as [|a l IH]; simpl; [reflexivity|].
  now rewrite Hp, IH.
Qed.


(** *** The span of a bucket *)

Lemma close_bucket_within (session : GuidingSession.t F) (interval : F) (mb : members F) :
  Forall (within session interval) (closed mb) ->
  within session interval (open_start mb, open mb) ->
  Forall (within session interval) (close_bucket mb).
Proof.
  intros Hclosed Hopen. unfold close_bucket.
  destruct (open mb) as [|f fs]; [assumption|].
  apply Forall_app. split; [assumption|]. constructor; [assumption | constructor].
Qed.

Lemma member_frames_within (interval : F) (d : option (list DitherEvent.t)) (m : F)
    (session : GuidingSession.t F) (fs : list (GuidingFrame.t F)) (mb : members F) :
  Forall (within session interval) (closed mb) ->
  within session interval (open_start mb, open mb) ->
  let mb' := fold_left (member_frame interval d m session) fs mb in
  Forall (within session interval) (closed mb') /\
  within session interval (open_start mb', open mb').
Proof.
  revert mb. induction fs as [|f fs IH]; intros mb Hclosed Hopen; simpl; [auto|].
  apply IH; unfold member_frame;
    destruct (PHD2Parser.skipped d m (PHD2Parser.frame_dt session f)); try assumption;
    destruct (f_geb (total_seconds (PHD2Parser.frame_dt session f - open_start mb)) interval)
      eqn:Hgeb; simpl; try assumption.
  - now apply close_bucket_within.
  - split; simpl.
    + right. exists f, []. auto.
    + constructor; [now left | constructor].
  - destruct Hopen as [Hstart Hall]. simpl in *. split; simpl.
    + destruct Hstart as [Hs|(g & rest & Hg & Hs)]; [now left|].
      right. exists g, (rest ++ [f]). rewrite Hg. auto.
    + apply Forall_app. split; [assumption|]. constructor; [now right | constructor].
Qed.


End GuidingProperties.

(** ** Further properties of the imaging-log parser *)

Section ImagingProperties.
Context {F : Type} `{PyNum F}.

(** A property kept by the stamping of the session bounds and by each of
    the fourteen detectors is kept by [_parse_line]. *)
Lemma parse_line_preserves (P : NINAParser.t F -> Prop) (line : string) :
  (forall ts s,
      P s ->
      P (NINAParser.set_session_end (Some ts)
           match NINAParser.session_start s with
           | Some _ => s
           | None => NINAParser.set_session_start (Some ts) s
           end)) ->
  preserves P (NINAParser.detect_target line) ->
  (forall ts, preserves P (NINAParser.detect_af_start line ts)) ->
  preserves P (NINAParser.detect_af_initial line) ->
  preserves P (NINAParser.detect_af_trigger line) ->
  preserves P (NINAParser.detect_af_temperature line) ->
  preserves P (NINAParser.detect_af_completed line) ->
  preserves P (NINAParser.detect_hfr line) ->
  (forall ts, preserves P (NINAParser.detect_filter line ts)) ->
  (forall ts, preserves P (NINAParser.detect_exposure line ts)) ->
  preserves P (NINAParser.detect_saved line) ->
  (forall ts, preserves P (NINAParser.detect_pier_side line ts)) ->
  (forall ts, preserves P (NINAParser.detect_rms_alert line ts)) ->
  (forall ts, preserves P (NINAParser.detect_dither_start line ts)) ->
  (forall ts, preserves P (NINAParser.detect_dither_end line ts)) ->
  preserves P (fun s => NINAParser._parse_line s line).
Proof.
  intros Hstamp H1 H2 H3 H4 H5 H6 H7 H8 H9 H10 H11 H12 H13 H14 s Hs.
  unfold NINAParser._parse_line.
  destruct (NINAParser._parse_timestamp line) as [[ts|]|]; simpl; try assumption.
  repeat (apply and_then_preserves; [|auto]).
  apply H1. now apply Hstamp.
Qed.

Lemma parse_preserves (P : NINAParser.t F -> Prop) (self : NINAParser.t F)
    (lines : list string) :
  (forall line, preserves P (fun s => NINAParser._parse_line s line)) ->
  P (NINAParser.reset self) ->
  P (state_of (NINAParser.parse self lines)).
Proof.
  intros Hline Hreset. unfold NINAParser.parse.
  apply (for_each_preserves P); [|assumption].
  intros raw _. apply Hline.
Qed.

(** The detectors named in the goal leave the fields the property reads
    alone. *)
Ltac untouched :=
  let s := fresh "s" in
  let Hs := fresh "Hs" in
  intros s Hs;
  unfold NINAParser.detect_dither_end, NINAParser.detect_dither_start,
    NINAParser.detect_rms_alert, NINAParser.detect_pier_side, NINAParser.detect_saved,
    NINAParser.detect_exposure, NINAParser.detect_filter,
    NINAParser.detect_hfr, NINAParser.detect_af_completed,
    NINAParser.detect_af_temperature, NINAParser.detect_af_trigger,
    NINAParser.detect_af_initial, NINAParser.detect_af_start, NINAParser.detect_target;
  break_tests; exact Hs.

Ltac intro_stamp :=
  try match goal with
      | |- forall _ : datetime, _ => let ts := fresh "ts" in intros ts
      end.

(** *** Dither events *)

Lemma parse_line_appends_closed_dithers (X : list DitherEvent.t) (line : string) :
  preserves (fun s : NINAParser.t F =>
               exists added,
                 NINAParser.dither_events s = X ++ added /\
                 Forall (fun d => is_some (DitherEvent.end_time d) = true) added)
            (fun s => NINAParser._parse_line s line).
Proof.
  apply parse_line_preserves; intro_stamp; try untouched.
  - intros s (added & Hd & Hall). unfold NINAParser.detect_dither_end.
    destruct (_ && _); [|exists added; auto].
    destruct (NINAParser._pending_dither s) as [d|]; [|exists added; auto].
    exists (added ++ [DitherEvent.set_end_time (Some ts) d]). simpl. split.
    + now rewrite Hd, app_assoc.
    + apply Forall_app. split; [assumption|]. constructor; [reflexivity | constructor].
Qed.

(** X11. [parse] keeps the dither events the parser held and appends closed
    events only: each appended event has its end time set, so that its
    [duration_seconds] is the difference of its two times. *)
Theorem appended_dither_events_are_closed (self : NINAParser.t F) (lines : list string) :
  exists added,
    NINAParser.dither_events (state_of (NINAParser.parse self lines))
    = NINAParser.dither_events self ++ added /\
    Forall (fun dither =>
              exists end_time,
                DitherEvent.end_time dither = Some end_time /\
                DitherEvent.duration_seconds (F:=F) dither
                = total_seconds (end_time - DitherEvent.start_time dither))
           added.
Proof.
  destruct (parse_preserves
              (fun s : NINAParser.t F =>
                 exists added,
                   NINAParser.dither_events s = NINAParser.dither_events self ++ added /\
                   Forall (fun d => is_some (DitherEvent.end_time d) = true) added)
              self lines) as (added & Hd & Hall).
  - intros line. apply parse_line_appends_closed_dithers.
  - exists []. simpl. rewrite app_nil_r. auto.
  - exists added. split; [exact Hd|].
    eapply Forall_impl; [|exact Hall]. intros d. unfold DitherEvent.duration_seconds.
    destruct (DitherEvent.end_time d) as [e|]; [intros _ | discriminate].
    exists e. auto.
Qed.

(** *** Listed exposures *)

Lemma parse_line_keeps_saved_exposures (line : string) :
  preserves (fun s : NINAParser.t F =>
               Forall saved_exposure (NINAParser.exposures s) /\ pending_fresh s)
            (fun s => NINAParser._parse_line s line).
Proof.
  apply parse_line_preserves; intro_stamp; try untouched.
  - intros s [Hex Hpe]. unfold NINAParser.detect_exposure.
    destruct (_ && _); [|split; assumption].
    destruct (Re.search _ _) as [m|]; [|split; assumption].
    set (filter_name := if Str.nonempty (Re.group 2 m) then _ else _).
    destruct (py_float _); [|destruct (Str.nonempty filter_name); split; assumption].
    destruct (py_int _); [|destruct (Str.nonempty filter_name); split; assumption].
    destruct (py_int _); [|destruct (Str.nonempty filter_name); split; assumption].
    split; simpl.
    + destruct (Str.nonempty filter_name); assumption.
    + intros e He. simpl in He. injection He as <-. split; reflexivity.
  - intros s [Hex Hpe]. unfold NINAParser.detect_saved.
    destruct (_ && _); [|split; assumption].
    destruct (Re.search _ _) as [m|]; [|split; assumption].
    destruct (NINAParser._pending_exposure s) as [e|] eqn:Hp; [|split; assumption].
    destruct (Hpe e Hp) as [Hhfr Hstars].
    split; simpl; [|intros e0 He0; discriminate].
    apply Forall_app. split; [assumption|].
    constructor; [|constructor].
    unfold saved_exposure.
    destruct (NINAParser._last_hfr s) as [x|] eqn:Hx;
      destruct (NINAParser._last_stars s) as [n|] eqn:Hn; simpl;
      try destruct (f_truthy x) eqn:Htx; try destruct (n =? 0) eqn:Hn0; simpl;
      rewrite ?Hhfr, ?Hstars;
      repeat split; try discriminate;
      try (intros y Hy; injection Hy as <-; try assumption;
           try (apply Z.eqb_neq; assumption)).
Qed.

(** X12. From a parser whose pending exposure, if any, is as [_parse_line]
    builds it, [parse] lists saved exposures only: each has its
    [saved_path] set, an HFR it carries is truthy and a star count it
    carries is not 0. So every row of [get_hfr_over_time] has a truthy HFR:
    an exposure saved while the last HFR was unset or 0.0 is left out of
    the series. The pending exposure stays as built, for the next
    [parse]. *)
Theorem listed_exposures_are_saved (self : NINAParser.t F) (lines : list string) :
  pending_fresh self ->
  Forall saved_exposure (NINAParser.exposures (state_of (NINAParser.parse self lines))) /\
  Forall (fun row => f_truthy (snd (fst row)) = true)
         (NINAParser.get_hfr_over_time (state_of (NINAParser.parse self lines))) /\
  pending_fresh (state_of (NINAParser.parse self lines)).
Proof.
  intros Hfresh.
  destruct (parse_preserves
              (fun s : NINAParser.t F =>
                 Forall saved_exposure (NINAParser.exposures s) /\ pending_fresh s)
              self lines) as [Hex Hpe].
  - intros line. apply parse_line_keeps_saved_exposures.
  - split; [constructor | exact Hfresh].
  - split; [exact Hex|]. split; [|exact Hpe].
    unfold NINAParser.get_hfr_over_time.
    induction Hex as [|e es He Hes IH]; simpl; [constructor|].
    apply Forall_app. split; [|exact IH].
    destruct He as (_ & Hhfr & _).
    destruct (Exposure.hfr e) as [x|]; constructor; [|constructor].
    simpl. now apply Hhfr.
Qed.

(** *** Session bounds *)

Lemma parse_line_keeps_session_start (t : datetime) (line : string) :
  preserves (fun s : NINAParser.t F => NINAParser.session_start s = Some t)
            (fun s => NINAParser._parse_line s line).
Proof.
  apply parse_line_preserves; intro_stamp; try untouched.
  intros s Hs. rewrite Hs. exact Hs.
Qed.

Lemma detectors_keep_session_bounds (t0 t1 : datetime) (line : string) (ts : datetime)
    (s : NINAParser.t F) :
  NINAParser.session_start s = Some t0 /\ NINAParser.session_end s = Some t1 ->
  let s' :=
    state_of
      (NINAParser.detect_target line s
         >>> NINAParser.detect_af_start line ts
         >>> NINAParser.detect_af_initial line
         >>> NINAParser.detect_af_trigger line
         >>> NINAParser.detect_af_temperature line
         >>> NINAParser.detect_af_completed line
         >>> NINAParser.detect_hfr line
         >>> NINAParser.detect_filter line ts
         >>> NINAParser.detect_exposure line ts
         >>> NINAParser.detect_saved line
         >>> NINAParser.detect_pier_side line ts
         >>> NINAParser.detect_rms_alert line ts
         >>> NINAParser.detect_dither_start line ts
         >>> NINAParser.detect_dither_end line ts) in
  NINAParser.session_start s' = Some t0 /\ NINAParser.session_end s' = Some t1.
Proof.
  intros Hs.
  repeat (apply (and_then_preserves
                   (fun s : NINAParser.t F =>
                      NINAParser.session_start s = Some t0 /\
                      NINAParser.session_end s = Some t1)); [|untouched]).
  revert s Hs. untouched.
Qed.

Lemma stamped_line_sets_bounds (line : string) (ts : datetime) (s : NINAParser.t F) :
  NINAParser._parse_timestamp line = Value (Some ts) ->
  NINAParser.session_start (state_of (NINAParser._parse_line s line))
  = match NINAParser.session_start s with
    | Some t => Some t
    | None => Some ts
    end /\
  NINAParser.session_end (state_of (NINAParser._parse_line s line)) = Some ts.
Proof.
  intros Hts. unfold NINAParser._parse_line. rewrite Hts.
  destruct (NINAParser.session_start s) as [t|] eqn:Hstart.
  - apply (detectors_keep_session_bounds t ts). simpl. auto.
  - apply (detectors_keep_session_bounds ts ts). simpl. auto.
Qed.

Lemma unstamped_lines_change_nothing (lines : list string) (s : NINAParser.t F) :
  Forall (fun raw => NINAParser._parse_timestamp (Str.strip raw) = Value None) lines ->
  for_each (fun self line => NINAParser._parse_line self (Str.strip line)) s lines
  = Returned s.
Proof.
  induction 1 as [|raw lines Hraw _ IH]; simpl; [reflexivity|].
  unfold NINAParser._parse_line at 1. rewrite Hraw. exact IH.
Qed.

(** X13. The session start is written once: a parser that holds one keeps it
    through [parse], whatever the log. *)
Theorem session_start_is_kept (self : NINAParser.t F) (lines : list string)
    (t : datetime) :
  NINAParser.session_start self = Some t ->
  NINAParser.session_start (state_of (NINAParser.parse self lines)) = Some t.
Proof.
  intros Hstart.
  apply (parse_preserves (fun s : NINAParser.t F => NINAParser.session_start s = Some t)).
  - intros line. apply parse_line_keeps_session_start.
  - exact Hstart.
Qed.


(** *** Meridian flips *)

Lemma search_exec (r : Re.regex) (line : string) (m : Re.caps) :
  Re.search r line = Some m ->
  exists s, Re.exec r s [] (fun _ c => Some c) = Some m.
Proof.
  unfold Re.search. induction (Str.chars line) as [|a l IH]; simpl; intros Hs.
  - destruct (Re.exec r [] [] (fun _ c => Some c)) as [c|] eqn:He; [|discriminate].
    injection Hs as ->. eauto.
  - destruct (Re.exec r (a :: l) [] (fun _ c => Some c)) as [c|] eqn:He.
    + injection Hs as ->. eauto.
    + now apply IH.
Qed.

(** The side a pier-side line names is not the empty text. *)
Lemma pier_side_nonempty (line : string) (m : Re.caps) :
  Re.search NINAParser.re_pier_side line = Some m -> Re.group 1 m <> "".
Proof.
  intros Hs. apply search_exec in Hs. destruct Hs as (s & Hexec).
  unfold NINAParser.re_pier_side in Hexec.
  apply exec_seq_groupless in Hexec; [|reflexivity].
  destruct Hexec as (l0 & rest & _ & _ & Hexec).
  apply exec_group in Hexec; [|reflexivity].
  destruct Hexec as (l & rest' & _ & Hm & Hk).
  injection Hk as <-. simpl.
  apply matches_plus_cls in Hm. destruct Hm as [Hne _].
  destruct l as [|a l]; [contradiction | discriminate].
Qed.

Lemma chained_snoc (l : list MeridianFlip.t) (f : MeridianFlip.t) :
  chained l ->
  (forall pre g, l = pre ++ [g] ->
                 MeridianFlip.to_pier_side g = MeridianFlip.from_pier_side f) ->
  chained (l ++ [f]).
Proof.
  induction l as [|a l IH]; intros Hc Hlast; [exact I|].
  destruct l as [|b l].
  - simpl. split; [|exact I]. apply (Hlast [] a). reflexivity.
  - destruct Hc as [Hab Hc]. split; [exact Hab|].
    apply IH; [exact Hc|].
    intros pre g Hpre. apply (Hlast (a :: pre) g). simpl. now rewrite Hpre.
Qed.

Lemma parse_line_keeps_flips_chained (line : string) :
  preserves (fun s : NINAParser.t F =>
               Forall real_flip (NINAParser.meridian_flips s) /\
               chained (NINAParser.meridian_flips s) /\
               forall pre g,
                 NINAParser.meridian_flips s = pre ++ [g] ->
                 MeridianFlip.to_pier_side g = NINAParser._current_pier_side s)
            (fun s => NINAParser._parse_line s line).
Proof.
  apply parse_line_preserves; intro_stamp; try untouched.
  intros s (Hreal & Hchain & Hlast). unfold NINAParser.detect_pier_side.
  destruct (_ && _); [|auto].
  destruct (Re.search _ _) as [m|] eqn:Hm; [|auto].
  pose proof (pier_side_nonempty line m Hm) as Hnew.
  destruct (Str.nonempty (NINAParser._current_pier_side s)
            && negb (String.eqb (NINAParser._current_pier_side s) (Re.group 1 m)))
    eqn:Hflip; simpl.
  - apply andb_prop in Hflip. destruct Hflip as [Hcur Hdiff].
    apply negb_true_iff, String.eqb_neq in Hdiff.
    split; [|split].
    + apply Forall_app. split; [assumption|]. constructor; [|constructor].
      repeat split; simpl; try assumption.
      intros Hempty. rewrite Hempty in Hcur. discriminate.
    + apply chained_snoc; [assumption|]. intros pre g Hpre. simpl. now apply (Hlast pre).
    + intros pre g Hpre. apply app_inj_tail in Hpre. destruct Hpre as [_ <-]. reflexivity.
  - split; [assumption|]. split; [assumption|].
    intros pre g Hpre. rewrite (Hlast pre g Hpre).
    apply andb_false_iff in Hflip. destruct Hflip as [Hcur|Hsame].
    + exfalso. rewrite Forall_forall in Hreal.
      destruct (Hreal g) as (_ & Hto & _); [rewrite Hpre; apply in_or_app; right; now left|].
      apply Hto. rewrite (Hlast pre g Hpre).
      destruct (NINAParser._current_pier_side s); [reflexivity | discriminate].
    + apply negb_false_iff, String.eqb_eq in Hsame. exact Hsame.
Qed.

(** X15. Every meridian flip [parse] lists, whatever the parser held before,
    goes from a named pier side to a different named one, and each flip
    starts from the side the flip before it ended on. *)
Theorem meridian_flips_are_chained (self : NINAParser.t F) (lines : list string) :
  Forall real_flip (NINAParser.meridian_flips (state_of (NINAParser.parse self lines))) /\
  chained (NINAParser.meridian_flips (state_of (NINAParser.parse self lines))).
Proof.
  destruct (parse_preserves
              (fun s : NINAParser.t F =>
                 Forall real_flip (NINAParser.meridian_flips s) /\
                 chained (NINAParser.meridian_flips s) /\
                 forall pre g,
                   NINAParser.meridian_flips s = pre ++ [g] ->
                   MeridianFlip.to_pier_side g = NINAParser._current_pier_side s)
              self lines) as (Hreal & Hchain & _).
  - intros line. apply parse_line_keeps_flips_chained.
  - simpl. split; [constructor|]. split; [exact I|].
    intros pre g Hpre. destruct pre; discriminate.
  - auto.
Qed.

End ImagingProperties.

(** *** Exposures and their markers *)

Section CountingProperties.
Context {F : Type} `{PyNum F}.

Lemma and_then_hoare {S : Type} (Q P : S -> Prop) (o : outcome S) (f : S -> outcome S) :
  Q (state_of o) ->
  (forall s, Q s -> P s) ->
  (forall s, Q s -> P (state_of (f s))) ->
  P (state_of (o >>> f)).
Proof.
  intros Ho Hqp Hf. destruct o as [s|s]; simpl in *; auto.
Qed.

Lemma nonincreasing_preserves {S : Type} (mu : S -> nat) (c : nat) (f : S -> outcome S) :
  (forall s, (mu (state_of (f s)) <= mu s)%nat) ->
  preserves (fun s => (mu s <= c)%nat) f.
Proof.
  intros Hf s Hs. specialize (Hf s). simpl. lia.
Qed.

(** A count that the stamping and twelve of the detectors do not raise
    grows, over a line, by what the exposure-start and the save detectors
    add. *)
Lemma parse_line_counts (mu : NINAParser.t F -> nat) (line : string) (ke ks : nat) :
  (forall ts s,
      (mu (NINAParser.set_session_end (Some ts)
             match NINAParser.session_start s with
             | Some _ => s
             | None => NINAParser.set_session_start (Some ts) s
             end) <= mu s)%nat) ->
  (forall s, (mu (state_of (NINAParser.detect_target line s)) <= mu s)%nat) ->
  (forall ts s, (mu (state_of (NINAParser.detect_af_start line ts s)) <= mu s)%nat) ->
  (forall s, (mu (state_of (NINAParser.detect_af_initial line s)) <= mu s)%nat) ->
  (forall s, (mu (state_of (NINAParser.detect_af_trigger line s)) <= mu s)%nat) ->
  (forall s, (mu (state_of (NINAParser.detect_af_temperature line s)) <= mu s)%nat) ->
  (forall s, (mu (state_of (NINAParser.detect_af_completed line s)) <= mu s)%nat) ->
  (forall s, (mu (state_of (NINAParser.detect_hfr line s)) <= mu s)%nat) ->
  (forall ts s, (mu (state_of (NINAParser.detect_filter line ts s)) <= mu s)%nat) ->
  (forall ts s, (mu (state_of (NINAParser.detect_exposure line ts s)) <= mu s + ke)%nat) ->
  (forall s, (mu (state_of (NINAParser.detect_saved line s)) <= mu s + ks)%nat) ->
  (forall ts s, (mu (state_of (NINAParser.detect_pier_side line ts s)) <= mu s)%nat) ->
  (forall ts s, (mu (state_of (NINAParser.detect_rms_alert line ts s)) <= mu s)%nat) ->
  (forall ts s, (mu (state_of (NINAParser.detect_dither_start line ts s)) <= mu s)%nat) ->
  (forall ts s, (mu (state_of (NINAParser.detect_dither_end line ts s)) <= mu s)%nat) ->
  forall s, (mu (state_of (NINAParser._parse_line s line)) <= mu s + ke + ks)%nat.
Proof.
  intros Hstamp H1 H2 H3 H4 H5 H6 H7 H8 H9 H10 H11 H12 H13 H14 s.
  unfold NINAParser._parse_line.
  destruct (NINAParser._parse_timestamp line) as [[ts|]|]; simpl; try lia.
  do 4 (apply (and_then_preserves (fun s' => (mu s' <= mu s + ke + ks)%nat));
        [|apply nonincreasing_preserves; solve [auto]]).
  apply (and_then_hoare (fun s' => (mu s' <= mu s + ke)%nat)
                        (fun s' => (mu s' <= mu s + ke + ks)%nat));
    [|intros s' Hs'; lia | intros s' Hs'; specialize (H10 s'); lia].
  apply (and_then_hoare (fun s' => (mu s' <= mu s)%nat)
                        (fun s' => (mu s' <= mu s + ke)%nat));
    [|intros s' Hs'; lia | intros s' Hs'; specialize (H9 ts s'); lia].
  do 7 (apply (and_then_preserves (fun s' => (mu s' <= mu s)%nat));
        [|apply nonincreasing_preserves; solve [auto]]).
  eapply Nat.le_trans; [apply H1 | apply Hstamp].
Qed.

Lemma scan_counts (mu : NINAParser.t F -> nat) (marker : string -> bool)
    (lines : list string) (s : NINAParser.t F) :
  (forall raw s0,
      (mu (state_of (NINAParser._parse_line s0 (Str.strip raw)))
       <= mu s0 + if marker raw then 1 else 0)%nat) ->
  (mu (state_of (for_each (fun self line => NINAParser._parse_line self (Str.strip line))
                   s lines))
   <= mu s + length (filter marker lines))%nat.
Proof.
  intros Hline. revert s. induction lines as [|raw lines IH]; intros s; simpl; [lia|].
  pose proof (Hline raw s) as Hstep.
  destruct (NINAParser._parse_line s (Str.strip raw)) as [s'|s']; simpl in *.
  - specialize (IH s'). destruct (marker raw); simpl; lia.
  - destruct (marker raw); simpl; lia.
Qed.

(** The detectors named in the goal do not raise the count. *)
Ltac steady :=
  intros;
  unfold NINAParser.detect_dither_end, NINAParser.detect_dither_start,
    NINAParser.detect_rms_alert, NINAParser.detect_pier_side, NINAParser.detect_saved,
    NINAParser.detect_exposure, NINAParser.detect_filter,
    NINAParser.detect_hfr, NINAParser.detect_af_completed,
    NINAParser.detect_af_temperature, NINAParser.detect_af_trigger,
    NINAParser.detect_af_initial, NINAParser.detect_af_start, NINAParser.detect_target;
  break_tests; simpl; rewrite ?length_app; simpl; lia.

Lemma parse_line_lists_on_save (raw : string) (s : NINAParser.t F) :
  (length (NINAParser.exposures (state_of (NINAParser._parse_line s (Str.strip raw))))
   <= length (NINAParser.exposures s) + if saved_marker raw then 1 else 0)%nat.
Proof.
  pose proof (parse_line_counts (fun s => length (NINAParser.exposures s)) (Str.strip raw)
                0 (if saved_marker raw then 1 else 0)) as Hc.
  cbv beta in Hc. rewrite <- (Nat.add_0_r (length (NINAParser.exposures s))).
  apply Hc; clear Hc; try steady.
  intros s0. unfold NINAParser.detect_saved, saved_marker. cbv zeta.
  break_tests; simpl; rewrite ?length_app; simpl; lia.
Qed.

Lemma parse_line_books_on_start (raw : string) (s : NINAParser.t F) :
  (length (NINAParser.exposures (state_of (NINAParser._parse_line s (Str.strip raw))))
   + (if is_some (NINAParser._pending_exposure
                    (state_of (NINAParser._parse_line s (Str.strip raw))))
      then 1 else 0)
   <= length (NINAParser.exposures s)
      + (if is_some (NINAParser._pending_exposure s) then 1 else 0)
      + if exposure_marker raw then 1 else 0)%nat.
Proof.
  pose proof (parse_line_counts
                (fun s => (length (NINAParser.exposures s)
                           + if is_some (NINAParser._pending_exposure s) then 1 else 0)%nat)
                (Str.strip raw) (if exposure_marker raw then 1 else 0) 0) as Hc.
  cbv beta in Hc.
  rewrite <- (Nat.add_0_r (_ + (if exposure_marker raw then 1 else 0))).
  apply Hc; clear Hc; try steady.
  - intros ts s0. unfold NINAParser.detect_exposure, exposure_marker. cbv zeta.
    break_tests; simpl; rewrite ?length_app; simpl; lia.
  - intros s0. unfold NINAParser.detect_saved.
    destruct (_ && _); [|simpl; lia].
    destruct (Re.search _ _); [|simpl; lia].
    destruct (NINAParser._pending_exposure s0) eqn:Hp; simpl;
      rewrite ?Hp, ?length_app; simpl; lia.
Qed.

(** X16. [parse] lists at most one exposure per save line of the log, whatever
    the parser held before; and from a parser without pending exposure, at
    most one per exposure-start line: a start line that follows another
    without a save in between replaces the pending exposure, and a save
    line without pending exposure lists none. *)
Theorem exposures_bounded_by_markers (self : NINAParser.t F) (lines : list string) :
  NINAParser._pending_exposure self = None ->
  (length (NINAParser.exposures (state_of (NINAParser.parse self lines)))
   <= length (filter saved_marker lines))%nat /\
  (length (NINAParser.exposures (state_of (NINAParser.parse self lines)))
   <= length (filter exposure_marker lines))%nat.
Proof.
  intros Hnone. unfold NINAParser.parse. split.
  - pose proof (scan_counts (fun s => length (NINAParser.exposures s)) saved_marker lines
                  (NINAParser.reset self) parse_line_lists_on_save) as Hb.
    simpl in Hb. exact Hb.
  - pose proof (scan_counts
                  (fun s => (length (NINAParser.exposures s)
                             + if is_some (NINAParser._pending_exposure s) then 1 else 0)%nat)
                  exposure_marker lines (NINAParser.reset self) parse_line_books_on_start)
      as Hb.
    simpl in Hb. rewrite Hnone in Hb. simpl in Hb. lia.
Qed.

End CountingProperties.

(** ** Properties of the session finder *)

Section FinderProperties.

(** *** Dates in file names *)

Lemma at_end_some (rest : list ascii) (c m : Re.caps) :
  SessionFinder.at_end rest c = Some m -> m = c.
Proof.
  unfold SessionFinder.at_end. destruct rest as [|a [|b rest]]; try discriminate.
  - congruence.
  - destruct (Ascii.eqb a "010"); congruence.
Qed.

Lemma matches_chr (a : ascii) (l : list ascii) : Lang.matches (Re.chr a) l -> l = [a].
Proof.
  unfold Re.chr. intros Hm. apply matches_cls in Hm.
  destruct Hm as (b & -> & Hb). apply Ascii.eqb_eq in Hb. now subst.
Qed.

Lemma matches_lit_chars (cs l : list ascii) :
  Lang.matches (fold_right (fun a r => Re.Seq (Re.chr a) r) Re.Eps cs) l -> l = cs.
Proof.
  revert l. induction cs as [|a cs IH]; intros l Hm; simpl in Hm.
  - now inversion Hm.
  - apply matches_seq_inv in Hm. destruct Hm as (l1 & l2 & -> & H1 & H2).
    apply matches_chr in H1. subst. simpl. f_equal. now apply IH.
Qed.

Lemma matches_lit (s : string) (l : list ascii) :
  Lang.matches (Re.lit s) l -> l = Str.chars s.
Proof. apply matches_lit_chars. Qed.

Lemma firstn_exact {A : Type} (n : nat) (l rest : list A) :
  length l = n -> firstn n (l ++ rest) = l.
Proof.
  intros <-. rewrite firstn_app, firstn_all, Nat.sub_diag. simpl. apply app_nil_r.
Qed.

Lemma skipn_exact {A : Type} (n : nat) (l rest : list A) :
  length l = n -> skipn n (l ++ rest) = rest.
Proof.
  intros <-. rewrite skipn_app, skipn_all, Nat.sub_diag. reflexivity.
Qed.

(** The three groups of a match of the NINA pattern are the first four
    characters of the name, the next two and the two after them, all
    digits. *)
Lemma nina_match_groups (filename : string) (m : Re.caps) :
  SessionFinder.match_ SessionFinder.NINA_PATTERN filename = Some m ->
  let cs := Str.chars filename in
  Re.group 1 m = Str.of_chars (firstn 4 cs) /\
  Re.group 2 m = Str.of_chars (firstn 2 (skipn 4 cs)) /\
  Re.group 3 m = Str.of_chars (firstn 2 (skipn 6 cs)) /\
  (length (firstn 4 cs) = 4%nat /\ forallb Str.is_digit (firstn 4 cs) = true) /\
  (length (firstn 2 (skipn 4 cs)) = 2%nat /\
   forallb Str.is_digit (firstn 2 (skipn 4 cs)) = true) /\
  (length (firstn 2 (skipn 6 cs)) = 2%nat /\
   forallb Str.is_digit (firstn 2 (skipn 6 cs)) = true).
Proof.
  intros Hrun cs. subst cs.
  unfold SessionFinder.match_, SessionFinder.NINA_PATTERN in Hrun. cbn [Re.seqs] in Hrun.
  apply exec_seq_group in Hrun; [|reflexivity].
  destruct Hrun as (y & r1 & Hs1 & Hy & Hrun).
  apply exec_seq_group in Hrun; [|reflexivity].
  destruct Hrun as (mo & r2 & -> & Hmo & Hrun).
  apply exec_seq_group in Hrun; [|reflexivity].
  destruct Hrun as (d & r3 & -> & Hd & Hrun).
  apply exec_groupless in Hrun; [|reflexivity].
  destruct Hrun as (l & rest & -> & _ & Hend).
  apply at_end_some in Hend. subst m.
  apply matches_rep_cls in Hy, Hmo, Hd.
  destruct Hy as [Hy1 Hy2], Hmo as [Hmo1 Hmo2], Hd as [Hd1 Hd2].
  rewrite Hs1.
  rewrite (firstn_exact 4 y) by assumption.
  rewrite (skipn_exact 4 y) by assumption.
  rewrite (firstn_exact 2 mo) by assumption.
  replace (y ++ mo ++ d ++ l ++ rest) with ((y ++ mo) ++ d ++ l ++ rest)
    by now rewrite <- app_assoc.
  rewrite (skipn_exact 6 (y ++ mo)) by (rewrite length_app; lia).
  rewrite (firstn_exact 2 d) by assumption.
  simpl. auto 10.
Qed.

(** The three groups of a match of the PHD2 pattern: the characters 14 to
    17, 19 to 20 and 22 to 23 of the name, all digits. *)
Lemma phd2_match_groups (filename : string) (m : Re.caps) :
  SessionFinder.match_ SessionFinder.PHD2_PATTERN filename = Some m ->
  let cs := Str.chars filename in
  Re.group 1 m = Str.of_chars (firstn 4 (skipn 14 cs)) /\
  Re.group 2 m = Str.of_chars (firstn 2 (skipn 19 cs)) /\
  Re.group 3 m = Str.of_chars (firstn 2 (skipn 22 cs)) /\
  (length (firstn 4 (skipn 14 cs)) = 4%nat /\
   forallb Str.is_digit (firstn 4 (skipn 14 cs)) = true) /\
  (length (firstn 2 (skipn 19 cs)) = 2%nat /\
   forallb Str.is_digit (firstn 2 (skipn 19 cs)) = true) /\
  (length (firstn 2 (skipn 22 cs)) = 2%nat /\
   forallb Str.is_digit (firstn 2 (skipn 22 cs)) = true).
Proof.
  intros Hrun cs. subst cs.
  unfold SessionFinder.match_, SessionFinder.PHD2_PATTERN in Hrun. cbn [Re.seqs] in Hrun.
  apply exec_seq_groupless in Hrun; [|reflexivity].
  destruct Hrun as (pre & r0 & Hs0 & Hpre & Hrun).
  apply exec_seq_group in Hrun; [|reflexivity].
  destruct Hrun as (y & r1 & -> & Hy & Hrun).
  apply exec_seq_groupless in Hrun; [|reflexivity].
  destruct Hrun as (s1 & r1' & -> & Hs1 & Hrun).
  apply exec_seq_group in Hrun; [|reflexivity].
  destruct Hrun as (mo & r2 & -> & Hmo & Hrun).
  apply exec_seq_groupless in Hrun; [|reflexivity].
  destruct Hrun as (s2 & r2' & -> & Hs2 & Hrun).
  apply exec_seq_group in Hrun; [|reflexivity].
  destruct Hrun as (d & r3 & -> & Hd & Hrun).
  apply exec_groupless in Hrun; [|reflexivity].
  destruct Hrun as (l & rest & -> & _ & Hend).
  apply at_end_some in Hend. subst m.
  apply matches_lit in Hpre. apply matches_chr in Hs1, Hs2.
  apply matches_rep_cls in Hy, Hmo, Hd.
  destruct Hy as [Hy1 Hy2], Hmo as [Hmo1 Hmo2], Hd as [Hd1 Hd2].
  rewrite Hs0. subst pre s1 s2.
  rewrite (skipn_exact 14 (Str.chars "PHD2_GuideLog_")) by reflexivity.
  rewrite (firstn_exact 4 y) by assumption.
  replace (Str.chars "PHD2_GuideLog_" ++ y ++ ["-"%char] ++ mo ++ ["-"%char] ++ d ++ l ++ rest)
    with ((Str.chars "PHD2_GuideLog_" ++ y ++ ["-"%char]) ++ mo ++ ["-"%char] ++ d ++ l ++ rest)
    by now rewrite <- !app_assoc.
  rewrite (skipn_exact 19 (Str.chars "PHD2_GuideLog_" ++ y ++ ["-"%char]))
    by (rewrite !length_app; simpl; lia).
  rewrite (firstn_exact 2 mo) by assumption.
  replace ((Str.chars "PHD2_GuideLog_" ++ y ++ ["-"%char]) ++ mo ++ ["-"%char] ++ d ++ l ++ rest)
    with ((Str.chars "PHD2_GuideLog_" ++ y ++ ["-"%char] ++ mo ++ ["-"%char]) ++ d ++ l ++ rest)
    by now rewrite <- !app_assoc.
  rewrite (skipn_exact 22 (Str.chars "PHD2_GuideLog_" ++ y ++ ["-"%char] ++ mo ++ ["-"%char]))
    by (rewrite !length_app; simpl; lia).
  rewrite (firstn_exact 2 d) by assumption.
  simpl. auto 10.
Qed.

Lemma py_int_run (n : nat) (l : list ascii) :
  length l = S n -> forallb Str.is_digit l = true ->
  py_int (Str.of_chars l) = Some (Str.decimal l).
Proof.
  intros Hlen Hall. apply py_int_digits; [|assumption].
  intros ->. discriminate.
Qed.

(** X17. The date functions never raise: the groups they hand to [int] are runs
    of digits. For a name its pattern matches, the NINA function builds the
    date from the first four characters, the next two and the two after
    them; the PHD2 function from the characters 14 to 17, 19 to 20 and 22
    to 23; a name the pattern does not match, and digits that are no date,
    give [None]. *)
Theorem extract_date_reads_fixed_columns (filename : string) :
  let cs := Str.chars filename in
  SessionFinder._extract_nina_date filename
  = match SessionFinder.match_ SessionFinder.NINA_PATTERN filename with
    | Some _ =>
        Value (Date.make (Str.decimal (firstn 4 cs))
                         (Str.decimal (firstn 2 (skipn 4 cs)))
                         (Str.decimal (firstn 2 (skipn 6 cs))))
    | None => Value None
    end /\
  SessionFinder._extract_phd2_date filename
  = match SessionFinder.match_ SessionFinder.PHD2_PATTERN filename with
    | Some _ =>
        Value (Date.make (Str.decimal (firstn 4 (skipn 14 cs)))
                         (Str.decimal (firstn 2 (skipn 19 cs)))
                         (Str.decimal (firstn 2 (skipn 22 cs))))
    | None => Value None
    end.
Proof.
  intros cs. split.
  - unfold SessionFinder._extract_nina_date.
    destruct (SessionFinder.match_ SessionFinder.NINA_PATTERN filename) as [m|] eqn:Hm;
      [|reflexivity].
    destruct (nina_match_groups filename m Hm)
      as (-> & -> & -> & [Hy1 Hy2] & [Hm1 Hm2] & [Hd1 Hd2]).
    fold cs in Hy1, Hy2, Hm1, Hm2, Hd1, Hd2 |- *.
    now rewrite (py_int_run 3 _ Hy1 Hy2), (py_int_run 1 _ Hm1 Hm2), (py_int_run 1 _ Hd1 Hd2).
  - unfold SessionFinder._extract_phd2_date.
    destruct (SessionFinder.match_ SessionFinder.PHD2_PATTERN filename) as [m|] eqn:Hm;
      [|reflexivity].
    destruct (phd2_match_groups filename m Hm)
      as (-> & -> & -> & [Hy1 Hy2] & [Hm1 Hm2] & [Hd1 Hd2]).
    fold cs in Hy1, Hy2, Hm1, Hm2, Hd1, Hd2 |- *.
    now rewrite (py_int_run 3 _ Hy1 Hy2), (py_int_run 1 _ Hm1 Hm2), (py_int_run 1 _ Hd1 Hd2).
Qed.

Lemma nina_date_value (filename : string) :
  exists o, SessionFinder._extract_nina_date filename = Value o.
Proof.
  unfold SessionFinder._extract_nina_date.
  destruct (SessionFinder.match_ SessionFinder.NINA_PATTERN filename) as [m|] eqn:Hm;
    [|eauto].
  destruct (nina_match_groups filename m Hm)
    as (-> & -> & -> & [Hy1 Hy2] & [Hm1 Hm2] & [Hd1 Hd2]).
  rewrite (py_int_run 3 _ Hy1 Hy2), (py_int_run 1 _ Hm1 Hm2), (py_int_run 1 _ Hd1 Hd2).
  eauto.
Qed.

Lemma phd2_date_value (filename : string) :
  exists o, SessionFinder._extract_phd2_date filename = Value o.
Proof.
  unfold SessionFinder._extract_phd2_date.
  destruct (SessionFinder.match_ SessionFinder.PHD2_PATTERN filename) as [m|] eqn:Hm;
    [|eauto].
  destruct (phd2_match_groups filename m Hm)
    as (-> & -> & -> & [Hy1 Hy2] & [Hm1 Hm2] & [Hd1 Hd2]).
  rewrite (py_int_run 3 _ Hy1 Hy2), (py_int_run 1 _ Hm1 Hm2), (py_int_run 1 _ Hd1 Hd2).
  eauto.
Qed.

End FinderProperties.

(** *** The dict of [scan] *)

Section DictProperties.

Lemma date_eqb_eq (a b : Date.t) : Date.eqb a b = true <-> a = b.
Proof.
  destruct a as [y1 m1 d1], b as [y2 m2 d2]. unfold Date.eqb. simpl.
  rewrite !andb_true_iff, !Z.eqb_eq. split.
  - intros [[-> ->] ->]. reflexivity.
  - intros Heq. injection Heq. auto.
Qed.

Lemma date_eqb_refl (a : Date.t) : Date.eqb a a = true.
Proof. now apply date_eqb_eq. Qed.

Lemma date_eqb_neq (a b : Date.t) : Date.eqb a b = false <-> a <> b.
Proof.
  split.
  - intros Hf Heq. apply date_eqb_eq in Heq. congruence.
  - intros Hne. destruct (Date.eqb a b) eqn:He; [|reflexivity].
    apply date_eqb_eq in He. contradiction.
Qed.

Lemma contains_key_in (d : Date.t) (D : SessionFinder.sessions_dict) :
  SessionFinder.contains_key d D = true <-> In d (map fst D).
Proof.
  unfold SessionFinder.contains_key. rewrite existsb_exists. split.
  - intros ([k v] & Hin & Heq). apply date_eqb_eq in Heq. simpl in Heq. subst.
    apply in_map_iff. exists (d, v). auto.
  - intros Hin. apply in_map_iff in Hin. destruct Hin as ([k v] & <- & Hin).
    exists (k, v). split; [assumption | apply date_eqb_refl].
Qed.

Lemma setitem_new (d : Date.t) (v : DiscoveredSession.t) (D : SessionFinder.sessions_dict) :
  ~ In d (map fst D) -> SessionFinder.setitem d v D = D ++ [(d, v)].
Proof.
  induction D as [|[k v'] D IH]; simpl; intros Hn; [reflexivity|].
  destruct (Date.eqb k d) eqn:He.
  - apply date_eqb_eq in He. subst. exfalso. apply Hn. now left.
  - rewrite IH; auto.
Qed.

Lemma update_keys (d : Date.t) (f : DiscoveredSession.t -> DiscoveredSession.t)
    (D : SessionFinder.sessions_dict) :
  map fst (SessionFinder.update d f D) = map fst D.
Proof.
  induction D as [|[k v] D IH]; simpl; [reflexivity|].
  destruct (Date.eqb k d); simpl; [reflexivity | now rewrite IH].
Qed.

Lemma update_forall (Q Q' : Date.t * DiscoveredSession.t -> Prop) (d : Date.t)
    (f : DiscoveredSession.t -> DiscoveredSession.t) (D : SessionFinder.sessions_dict) :
  NoDup (map fst D) ->
  Forall Q D ->
  (forall v, Q (d, v) -> Q' (d, f v)) ->
  (forall k v, k <> d -> Q (k, v) -> Q' (k, v)) ->
  Forall Q' (SessionFinder.update d f D).
Proof.
  intros Hnd Hall Hd Hother.
  induction D as [|[k v] D IH]; simpl; [constructor|].
  inversion Hnd as [|k' ks Hk Hnd']; subst.
  inversion Hall as [|e es He Hes]; subst.
  destruct (Date.eqb k d) eqn:Hkd.
  - apply date_eqb_eq in Hkd. subst k. constructor; [now apply Hd|].
    rewrite Forall_forall in Hes |- *. intros [k v'] Hin.
    apply Hother; [|now apply Hes].
    intros ->. apply Hk. apply in_map_iff. exists (d, v'). auto.
  - apply date_eqb_neq in Hkd. constructor; [now apply Hother | now apply IH].
Qed.

Lemma dated_app (extract : string -> result (option Date.t)) (d : Date.t)
    (files more : list Path.t) :
  dated extract d (files ++ more) = dated extract d files ++ dated extract d more.
Proof. unfold dated. apply filter_app. Qed.

End DictProperties.

(** *** One loop of [scan] *)

Section ScanLoop.
Variables extract extract_o : string -> result (option Date.t).
Variables get other : DiscoveredSession.t -> list Path.t.
Variable append : Path.t -> DiscoveredSession.t -> DiscoveredSession.t.
Variable step : SessionFinder.t -> Path.t -> outcome SessionFinder.t.
Variable others : list Path.t.

Hypothesis extract_value : forall name, exists o, extract name = Value o.
Hypothesis get_append : forall f s, get (append f s) = get s ++ [f].
Hypothesis other_append : forall f s, other (append f s) = other s.
Hypothesis date_append :
  forall f s, DiscoveredSession.session_date (append f s) = DiscoveredSession.session_date s.
Hypothesis get_new : forall d, get (DiscoveredSession.new d) = [].
Hypothesis other_new : forall d, other (DiscoveredSession.new d) = [].
Hypothesis step_eq :
  forall self log_file,
    step self log_file
    = match extract (Path.name log_file) with
      | ValueError => Raised self
      | Value None => Returned self
      | Value (Some session_date) =>
          let sessions :=
            if SessionFinder.contains_key session_date (SessionFinder._sessions self)
            then SessionFinder._sessions self
            else SessionFinder.setitem session_date (DiscoveredSession.new session_date)
                   (SessionFinder._sessions self) in
          Returned (SessionFinder.set_sessions
                      (SessionFinder.update session_date (append log_file) sessions) self)
      end.

Lemma dated_one (d k : Date.t) (f : Path.t) :
  extract (Path.name f) = Value (Some d) ->
  dated extract k [f] = if Date.eqb d k then [f] else [].
Proof. intros He. unfold dated. simpl. now rewrite He. Qed.

Lemma dated_none (k : Date.t) (f : Path.t) :
  extract (Path.name f) = Value None -> dated extract k [f] = [].
Proof. intros He. unfold dated. simpl. now rewrite He. Qed.

Lemma step_grouped (files : list Path.t) (self : SessionFinder.t) (f : Path.t) :
  grouped extract extract_o get other files others (SessionFinder._sessions self) ->
  exists self',
    step self f = Returned self' /\
    SessionFinder.nina_folder self' = SessionFinder.nina_folder self /\
    SessionFinder.phd2_folder self' = SessionFinder.phd2_folder self /\
    grouped extract extract_o get other (files ++ [f]) others (SessionFinder._sessions self').
Proof.
  intros (Hnd & Hall & Hkeys). rewrite step_eq.
  destruct (extract_value (Path.name f)) as [[d|] He]; rewrite He.
  - eexists. split; [reflexivity|]. split; [reflexivity|]. split; [reflexivity|].
    simpl.
    destruct (SessionFinder.contains_key d (SessionFinder._sessions self)) eqn:Hc.
    + apply contains_key_in in Hc. split; [|split].
      * now rewrite update_keys.
      * apply (update_forall
                 (fun item =>
                    DiscoveredSession.session_date (snd item) = fst item /\
                    get (snd item) = dated extract (fst item) files /\
                    other (snd item) = dated extract_o (fst item) others /\
                    (get (snd item) <> [] \/ other (snd item) <> [])));
          try assumption.
        -- intros v (Hdate & Hget & Hoth & _). simpl in *.
           rewrite date_append, get_append, other_append, dated_app, (dated_one d d f He),
             date_eqb_refl, Hget.
           repeat split; auto. left. intros Hnil. apply app_eq_nil in Hnil.
           destruct Hnil as [_ Hnil]. discriminate.
        -- intros k v Hkd (Hdate & Hget & Hoth & Hne). simpl in *.
           rewrite dated_app, (dated_one d k f He).
           assert (Hdk : Date.eqb d k = false) by (apply date_eqb_neq; congruence).
           rewrite Hdk, app_nil_r. auto.
      * intros k Hk. rewrite update_keys.
        rewrite dated_app, (dated_one d k f He) in Hk.
        destruct (Date.eqb d k) eqn:Hdk.
        -- apply date_eqb_eq in Hdk. now subst.
        -- rewrite app_nil_r in Hk. now apply Hkeys.
    + assert (Hnew : ~ In d (map fst (SessionFinder._sessions self))).
      { intros Hin. apply contains_key_in in Hin. congruence. }
      assert (Hempty : dated extract d files = [] /\ dated extract_o d others = []).
      { split.
        - destruct (dated extract d files) eqn:Hd; [reflexivity|].
          exfalso. apply Hnew, Hkeys. left. rewrite Hd. discriminate.
        - destruct (dated extract_o d others) eqn:Hd; [reflexivity|].
          exfalso. apply Hnew, Hkeys. right. rewrite Hd. discriminate. }
      destruct Hempty as [He1 He2].
      rewrite (setitem_new d _ _ Hnew).
      assert (Hnd' : NoDup (map fst (SessionFinder._sessions self ++ [(d, DiscoveredSession.new d)]))).
      { rewrite map_app. simpl. apply NoDup_app; [assumption | repeat constructor; auto |].
        intros k Hk [<-|[]]. contradiction. }
      split; [|split].
      * now rewrite update_keys.
      * apply (update_forall
                 (fun item =>
                    DiscoveredSession.session_date (snd item) = fst item /\
                    get (snd item) = dated extract (fst item) files /\
                    other (snd item) = dated extract_o (fst item) others /\
                    ((get (snd item) <> [] \/ other (snd item) <> []) \/ fst item = d)));
          try assumption.
        -- apply Forall_app. split.
           ++ eapply Forall_impl; [|exact Hall]. intros [k v] (H1 & H2 & H3 & H4). auto.
           ++ constructor; [|constructor]. simpl.
              rewrite get_new, other_new, He1, He2. auto.
        -- intros v (Hdate & Hget & Hoth & _). simpl in *.
           rewrite date_append, get_append, other_append, dated_app, (dated_one d d f He),
             date_eqb_refl, Hget.
           repeat split; auto. left. intros Hnil. apply app_eq_nil in Hnil.
           destruct Hnil as [_ Hnil]. discriminate.
        -- intros k v Hkd (Hdate & Hget & Hoth & Hne). simpl in *.
           rewrite dated_app, (dated_one d k f He).
           assert (Hdk : Date.eqb d k = false) by (apply date_eqb_neq; congruence).
           rewrite Hdk, app_nil_r. destruct Hne as [Hne|Hne]; [auto | contradiction].
      * intros k Hk. rewrite update_keys, map_app. simpl. apply in_or_app.
        rewrite dated_app, (dated_one d k f He) in Hk.
        destruct (Date.eqb d k) eqn:Hdk.
        -- apply date_eqb_eq in Hdk. subst. right. now left.
        -- rewrite app_nil_r in Hk. left. now apply Hkeys.
  - exists self. split; [reflexivity|]. split; [reflexivity|]. split; [reflexivity|].
    split; [assumption|]. split.
    + eapply Forall_impl; [|exact Hall]. intros [k v] (H1 & H2 & H3 & H4). simpl in *.
      rewrite dated_app, (dated_none k f He), app_nil_r. auto.
    + intros k Hk. rewrite dated_app, (dated_none k f He), app_nil_r in Hk. now apply Hkeys.
Qed.

Lemma loop_grouped (more files : list Path.t) (self : SessionFinder.t) :
  grouped extract extract_o get other files others (SessionFinder._sessions self) ->
  exists self',
    for_each step self more = Returned self' /\
    SessionFinder.nina_folder self' = SessionFinder.nina_folder self /\
    SessionFinder.phd2_folder self' = SessionFinder.phd2_folder self /\
    grouped extract extract_o get other (files ++ more) others (SessionFinder._sessions self').
Proof.
  revert files self. induction more as [|f more IH]; intros files self Hg; simpl.
  - exists self. rewrite app_nil_r. auto.
  - destruct (step_grouped files self f Hg) as (self1 & -> & Hn1 & Hp1 & Hg1).
    destruct (IH (files ++ [f]) self1 Hg1) as (self2 & -> & Hn2 & Hp2 & Hg2).
    exists self2. rewrite <- app_assoc in Hg2. simpl in Hg2.
    split; [reflexivity|]. split; [congruence|]. split; [congruence | exact Hg2].
Qed.

End ScanLoop.

(** *** The order of the sessions *)

Section SortProperties.

Lemma date_ltb_lt (a b : Date.t) :
  Date.ltb a b = true <->
  Date.year a < Date.year b \/
  (Date.year a = Date.year b /\
   (Date.month a < Date.month b \/
    (Date.month a = Date.month b /\ Date.day a < Date.day b))).
Proof.
  unfold Date.ltb.
  rewrite !orb_true_iff, !andb_true_iff, !orb_true_iff, !andb_true_iff,
    !Z.ltb_lt, !Z.eqb_eq.
  reflexivity.
Qed.

Lemma date_ltb_trans (a b c : Date.t) :
  Date.ltb a b = true -> Date.ltb b c = true -> Date.ltb a c = true.
Proof. rewrite !date_ltb_lt. lia. Qed.

Lemma date_ltb_total (a b : Date.t) :
  Date.ltb a b = false -> a <> b -> Date.ltb b a = true.
Proof.
  intros Hab Hne.
  assert (Hnlt : ~ (Date.ltb a b = true)) by congruence.
  rewrite date_ltb_lt in Hnlt. rewrite date_ltb_lt.
  destruct a as [y1 m1 d1], b as [y2 m2 d2]. simpl in *.
  assert (Hd : y1 <> y2 \/ m1 <> m2 \/ d1 <> d2).
  { destruct (Z.eq_dec y1 y2) as [->|]; [|auto].
    destruct (Z.eq_dec m1 m2) as [->|]; [|auto].
    destruct (Z.eq_dec d1 d2) as [->|]; [|auto].
    contradiction. }
  lia.
Qed.

Lemma insert_newest_first_in (x s : DiscoveredSession.t) (l : list DiscoveredSession.t) :
  In x (SessionFinder.insert_newest_first s l) <-> x = s \/ In x l.
Proof.
  induction l as [|a l IH]; simpl.
  - intuition.
  - destruct (Date.ltb _ _); simpl; [rewrite IH|]; intuition.
Qed.

Lemma sorted_reverse_in (x : DiscoveredSession.t) (l : list DiscoveredSession.t) :
  In x (SessionFinder.sorted_reverse l) <-> In x l.
Proof.
  unfold SessionFinder.sorted_reverse. induction l as [|a l IH]; simpl; [reflexivity|].
  rewrite insert_newest_first_in, IH. intuition.
Qed.

Lemma insert_keeps_newest_first (s : DiscoveredSession.t) (l : list DiscoveredSession.t) :
  newest_first l ->
  ~ In (DiscoveredSession.session_date s) (map DiscoveredSession.session_date l) ->
  newest_first (SessionFinder.insert_newest_first s l).
Proof.
  induction l as [|a l IH]; intros Hs Hnew; simpl.
  - split; constructor.
  - destruct Hs as [Hall Hs]. simpl in Hnew.
    destruct (Date.ltb (DiscoveredSession.session_date s) (DiscoveredSession.session_date a))
      eqn:Hlt.
    + split; [|apply IH; [assumption | tauto]].
      apply Forall_forall. intros x Hx. apply (proj1 (insert_newest_first_in _ _ _)) in Hx.
      destruct Hx as [->|Hx]; [assumption|].
      rewrite Forall_forall in Hall. now apply Hall.
    + assert (Has : Date.ltb (DiscoveredSession.session_date a)
                              (DiscoveredSession.session_date s) = true).
      { apply date_ltb_total; [exact Hlt|].
        intros Heq. apply Hnew. left. now symmetry. }
      clear Hlt. split; [|split; assumption].
      constructor; [assumption|].
      eapply Forall_impl; [|exact Hall]. intros b Hb.
      now apply (date_ltb_trans _ (DiscoveredSession.session_date a)).
Qed.

Lemma sorted_reverse_newest_first (l : list DiscoveredSession.t) :
  NoDup (map DiscoveredSession.session_date l) ->
  newest_first (SessionFinder.sorted_reverse l).
Proof.
  unfold SessionFinder.sorted_reverse.
  induction l as [|a l IH]; simpl; intros Hnd; [exact I|].
  inversion Hnd as [|d ds Hd Hnd']; subst.
  apply insert_keeps_newest_first; [now apply IH|].
  intros Hin. apply Hd. apply in_map_iff in Hin. destruct Hin as (x & Hx & Hin).
  apply (proj1 (sorted_reverse_in x l)) in Hin. apply in_map_iff. exists x. split; assumption.
Qed.

Lemma filter_newest_first (p : DiscoveredSession.t -> bool) (l : list DiscoveredSession.t) :
  newest_first l -> newest_first (filter p l).
Proof.
  induction l as [|a l IH]; simpl; [auto|]. intros [Hall Hs].
  destruct (p a); [|now apply IH].
  split; [|now apply IH].
  apply Forall_forall. intros x Hx. apply (proj1 (filter_In _ _ _)) in Hx.
  rewrite Forall_forall in Hall. now apply Hall.
Qed.

End SortProperties.

(** *** What [scan] returns *)

Section FinderScanProperties.

Lemma grouped_swap (extract extract_o : string -> result (option Date.t))
    (get other : DiscoveredSession.t -> list Path.t) (files others : list Path.t)
    (D : SessionFinder.sessions_dict) :
  grouped extract extract_o get other files others D ->
  grouped extract_o extract other get others files D.
Proof.
  intros (Hnd & Hall & Hkeys). split; [assumption|]. split.
  - eapply Forall_impl; [|exact Hall]. intros [k v] (H1 & H2 & H3 & H4). tauto.
  - intros d Hd. apply Hkeys. tauto.
Qed.

Lemma grouped_empty (extract extract_o : string -> result (option Date.t))
    (get other : DiscoveredSession.t -> list Path.t) :
  grouped extract extract_o get other [] [] [].
Proof.
  split; [constructor|]. split; [constructor|].
  intros d [Hd|Hd]; now contradiction Hd.
Qed.

(** The two loops of [scan] return, and leave a dict that groups the logs
    of both folders by date. *)
Lemma scan_folders_grouped (self : SessionFinder.t) :
  exists self',
    SessionFinder.scan_folders (SessionFinder.set_sessions [] self) = Returned self' /\
    grouped SessionFinder._extract_nina_date SessionFinder._extract_phd2_date
      DiscoveredSession.nina_logs DiscoveredSession.phd2_logs
      (globbed (SessionFinder.nina_folder self) "*.log")
      (globbed (SessionFinder.phd2_folder self) "PHD2_GuideLog_*.txt")
      (SessionFinder._sessions self').
Proof.
  unfold SessionFinder.scan_folders.
  assert (H1 : exists self1,
             match SessionFinder.nina_folder (SessionFinder.set_sessions [] self) with
             | Some folder =>
                 if Folder.exists_ folder
                 then for_each SessionFinder.scan_nina_file
                        (SessionFinder.set_sessions [] self) (Folder.glob folder "*.log")
                 else Returned (SessionFinder.set_sessions [] self)
             | None => Returned (SessionFinder.set_sessions [] self)
             end = Returned self1 /\
             SessionFinder.phd2_folder self1 = SessionFinder.phd2_folder self /\
             grouped SessionFinder._extract_nina_date SessionFinder._extract_phd2_date
               DiscoveredSession.nina_logs DiscoveredSession.phd2_logs
               (globbed (SessionFinder.nina_folder self) "*.log") []
               (SessionFinder._sessions self1)).
  { unfold globbed. simpl.
    destruct (SessionFinder.nina_folder self) as [folder|];
      [destruct (Folder.exists_ folder)|];
      try (eexists; split; [reflexivity|]; split; [reflexivity | apply grouped_empty]).
    destruct (loop_grouped SessionFinder._extract_nina_date SessionFinder._extract_phd2_date
                DiscoveredSession.nina_logs DiscoveredSession.phd2_logs
                DiscoveredSession.append_nina_log SessionFinder.scan_nina_file []
                nina_date_value
                (fun f s => eq_refl) (fun f s => eq_refl) (fun f s => eq_refl)
                (fun d => eq_refl) (fun d => eq_refl) (fun self0 f => eq_refl)
                (Folder.glob folder "*.log") [] (SessionFinder.set_sessions [] self)
                (grouped_empty _ _ _ _))
      as (self1 & Hrun & _ & Hp & Hg).
    exists self1. auto. }
  destruct H1 as (self1 & -> & Hp1 & Hg1). simpl.
  apply grouped_swap in Hg1.
  assert (H2 : exists self2,
             match SessionFinder.phd2_folder self1 with
             | Some folder =>
                 if Folder.exists_ folder
                 then for_each SessionFinder.scan_phd2_file self1
                        (Folder.glob folder "PHD2_GuideLog_*.txt")
                 else Returned self1
             | None => Returned self1
             end = Returned self2 /\
             grouped SessionFinder._extract_phd2_date SessionFinder._extract_nina_date
               DiscoveredSession.phd2_logs DiscoveredSession.nina_logs
               (globbed (SessionFinder.phd2_folder self) "PHD2_GuideLog_*.txt")
               (globbed (SessionFinder.nina_folder self) "*.log")
               (SessionFinder._sessions self2)).
  { unfold globbed at 1. rewrite Hp1.
    destruct (SessionFinder.phd2_folder self) as [folder|];
      [destruct (Folder.exists_ folder)|];
      try (eexists; split; [reflexivity | exact Hg1]).
    destruct (loop_grouped SessionFinder._extract_phd2_date SessionFinder._extract_nina_date
                DiscoveredSession.phd2_logs DiscoveredSession.nina_logs
                DiscoveredSession.append_phd2_log SessionFinder.scan_phd2_file
                (globbed (SessionFinder.nina_folder self) "*.log")
                phd2_date_value
                (fun f s => eq_refl) (fun f s => eq_refl) (fun f s => eq_refl)
                (fun d => eq_refl) (fun d => eq_refl) (fun self0 f => eq_refl)
                (Folder.glob folder "PHD2_GuideLog_*.txt") [] self1 Hg1)
      as (self2 & Hrun & _ & _ & Hg).
    exists self2. auto. }
  destruct H2 as (self2 & -> & Hg2).
  exists self2. split; [reflexivity|]. now apply grouped_swap.
Qed.

Lemma grouped_values_dates (extract extract_o : string -> result (option Date.t))
    (get other : DiscoveredSession.t -> list Path.t) (files others : list Path.t)
    (D : SessionFinder.sessions_dict) :
  grouped extract extract_o get other files others D ->
  map DiscoveredSession.session_date (SessionFinder.values D) = map fst D.
Proof.
  intros (_ & Hall & _). unfold SessionFinder.values. rewrite map_map.
  induction Hall as [|[k v] D (Hk & _) _ IH]; simpl; [reflexivity|].
  simpl in Hk. now rewrite Hk, IH.
Qed.

(** X18. [scan] never raises. Every session it returns holds the NINA logs and
    the PHD2 logs whose names carry the session's date, each list in the
    order of its glob, and at least one log; and a date has a session
    exactly when a log of one of the two folders carries it. A folder that
    is not set or does not exist counts as empty. *)
Theorem scan_groups_logs_by_date (self : SessionFinder.t) :
  exists self' sessions,
    SessionFinder.scan self = Value (self', sessions) /\
    Forall (fun s =>
              DiscoveredSession.nina_logs s
              = dated SessionFinder._extract_nina_date (DiscoveredSession.session_date s)
                  (globbed (SessionFinder.nina_folder self) "*.log") /\
              DiscoveredSession.phd2_logs s
              = dated SessionFinder._extract_phd2_date (DiscoveredSession.session_date s)
                  (globbed (SessionFinder.phd2_folder self) "PHD2_GuideLog_*.txt") /\
              (DiscoveredSession.nina_logs s <> [] \/ DiscoveredSession.phd2_logs s <> []))
           sessions /\
    forall d,
      (exists s, In s sessions /\ DiscoveredSession.session_date s = d) <->
      (dated SessionFinder._extract_nina_date d
         (globbed (SessionFinder.nina_folder self) "*.log") <> [] \/
       dated SessionFinder._extract_phd2_date d
         (globbed (SessionFinder.phd2_folder self) "PHD2_GuideLog_*.txt") <> []).
Proof.
  destruct (scan_folders_grouped self) as (self' & Hrun & Hg).
  unfold SessionFinder.scan. rewrite Hrun.
  exists self', (SessionFinder.sorted_reverse (SessionFinder.values (SessionFinder._sessions self'))).
  split; [reflexivity|].
  destruct Hg as (Hnd & Hall & Hkeys).
  assert (Hvals : forall s, In s (SessionFinder.values (SessionFinder._sessions self')) ->
             DiscoveredSession.nina_logs s
             = dated SessionFinder._extract_nina_date (DiscoveredSession.session_date s)
                 (globbed (SessionFinder.nina_folder self) "*.log") /\
             DiscoveredSession.phd2_logs s
             = dated SessionFinder._extract_phd2_date (DiscoveredSession.session_date s)
                 (globbed (SessionFinder.phd2_folder self) "PHD2_GuideLog_*.txt") /\
             (DiscoveredSession.nina_logs s <> [] \/ DiscoveredSession.phd2_logs s <> []) /\
             In (DiscoveredSession.session_date s) (map fst (SessionFinder._sessions self'))).
  { intros s Hin. unfold SessionFinder.values in Hin. apply in_map_iff in Hin.
    destruct Hin as ([k v] & <- & Hin). rewrite Forall_forall in Hall.
    destruct (Hall (k, v) Hin) as (Hk & Hn & Hp & Hne). simpl in *.
    rewrite Hk. repeat split; auto. apply in_map_iff. exists (k, v). auto. }
  split.
  - apply Forall_forall. intros s Hin. apply (proj1 (sorted_reverse_in _ _)) in Hin.
    destruct (Hvals s Hin) as (Hn & Hp & Hne & _). auto.
  - intros d. split.
    + intros (s & Hin & <-). apply (proj1 (sorted_reverse_in _ _)) in Hin.
      destruct (Hvals s Hin) as (Hn & Hp & Hne & _). rewrite <- Hn, <- Hp. exact Hne.
    + intros Hd. apply Hkeys in Hd. apply in_map_iff in Hd.
      destruct Hd as ([k v] & Hk & Hin). simpl in Hk. subst k.
      exists v. split.
      * apply (proj2 (sorted_reverse_in _ _)). unfold SessionFinder.values.
        apply in_map_iff. exists (d, v). auto.
      * rewrite Forall_forall in Hall. now destruct (Hall (d, v) Hin) as (Hk & _).
Qed.

(** X19. The sessions [scan] returns are in strictly descending order of date,
    newest first: no two of them share a date. *)
Theorem scan_returns_newest_first (self : SessionFinder.t) :
  exists self' sessions,
    SessionFinder.scan self = Value (self', sessions) /\ newest_first sessions.
Proof.
  destruct (scan_folders_grouped self) as (self' & Hrun & Hg).
  unfold SessionFinder.scan. rewrite Hrun.
  exists self', (SessionFinder.sorted_reverse (SessionFinder.values (SessionFinder._sessions self'))).
  split; [reflexivity|].
  apply sorted_reverse_newest_first.
  rewrite (grouped_values_dates _ _ _ _ _ _ _ Hg). now destruct Hg.
Qed.

(** X20. [get_matching_sessions] never raises and returns, newest first, the
    sessions of the dates that a NINA log and a PHD2 log both carry: each
    holds the logs of its date, at least one of either kind. *)
Theorem matching_sessions_have_both_logs (self : SessionFinder.t) :
  exists self' sessions,
    SessionFinder.get_matching_sessions self = Value (self', sessions) /\
    newest_first sessions /\
    Forall (fun s =>
              DiscoveredSession.nina_logs s
              = dated SessionFinder._extract_nina_date (DiscoveredSession.session_date s)
                  (globbed (SessionFinder.nina_folder self) "*.log") /\
              DiscoveredSession.phd2_logs s
              = dated SessionFinder._extract_phd2_date (DiscoveredSession.session_date s)
                  (globbed (SessionFinder.phd2_folder self) "PHD2_GuideLog_*.txt") /\
              DiscoveredSession.nina_logs s <> [] /\ DiscoveredSession.phd2_logs s <> [])
           sessions /\
    forall d,
      (exists s, In s sessions /\ DiscoveredSession.session_date s = d) <->
      (dated SessionFinder._extract_nina_date d
         (globbed (SessionFinder.nina_folder self) "*.log") <> [] /\
       dated SessionFinder._extract_phd2_date d
         (globbed (SessionFinder.phd2_folder self) "PHD2_GuideLog_*.txt") <> []).
Proof.
  destruct (scan_folders_grouped self) as (self' & Hrun & Hg).
  unfold SessionFinder.get_matching_sessions, SessionFinder.scan. rewrite Hrun.
  eexists. eexists. split; [reflexivity|].
  assert (Hboth : forall s, DiscoveredSession.has_both s = true <->
                            DiscoveredSession.nina_logs s <> [] /\
                            DiscoveredSession.phd2_logs s <> []).
  { intros s. unfold DiscoveredSession.has_both.
    destruct (DiscoveredSession.nina_logs s), (DiscoveredSession.phd2_logs s);
      split; intros Hb; try discriminate Hb; try reflexivity;
      try (split; discriminate); destruct Hb as [H1 H2]; contradiction. }
  split.
  { apply filter_newest_first, sorted_reverse_newest_first.
    rewrite (grouped_values_dates _ _ _ _ _ _ _ Hg). now destruct Hg. }
  destruct Hg as (Hnd & Hall & Hkeys). rewrite Forall_forall in Hall.
  split.
  - apply Forall_forall. intros s Hin. apply (proj1 (filter_In _ _ _)) in Hin. destruct Hin as [Hin Hb].
    apply (proj1 (sorted_reverse_in _ _)) in Hin. unfold SessionFinder.values in Hin.
    apply in_map_iff in Hin. destruct Hin as ([k v] & <- & Hin).
    destruct (Hall (k, v) Hin) as (Hk & Hn & Hp & _). simpl in *.
    apply (proj1 (Hboth _)) in Hb. rewrite Hk. tauto.
  - intros d. split.
    + intros (s & Hin & <-). apply (proj1 (filter_In _ _ _)) in Hin. destruct Hin as [Hin Hb].
      apply (proj1 (sorted_reverse_in _ _)) in Hin. unfold SessionFinder.values in Hin.
      apply in_map_iff in Hin. destruct Hin as ([k v] & <- & Hin).
      destruct (Hall (k, v) Hin) as (Hk & Hn & Hp & _). simpl in *.
      apply (proj1 (Hboth _)) in Hb. rewrite Hk, <- Hn, <- Hp. exact Hb.
    + intros [Hn Hp].
      assert (Hd : In d (map fst (SessionFinder._sessions self'))) by (apply Hkeys; now left).
      apply in_map_iff in Hd. destruct Hd as ([k v] & Hk & Hin). simpl in Hk. subst k.
      destruct (Hall (d, v) Hin) as (Hk & Hn' & Hp' & _). simpl in *.
      exists v. split; [|assumption].
      apply (proj2 (filter_In _ _ _)). split.
      * apply (proj2 (sorted_reverse_in _ _)). unfold SessionFinder.values.
        apply in_map_iff. exists (d, v). auto.
      * apply (proj2 (Hboth _)). rewrite Hn', Hp'. auto.
Qed.

End FinderScanProperties.

(** ** A loaded session *)

Section LoadedSession.
Context {F : Type} `{PyNum F}.


End LoadedSession.

(** ** The further properties on the sample logs *)

Section MoreWitnesses.
Import Samples MoreSamples Decimal6.

Lemma empty_dither_list_excludes_nothing_witness :
  list_truthy (Some (@nil DitherEvent.t)) = false /\
  PHD2Parser.get_overall_rms parsed_guide_log (Some []) 3000000
  = PHD2Parser.get_overall_rms parsed_guide_log None 5000000 /\
  PHD2Parser.get_rms_over_time parsed_guide_log 60000000 (Some []) 3000000
  = PHD2Parser.get_rms_over_time parsed_guide_log 60000000 None 5000000 /\
  correlate_guiding_with_exposures parsed_guide_log parsed_imaging_log (Some []) 3000000
  = correlate_guiding_with_exposures parsed_guide_log parsed_imaging_log None 5000000.
Proof.
  split; [reflexivity|].
  exact (empty_dither_list_excludes_nothing (F:=F) parsed_guide_log parsed_imaging_log
           60000000 (Some []) 3000000 5000000 eq_refl).
Defined.

Lemma excluded_exposure_keeps_earlier_rms_witness :
  In first_exposure (NINAParser.exposures parsed_imaging_log) /\
  qualifying_frames (PHD2Parser.sessions parsed_guide_log) first_exposure
    covering_dither 3000000 = [] /\
  In (correlate_exposure (PHD2Parser.sessions parsed_guide_log)
        (first_pixel_scale (PHD2Parser.sessions parsed_guide_log)) None 3000000
        first_exposure)
     (NINAParser.exposures
        (correlate_guiding_with_exposures parsed_guide_log
           (correlate_guiding_with_exposures parsed_guide_log parsed_imaging_log
              None 3000000)
           covering_dither 3000000)).
Proof.
  assert (Hin : In first_exposure (NINAParser.exposures parsed_imaging_log)).
  { vm_compute. left. reflexivity. }
  assert (Hq : qualifying_frames (PHD2Parser.sessions parsed_guide_log) first_exposure
                 covering_dither 3000000 = []).
  { vm_compute. reflexivity. }
  split; [exact Hin|]. split; [exact Hq|].
  exact (excluded_exposure_keeps_earlier_rms (F:=F) parsed_guide_log parsed_imaging_log
           None covering_dither 3000000 3000000 first_exposure Hin Hq).
Defined.


Lemma listed_exposures_are_saved_witness :
  Forall saved_exposure
    (NINAParser.exposures (state_of (NINAParser.parse (F:=F) NINAParser.init imaging_log_hfr))) /\
  Forall (fun row => f_truthy (snd (fst row)) = true)
    (NINAParser.get_hfr_over_time
       (state_of (NINAParser.parse (F:=F) NINAParser.init imaging_log_hfr))) /\
  pending_fresh (state_of (NINAParser.parse (F:=F) NINAParser.init imaging_log_hfr)).
Proof.
  apply (listed_exposures_are_saved (F:=F) NINAParser.init imaging_log_hfr).
  intros e He. discriminate He.
Defined.

Lemma session_start_is_kept_witness :
  NINAParser.session_start parsed_imaging_log = Some 63904716259100000 /\
  NINAParser.session_start (state_of (NINAParser.parse parsed_imaging_log next_night_log))
  = Some 63904716259100000.
Proof.
  assert (Hstart : NINAParser.session_start parsed_imaging_log = Some 63904716259100000).
  { vm_compute. reflexivity. }
  split; [exact Hstart|].
  exact (session_start_is_kept (F:=F) parsed_imaging_log next_night_log
           63904716259100000 Hstart).
Defined.


Lemma exposures_bounded_by_markers_witness :
  (length (NINAParser.exposures
             (state_of (NINAParser.parse (F:=F) NINAParser.init imaging_log_hfr)))
   <= length (filter saved_marker imaging_log_hfr))%nat /\
  (length (NINAParser.exposures
             (state_of (NINAParser.parse (F:=F) NINAParser.init imaging_log_hfr)))
   <= length (filter exposure_marker imaging_log_hfr))%nat.
Proof.
  exact (exposures_bounded_by_markers (F:=F) NINAParser.init imaging_log_hfr eq_refl).
Defined.


End MoreWitnesses.
